(** * mcp-latex-tools: the four tool functions, embedded and verified

    A shallow embedding of the Python functions of
    [src/mcp_latex_tools/tools/] ([pdf_info.py], [validate.py],
    [compile.py], [cleanup.py]) together with the properties that their
    specification states about them.

    Conventions of the embedding:
    - a Python [str] is a [string]; every [ascii] stands for one code point
      below 256, and the character classes of [re] are the ones CPython
      uses on that range;
    - a Python exception is a value of [exn]; a call that may raise returns
      an [outcome];
    - the file system, the clock and the compiler process are explicit
      arguments: functions that touch the disk take a [FileSystem] and
      return the new one;
    - wall-clock durations ([*_time_seconds]) are floats read from the clock
      and are left out of the result records. *)

From Stdlib Require Import String Ascii List ZArith Lia Bool Arith.
From Stdlib Require Import DecimalString.
Import ListNotations.

Open Scope string_scope.

(** ** Python values shared by the four modules *)

Module Py.

(** Exception classes that the modelled code raises or catches. *)
Inductive exn_class : Type :=
| CleanupError
| CompilationError
| ValidationError
| OSError
| PermissionError
| FileExistsError
| FileNotFoundError
| NotADirectoryError
| IsADirectoryError
| SameFileError
| TimeoutExpired
| ValueError
| IndexError
| RuntimeError.

(** An exception instance: its class and [str(e)]. *)
Record exn : Type := Exn { exn_cls : exn_class; exn_msg : string }.

(** The result of a call: a returned value or a propagating exception. *)
Inductive outcome (A : Type) : Type :=
| Returned (a : A)
| Raised (e : exn).
Arguments Returned {A} a.
Arguments Raised {A} e.

Definition bind {A B : Type} (m : outcome A) (k : A -> outcome B) : outcome B :=
  match m with
  | Returned a => k a
  | Raised e => Raised e
  end.

Notation "x <- m ;; k" := (bind m (fun x => k))
  (at level 61, m at next level, right associativity).

(** [len(s)] is [String.length s]. *)

(** [s[a:b]] for [0 <= a]; the slice is clipped to the string, as in Python. *)
Definition slice (a b : nat) (s : string) : string := substring a (b - a) s.

(** [s[a:]]. *)
Definition slice_from (a : nat) (s : string) : string :=
  substring a (String.length s - a) s.

(** [s[i]]: raises [IndexError] out of range. *)
Definition getitem (s : string) (i : nat) : outcome string :=
  match get i s with
  | Some c => Returned (String c "")
  | None => Raised (Exn IndexError "string index out of range")
  end.

(** [s.startswith(p)]. *)
Definition startswith (p s : string) : bool := prefix p s.

(** [c in s] for a one-character needle, and [s.index(c)], which raises
    [ValueError] when the needle is absent. *)
Definition contains (needle s : string) : bool :=
  match index 0 needle s with
  | Some _ => true
  | None => false
  end.

Definition str_index (needle s : string) : outcome nat :=
  match index 0 needle s with
  | Some i => Returned i
  | None => Raised (Exn ValueError "substring not found")
  end.

(** [str(n)] for an integer. *)
Definition str_of_Z (n : Z) : string := NilZero.string_of_int (Z.to_int n).

(** [sep.join(l)]. *)
Fixpoint join (sep : string) (l : list string) : string :=
  match l with
  | [] => ""
  | [x] => x
  | x :: rest => x ++ sep ++ join sep rest
  end.

(** [x in l] for a list or a set of strings. *)
Definition str_in (x : string) (l : list string) : bool :=
  existsb (String.eqb x) l.

(** [set(l)]: the distinct elements.  CPython iterates a set in an order of
    its own; the model iterates in the order [nodup] leaves. *)
Definition set_of (l : list string) : list string := nodup string_dec l.

End Py.

Import Py.

(** ** [pdf_info.py]: PDF date strings *)

Module PdfInfo.

(** The body of the [try] block of [_format_pdf_date], entered with the
    [D:] prefix already removed.  [getitem] and [str_index] are the two
    operations of the block that can raise. *)
Definition format_body (pdf_date : string) : outcome (option string) :=
  if (14 <=? String.length pdf_date)%nat then
    let year := slice 0 4 pdf_date in
    let month := slice 4 6 pdf_date in
    let day := slice 6 8 pdf_date in
    let hour := slice 8 10 pdf_date in
    let minute := slice 10 12 pdf_date in
    let second := slice 12 14 pdf_date in
    timezone_str <-
      (if (14 <? String.length pdf_date)%nat then
         let tz_part := slice_from 14 pdf_date in
         if startswith "+" tz_part || startswith "-" tz_part then
           tz_sign <- getitem tz_part 0 ;;
           let tz_hours :=
             if (2 <? String.length tz_part)%nat then slice 1 3 tz_part else "00" in
           tz_mins <-
             (if contains "'" tz_part then
                i <- str_index "'" tz_part ;;
                if (i + 2 <? String.length tz_part)%nat then
                  j <- str_index "'" tz_part ;;
                  k <- str_index "'" tz_part ;;
                  Returned (slice (j + 1) (k + 3) tz_part)
                else Returned "00"
              else Returned "00") ;;
           Returned (tz_sign ++ tz_hours ++ ":" ++ tz_mins)
         else Returned "Z"
       else Returned "Z") ;;
    Returned
      (Some (year ++ "-" ++ month ++ "-" ++ day ++ "T"
             ++ hour ++ ":" ++ minute ++ ":" ++ second ++ timezone_str))
  else if (8 <=? String.length pdf_date)%nat then
    let year := slice 0 4 pdf_date in
    let month := slice 4 6 pdf_date in
    let day := slice 6 8 pdf_date in
    Returned (Some (year ++ "-" ++ month ++ "-" ++ day ++ "T00:00:00Z"))
  else Returned None.

(** The first statement of the [try] block: drop a leading [D:]. *)
Definition stripped (pdf_date : string) : string :=
  if startswith "D:" pdf_date then slice_from 2 pdf_date else pdf_date.

(** [_format_pdf_date(pdf_date)].  The prefix is stripped by rebinding
    [pdf_date] inside the [try], so the handler returns the rebound value. *)
Definition _format_pdf_date (pdf_date : option string) : option string :=
  match pdf_date with
  | None => None
  | Some "" => None
  | Some raw =>
      let pdf_date := stripped raw in
      match format_body pdf_date with
      | Returned r => r
      | Raised _ => Some pdf_date
      end
  end.

End PdfInfo.

(** ** [validate.py]: structural checks on LaTeX source *)

Module Validate.

Record ValidationResult : Type := mkValidationResult {
  is_valid : bool;
  error_message : option string;
  errors : list string
}.

(** *** The regular expressions of the validator

    Each pattern of [validate.py] is written out as the matcher that [re]
    runs for it.  Every repetition is followed by a character outside the
    repeated class, so the greedy run is the only one that can succeed. *)

Definition code (c : ascii) : nat := nat_of_ascii c.

Definition between (lo hi n : nat) : bool := ((lo <=? n) && (n <=? hi))%nat.

(** [\s] on code points below 256. *)
Definition is_space (c : ascii) : bool :=
  let n := code c in
  between 9 13 n || between 28 32 n || (n =? 133)%nat || (n =? 160)%nat.

(** [\w] on code points below 256. *)
Definition is_word (c : ascii) : bool :=
  let n := code c in
  between 48 57 n || between 65 90 n || (n =? 95)%nat || between 97 122 n
  || (n =? 170)%nat || between 178 179 n || (n =? 181)%nat
  || between 185 186 n || between 188 190 n || between 192 214 n
  || between 216 246 n || between 248 255 n.

(** [.] matches everything but a line feed. *)
Definition is_newline (c : ascii) : bool := (code c =? 10)%nat.

(** Remove a literal prefix. *)
Fixpoint strip_prefix (lit s : string) : option string :=
  match lit with
  | "" => Some s
  | String a lit' =>
      match s with
      | "" => None
      | String b s' => if Ascii.eqb a b then strip_prefix lit' s' else None
      end
  end.

(** [\s*] *)
Fixpoint skip_spaces (s : string) : string :=
  match s with
  | "" => ""
  | String c s' => if is_space c then skip_spaces s' else s
  end.

(** [\w*]: the word run and what follows it. *)
Fixpoint take_word (s : string) : string * string :=
  match s with
  | "" => ("", "")
  | String c s' =>
      if is_word c then
        let (w, rest) := take_word s' in (String c w, rest)
      else ("", s)
  end.

(** [kw\s*\{(\w+)\}] anchored at the start of [s]: the group and the rest. *)
Definition match_env (kw s : string) : option (string * string) :=
  match strip_prefix kw s with
  | None => None
  | Some r =>
      match skip_spaces r with
      | String "{" r1 =>
          match take_word r1 with
          | (String c w, String "}" r2) => Some (String c w, r2)
          | _ => None
          end
      | _ => None
      end
  end.

(** [re.findall(kw\s*\{(\w+)\}, s)]: the groups of the successive
    non-overlapping matches, leftmost first.  [skip] counts the characters
    of the last match that are still to be stepped over. *)
Fixpoint findall_env (kw : string) (skip : nat) (s : string) : list string :=
  match s with
  | "" => []
  | String _ s' =>
      match skip with
      | S k => findall_env kw k s'
      | O =>
          match match_env kw s with
          | Some (w, rest) =>
              w :: findall_env kw (String.length s' - String.length rest) s'
          | None => findall_env kw 0 s'
          end
      end
  end.

(** [kw\s*\{env\}] anchored at the start of [s], for a literal [env]. *)
Definition match_named (kw env s : string) : bool :=
  match strip_prefix kw s with
  | None => false
  | Some r =>
      match strip_prefix "{" (skip_spaces r) with
      | None => false
      | Some r1 =>
          match strip_prefix env r1 with
          | None => false
          | Some r2 =>
              match strip_prefix "}" r2 with
              | None => false
              | Some _ => true
              end
          end
      end
  end.

(** [re.search(kw\s*\{env\}, s)] as a truth value. *)
Fixpoint search_named (kw env s : string) : bool :=
  match_named kw env s
  || match s with
     | "" => false
     | String _ s' => search_named kw env s'
     end.

(** [c] occurs before the end of the line: [.*?c]. *)
Fixpoint closes_on_line (c : ascii) (s : string) : bool :=
  match s with
  | "" => false
  | String x s' =>
      if Ascii.eqb x c then true
      else if is_newline x then false
      else closes_on_line c s'
  end.

(** [\{.*?\}] anchored at the start of [s]. *)
Definition braced_here (s : string) : bool :=
  match s with
  | String "{" s' => closes_on_line "}" s'
  | _ => false
  end.

(** [.*?\]\s*\{.*?\}]: some closing bracket on the line is followed by the
    braced argument. *)
Fixpoint bracket_then_braced (s : string) : bool :=
  match s with
  | "" => false
  | String x s' =>
      if Ascii.eqb x "]" then
        braced_here (skip_spaces s') || bracket_then_braced s'
      else if is_newline x then false
      else bracket_then_braced s'
  end.

(** [\\documentclass\s*(\[.*?\])?\s*\{.*?\}] anchored at the start of [s]. *)
Definition match_documentclass (s : string) : bool :=
  match strip_prefix "\documentclass" s with
  | None => false
  | Some r =>
      let t := skip_spaces r in
      braced_here t
      || match t with
         | String "[" t' => bracket_then_braced t'
         | _ => false
         end
  end.

Fixpoint search_documentclass (s : string) : bool :=
  match_documentclass s
  || match s with
     | "" => false
     | String _ s' => search_documentclass s'
     end.

(** *** The checks that fill [errors] *)

(** The document-shell checks. *)
Definition shell_errors (content : string) : list string :=
  ((if search_documentclass content then []
    else ["Missing \documentclass command"])
   ++ (if search_named "\begin" "document" content then []
       else ["Missing \begin{document}"])
   ++ (if search_named "\end" "document" content then []
       else ["Missing \end{document}"]))%list.

(** The [for char in content] loop: the counter when the loop ends, and
    whether it ended through [break]. *)
Fixpoint brace_scan (content : string) (brace_count : Z) : Z * bool :=
  match content with
  | "" => (brace_count, false)
  | String char rest =>
      let brace_count :=
        if Ascii.eqb char "{" then (brace_count + 1)%Z
        else if Ascii.eqb char "}" then (brace_count - 1)%Z
        else brace_count in
      if (brace_count <? 0)%Z then (brace_count, true)
      else brace_scan rest brace_count
  end.

Definition brace_errors (content : string) : list string :=
  let (brace_count, broke) := brace_scan content 0 in
  ((if broke then ["Unmatched closing brace }"] else [])
   ++ (if (brace_count >? 0)%Z then
         [("Unmatched opening braces: " ++ str_of_Z brace_count
           ++ " unclosed")%string]
       else if (brace_count <? 0)%Z then
         [("Unmatched closing braces: " ++ str_of_Z (Z.abs brace_count)
           ++ " extra")%string]
       else []))%list.

(** One pass of an environment check: every name that [opener] introduces
    and [closer] does not mention anywhere adds one message. *)
Definition env_errors (opener closer label content : string) : list string :=
  flat_map
    (fun env =>
       if search_named closer env content then [] else [label ++ env])
    (findall_env opener 0 content).

Definition unclosed_errors (content : string) : list string :=
  env_errors "\begin" "\end" "Unclosed environment: " content.

Definition unopened_errors (content : string) : list string :=
  env_errors "\end" "\begin" "Environment ended without begin: " content.

(** The [errors] list that [validate_latex] builds from the file's text.
    The [warnings] list is filled by separate checks that never touch
    [errors]; it is not part of this model. *)
Definition collect_errors (content : string) : list string :=
  (shell_errors content ++ brace_errors content
   ++ unclosed_errors content ++ unopened_errors content)%list.

(** What [Path(file_path)] holds for the validator. *)
Inductive source_file : Type :=
| Missing
| Unreadable (why : string)
| Text (content : string).

(** [validate_latex(file_path, quick, strict)], reading through [disk]. *)
Definition validate_latex (disk : string -> source_file)
    (file_path : option string) (quick strict : bool)
  : outcome ValidationResult :=
  match file_path with
  | None => Raised (Exn ValidationError "File path cannot be None")
  | Some "" => Raised (Exn ValidationError "File path cannot be empty")
  | Some file_path =>
      if quick && strict then
        Raised (Exn ValidationError
                  "Cannot use both quick and strict modes simultaneously")
      else
        match disk file_path with
        | Missing =>
            Raised (Exn ValidationError ("File not found: " ++ file_path))
        | Unreadable why =>
            Raised (Exn ValidationError ("Failed to read file: " ++ why))
        | Text content =>
            let errors := collect_errors content in
            Returned
              {| is_valid := (List.length errors =? 0)%nat;
                 error_message :=
                   match errors with
                   | [] => None
                   | _ => Some (join "; " errors)
                   end;
                 errors := errors |}
        end
  end.

End Validate.


(** ** [pathlib]: pure paths and a file system to resolve them in *)

Module PathLib.

(** A path is its [parts] tuple: [Path("/w/a.tex").parts] is
    [("/", "w", "a.tex")], [Path(".").parts] is [()]. *)
Definition Path : Type := list string.

Definition path_eq_dec : forall p q : Path, {p = q} + {p <> q} :=
  list_eq_dec string_dec.

Definition path_eqb (p q : Path) : bool :=
  if path_eq_dec p q then true else false.

Definition path_in (p : Path) (l : list Path) : bool :=
  existsb (path_eqb p) l.

Definition is_root (c : string) : bool := (c =? "/") || (c =? "//").

(** The components of a relative path string: split at [/], empty and [.]
    components dropped.  [cur] is the component being read. *)
Fixpoint components (s cur : string) : list string :=
  let emit (rest : list string) :=
    if (cur =? "") || (cur =? ".") then rest else cur :: rest in
  match s with
  | "" => emit []
  | String c s' =>
      if Ascii.eqb c "/" then emit (components s' "")
      else components s' (cur ++ String c "")
  end.

Fixpoint leading_slashes (s : string) : nat :=
  match s with
  | String "/" s' => S (leading_slashes s')
  | _ => 0
  end.

(** [Path(s)] on a POSIX system. *)
Definition Path_of (s : string) : Path :=
  match leading_slashes s with
  | 0 => components s ""
  | 2 => "//" :: components s ""
  | _ => "/" :: components s ""
  end.

(** [str(p)] *)
Definition str (p : Path) : string :=
  match p with
  | [] => "."
  | r :: rest => if is_root r then r ++ join "/" rest else join "/" p
  end.

(** [p.parent] *)
Definition parent (p : Path) : Path :=
  match p with
  | [] => []
  | [r] => if is_root r then [r] else []
  | _ => removelast p
  end.

(** [p.name] *)
Definition name (p : Path) : string :=
  match p with
  | [] => ""
  | [r] => if is_root r then "" else r
  | _ => last p ""
  end.

(** [s.rfind(".")]: the position of the last dot. *)
Fixpoint rfind_dot (s : string) (pos : nat) (found : option nat) : option nat :=
  match s with
  | "" => found
  | String c s' =>
      rfind_dot s' (S pos) (if Ascii.eqb c "." then Some pos else found)
  end.

(** The position at which [name] splits into stem and suffix, when the last
    dot is neither the first nor the last character. *)
Definition suffix_start (nm : string) : option nat :=
  match rfind_dot nm 0 None with
  | Some i =>
      if ((0 <? i) && (i <? String.length nm - 1))%nat then Some i else None
  | None => None
  end.

(** [p.suffix] *)
Definition suffix (p : Path) : string :=
  match suffix_start (name p) with
  | Some i => slice_from i (name p)
  | None => ""
  end.

(** [p.stem] *)
Definition stem (p : Path) : string :=
  match suffix_start (name p) with
  | Some i => slice 0 i (name p)
  | None => name p
  end.

(** [p / s]: an absolute right operand replaces the left one. *)
Definition joinpath (p : Path) (s : string) : Path :=
  if startswith "/" s then Path_of s else (p ++ Path_of s)%list.

(** [q] lies strictly below [p]. *)
Fixpoint below (p q : Path) : bool :=
  match p, q with
  | [], [] => false
  | [], c :: _ => negb (is_root c)
  | _ :: _, [] => false
  | a :: p', b :: q' =>
      (a =? b) && match p' with
                  | [] => match q' with [] => false | _ => true end
                  | _ => below p' q'
                  end
  end.

(** [q] is an entry of the directory [p]. *)
Definition child (p q : Path) : bool :=
  below p q && (List.length q =? S (List.length p))%nat.

(** *** The file system *)

Inductive Node : Type := File | Dir.

(** The disk has regular files and directories only: no symbolic links,
    and [..] is a name like any other.  [nodes] binds each existing path to
    its kind, the first binding of a path being the one in force.  The other fields list where the system
    refuses an operation: [undeletable] entries cannot be unlinked,
    [unwritable] directories take no new entry and [unwritable] files
    cannot be overwritten, [unreadable] files cannot be opened for
    reading, and listing an [unlistable] directory fails with an I/O
    error. *)
Record FileSystem : Type := mkFS {
  nodes : list (Path * Node);
  undeletable : list Path;
  unwritable : list Path;
  unreadable : list Path;
  unlistable : list Path
}.

Fixpoint assoc (p : Path) (l : list (Path * Node)) : option Node :=
  match l with
  | [] => None
  | (q, k) :: l' => if path_eqb p q then Some k else assoc p l'
  end.

Definition lookup (fs : FileSystem) (p : Path) : option Node :=
  assoc p (nodes fs).

(** [p.exists()] *)
Definition exists_ (fs : FileSystem) (p : Path) : bool :=
  match lookup fs p with Some _ => true | None => false end.

(** [p.is_file()] *)
Definition is_file (fs : FileSystem) (p : Path) : bool :=
  match lookup fs p with Some File => true | _ => false end.

(** [p.is_dir()] *)
Definition is_dir (fs : FileSystem) (p : Path) : bool :=
  match lookup fs p with Some Dir => true | _ => false end.

Definition with_nodes (fs : FileSystem) (l : list (Path * Node)) : FileSystem :=
  {| nodes := l;
     undeletable := undeletable fs;
     unwritable := unwritable fs;
     unreadable := unreadable fs;
     unlistable := unlistable fs |}.

Definition drop (p : Path) (l : list (Path * Node)) : list (Path * Node) :=
  filter (fun e => negb (path_eqb p (fst e))) l.

(** [p.unlink()] *)
Definition unlink (fs : FileSystem) (p : Path) : outcome FileSystem :=
  match lookup fs p with
  | Some File =>
      if path_in p (undeletable fs) then
        Raised (Exn PermissionError ("Permission denied: " ++ str p))
      else Returned (with_nodes fs (drop p (nodes fs)))
  | Some Dir => Raised (Exn IsADirectoryError ("Is a directory: " ++ str p))
  | None => Raised (Exn FileNotFoundError ("No such file or directory: " ++ str p))
  end.

(** [p.unlink()] would succeed. *)
Definition removable (fs : FileSystem) (p : Path) : bool :=
  is_file fs p && negb (path_in p (undeletable fs)).

(** [fs'] is [fs] with some entries gone and nothing else changed. *)
Definition shrunk (fs fs' : FileSystem) : Prop :=
  undeletable fs' = undeletable fs
  /\ unlistable fs' = unlistable fs
  /\ (forall q, lookup fs' q = lookup fs q \/ lookup fs' q = None)
  /\ incl (map fst (nodes fs')) (map fst (nodes fs)).

(** Create the entry [p] of kind [k] in its parent directory. *)
Definition create (fs : FileSystem) (p : Path) (k : Node) : outcome FileSystem :=
  match lookup fs (parent p) with
  | Some Dir =>
      if path_in (parent p) (unwritable fs) then
        Raised (Exn PermissionError ("Permission denied: " ++ str p))
      else Returned (with_nodes fs (nodes fs ++ [(p, k)])%list)
  | Some File => Raised (Exn NotADirectoryError ("Not a directory: " ++ str p))
  | None => Raised (Exn FileNotFoundError ("No such file or directory: " ++ str p))
  end.

(** [p.mkdir(exist_ok=True)] *)
Definition mkdir (fs : FileSystem) (p : Path) : outcome FileSystem :=
  match lookup fs p with
  | Some Dir => Returned fs
  | Some File => Raised (Exn FileExistsError ("File exists: " ++ str p))
  | None => create fs p Dir
  end.

(** [shutil.copy2(src, dst)]: a directory as destination receives the file
    under its own name; source and destination must differ. *)
Definition copy2 (fs : FileSystem) (src dst : Path) : outcome FileSystem :=
  let target := if is_dir fs dst then joinpath dst (name src) else dst in
  if path_eqb src target && exists_ fs src then
    Raised (Exn SameFileError (str src ++ " and " ++ str target
                               ++ " are the same file"))
  else
    match lookup fs src with
    | None => Raised (Exn FileNotFoundError ("No such file or directory: " ++ str src))
    | Some Dir => Raised (Exn IsADirectoryError ("Is a directory: " ++ str src))
    | Some File =>
        if path_in src (unreadable fs) then
          Raised (Exn PermissionError ("Permission denied: " ++ str src))
        else
          match lookup fs target with
          | Some Dir => Raised (Exn IsADirectoryError ("Is a directory: " ++ str target))
          | Some File =>
              if path_in target (unwritable fs) then
                Raised (Exn PermissionError ("Permission denied: " ++ str target))
              else Returned fs
          | None => create fs target File
          end
    end.

(** [directory.glob("*")] and [directory.glob("**/*")], run to the end.
    Every directory that the walk lists must be listable. *)
Definition glob (fs : FileSystem) (directory : Path) (recursive : bool)
  : outcome (list Path) :=
  let listed :=
    directory
    :: (if recursive then
          filter (fun q => is_dir fs q && below directory q)
                 (map fst (nodes fs))
        else []) in
  if existsb (fun d => path_in d (unlistable fs)) listed then
    Raised (Exn OSError "Input/output error")
  else
    Returned
      (nodup path_eq_dec
         (filter (fun q => if recursive then below directory q
                           else child directory q)
                 (map fst (nodes fs)))).

End PathLib.

Import PathLib.


(** ** [compile.py]: driving the LaTeX compiler *)

Module Compile.

Record CompilationResult : Type := mkCompilationResult {
  success : bool;
  output_path : option string;
  error_message : option string;
  log_content : option string
}.

(** What [subprocess.run] hands back when the process has exited. *)
Record CompletedProcess : Type := mkCompleted {
  returncode : Z;
  stderr : string
}.

(** Everything outside the function that one call observes, in the order
    the call asks for it: the disk when the call starts, the attempt to
    create the output directory, the compiler run, and the disk once the
    run is over. *)
Record World : Type := mkWorld {
  exists_at_entry : Path -> bool;
  mkdir_parents : Path -> option exn;
  run : list string -> option Z -> string -> outcome CompletedProcess;
  exists_after_run : Path -> bool;
  read_text : Path -> outcome string
}.

(** [f"{timeout}"] for an optional integer. *)
Definition str_of_timeout (timeout : option Z) : string :=
  match timeout with
  | None => "None"
  | Some t => str_of_Z t
  end.

(** The directory the output is written to. *)
Definition resolve_output (tex_file : Path) (output_dir : option string) : Path :=
  match output_dir with
  | None => parent tex_file
  | Some "" => parent tex_file
  | Some d => Path_of d
  end.

(** The PDF the compiler is expected to leave behind. *)
Definition expected_pdf (tex_file : Path) (output_dir : option string) : Path :=
  joinpath (resolve_output tex_file output_dir) (stem tex_file ++ ".pdf").

Definition pdflatex_cmd (tex_file output_path : Path) : list string :=
  ["pdflatex"; "-interaction=nonstopmode"; "-output-directory";
   str output_path; str tex_file].

(** The [try] block of [compile_latex]. *)
Definition run_and_report (w : World) (tex_file output_path pdf_path : Path)
    (timeout : option Z) : outcome CompilationResult :=
  result <- run w (pdflatex_cmd tex_file output_path) timeout (str output_path) ;;
  let log_path := joinpath output_path (stem tex_file ++ ".log") in
  let log_content :=
    if exists_after_run w log_path then
      match read_text w log_path with
      | Returned text => text
      | Raised _ => "Could not read log file"
      end
    else "" in
  if (returncode result =? 0)%Z && exists_after_run w pdf_path then
    Returned {| success := true;
                output_path := Some (str pdf_path);
                error_message := None;
                log_content := Some log_content |}
  else
    let error_msg :=
      "LaTeX compilation failed with return code "
      ++ str_of_Z (returncode result) in
    let error_msg :=
      if (stderr result =? "") then error_msg
      else error_msg ++ ": " ++ stderr result in
    Returned {| success := false;
                output_path := None;
                error_message := Some error_msg;
                log_content := Some log_content |}.

Definition failure (msg : string) : CompilationResult :=
  {| success := false;
     output_path := None;
     error_message := Some msg;
     log_content := None |}.

(** The three [except] clauses, tried in the order they are written. *)
Definition handle (timeout : option Z) (e : exn) : CompilationResult :=
  match exn_cls e with
  | TimeoutExpired =>
      failure ("LaTeX compilation timed out after "
               ++ str_of_timeout timeout ++ " seconds")
  | PermissionError =>
      failure ("Permission denied during compilation: " ++ exn_msg e)
  | _ => failure ("Unexpected error during compilation: " ++ exn_msg e)
  end.

(** [compile_latex(tex_path, output_dir, timeout)] *)
Definition compile_latex (w : World) (tex_path : option string)
    (output_dir : option string) (timeout : option Z)
  : outcome CompilationResult :=
  match tex_path with
  | None => Raised (Exn CompilationError "LaTeX file path cannot be empty")
  | Some "" => Raised (Exn CompilationError "LaTeX file path cannot be empty")
  | Some tex_path =>
      let tex_file := Path_of tex_path in
      if negb (exists_at_entry w tex_file) then
        Raised (Exn CompilationError ("LaTeX file not found: " ++ tex_path))
      else
        let output_path := resolve_output tex_file output_dir in
        match mkdir_parents w output_path with
        | Some e => Raised e
        | None =>
            let pdf_path := joinpath output_path (stem tex_file ++ ".pdf") in
            match run_and_report w tex_file output_path pdf_path timeout with
            | Returned r => Returned r
            | Raised e => Returned (handle timeout e)
            end
        end
  end.

End Compile.

(** ** [cleanup.py]: removing build artefacts *)

Module Cleanup.

Record CleanupResult : Type := mkCleanupResult {
  success : bool;
  error_message : option string;
  tex_file_path : option string;
  directory_path : option string;
  cleaned_files_count : Z;
  cleaned_files : list string;
  would_clean_files : list string;
  dry_run : bool;
  recursive : bool;
  backup_created : bool;
  backup_directory : option string
}.

Definition DEFAULT_CLEANUP_EXTENSIONS : list string :=
  [".aux"; ".log"; ".out"; ".fls"; ".fdb_latexmk"; ".toc"; ".lof"; ".lot";
   ".bbl"; ".blg"; ".nav"; ".snm"; ".vrb"; ".idx"; ".ilg"; ".ind"; ".glo";
   ".gls"; ".glg"; ".synctex.gz"; ".figlist"; ".fpl"; ".makefile";
   ".run.xml"].

Definition PROTECTED_EXTENSIONS : list string :=
  [".tex"; ".pdf"; ".bib"; ".sty"; ".cls"; ".dtx"; ".ins"; ".png"; ".jpg";
   ".jpeg"; ".gif"; ".svg"; ".eps"; ".ps"; ".txt"; ".md"; ".py"; ".sh";
   ".bat"].

(** Assignments to single attributes of the result object. *)
Definition set_success (r : CleanupResult) (v : bool) : CleanupResult :=
  mkCleanupResult v (error_message r) (tex_file_path r) (directory_path r)
    (cleaned_files_count r) (cleaned_files r) (would_clean_files r)
    (dry_run r) (recursive r) (backup_created r) (backup_directory r).

Definition set_error_message (r : CleanupResult) (v : option string) : CleanupResult :=
  mkCleanupResult (success r) v (tex_file_path r) (directory_path r)
    (cleaned_files_count r) (cleaned_files r) (would_clean_files r)
    (dry_run r) (recursive r) (backup_created r) (backup_directory r).

Definition set_tex_file_path (r : CleanupResult) (v : option string) : CleanupResult :=
  mkCleanupResult (success r) (error_message r) v (directory_path r)
    (cleaned_files_count r) (cleaned_files r) (would_clean_files r)
    (dry_run r) (recursive r) (backup_created r) (backup_directory r).

Definition set_directory_path (r : CleanupResult) (v : option string) : CleanupResult :=
  mkCleanupResult (success r) (error_message r) (tex_file_path r) v
    (cleaned_files_count r) (cleaned_files r) (would_clean_files r)
    (dry_run r) (recursive r) (backup_created r) (backup_directory r).

Definition set_backup_created (r : CleanupResult) (v : bool) : CleanupResult :=
  mkCleanupResult (success r) (error_message r) (tex_file_path r)
    (directory_path r) (cleaned_files_count r) (cleaned_files r)
    (would_clean_files r) (dry_run r) (recursive r) v (backup_directory r).

Definition set_backup_directory (r : CleanupResult) (v : option string) : CleanupResult :=
  mkCleanupResult (success r) (error_message r) (tex_file_path r)
    (directory_path r) (cleaned_files_count r) (cleaned_files r)
    (would_clean_files r) (dry_run r) (recursive r) (backup_created r) v.

(** [result.would_clean_files.append(file_str)] *)
Definition record_would_clean (r : CleanupResult) (file_str : string) : CleanupResult :=
  mkCleanupResult (success r) (error_message r) (tex_file_path r)
    (directory_path r) (cleaned_files_count r) (cleaned_files r)
    (would_clean_files r ++ [file_str])%list
    (dry_run r) (recursive r) (backup_created r) (backup_directory r).

(** [result.cleaned_files.append(file_str); result.cleaned_files_count += 1] *)
Definition record_cleaned (r : CleanupResult) (file_str : string) : CleanupResult :=
  mkCleanupResult (success r) (error_message r) (tex_file_path r)
    (directory_path r) (cleaned_files_count r + 1)%Z
    (cleaned_files r ++ [file_str])%list (would_clean_files r)
    (dry_run r) (recursive r) (backup_created r) (backup_directory r).

(** The disk together with the result object under construction. *)
Definition State : Type := (FileSystem * CleanupResult)%type.

(** The [try] block of [_process_file_for_cleanup]: the optional backup
    copy, then the removal.  The disk is returned as the block left it. *)
Definition backup_and_remove (fs : FileSystem) (file_path : Path)
    (backup_dir : option Path) : FileSystem * outcome unit :=
  let copied :=
    match backup_dir with
    | Some dir => copy2 fs file_path (joinpath dir (name file_path))
    | None => Returned fs
    end in
  match copied with
  | Raised e => (fs, Raised e)
  | Returned fs1 =>
      match unlink fs1 file_path with
      | Raised e => (fs1, Raised e)
      | Returned fs2 => (fs2, Returned tt)
      end
  end.

(** [_process_file_for_cleanup(file_path, result, backup_dir)] *)
Definition _process_file_for_cleanup (file_path : Path) (st : State)
    (backup_dir : option Path) : State :=
  let (fs, result) := st in
  let file_str := str file_path in
  if dry_run result then (fs, record_would_clean result file_str)
  else
    match backup_and_remove fs file_path backup_dir with
    | (fs', Returned _) => (fs', record_cleaned result file_str)
    | (fs', Raised _) => (fs', result)
    end.

(** [_clean_tex_file_auxiliaries(tex_file, cleanup_extensions, result, backup_dir)] *)
Definition _clean_tex_file_auxiliaries (tex_file : Path)
    (cleanup_extensions : list string) (st : State)
    (backup_dir : option Path) : State :=
  let tex_stem := stem tex_file in
  let tex_dir := parent tex_file in
  fold_left
    (fun st ext =>
       let aux_file := joinpath tex_dir (tex_stem ++ ext) in
       if exists_ (fst st) aux_file && is_file (fst st) aux_file then
         _process_file_for_cleanup aux_file st backup_dir
       else st)
    cleanup_extensions st.

(** [_clean_single_file(file_path, cleanup_extensions, result, backup_dir)] *)
Definition _clean_single_file (file_path : Path)
    (cleanup_extensions : list string) (st : State)
    (backup_dir : option Path) : State :=
  if str_in (suffix file_path) cleanup_extensions then
    _process_file_for_cleanup file_path st backup_dir
  else st.

(** [find_auxiliary_files(directory, recursive, extensions)] *)
Definition find_auxiliary_files (fs : FileSystem) (directory : Path)
    (recursive : bool) (extensions : option (list string))
  : outcome (list Path) :=
  let extensions :=
    match extensions with
    | None => DEFAULT_CLEANUP_EXTENSIONS
    | Some l => l
    end in
  found <- glob fs directory recursive ;;
  Returned
    (filter
       (fun file_path =>
          is_file fs file_path
          && (str_in (suffix file_path) extensions
              && negb (str_in (suffix file_path) PROTECTED_EXTENSIONS)))
       found).

(** [_clean_directory_auxiliaries(directory, cleanup_extensions, result,
    backup_dir, recursive)]: the list is complete before the first file is
    touched. *)
Definition _clean_directory_auxiliaries (directory : Path)
    (cleanup_extensions : list string) (st : State)
    (backup_dir : option Path) (recursive : bool) : outcome State :=
  auxiliary_files <-
    find_auxiliary_files (fst st) directory recursive (Some cleanup_extensions) ;;
  Returned
    (fold_left
       (fun st file_path => _process_file_for_cleanup file_path st backup_dir)
       auxiliary_files st).

(** [_create_backup_directory(path)]; [timestamp] is what
    [datetime.now().strftime("%Y%m%d_%H%M%S")] returns. *)
Definition _create_backup_directory (fs : FileSystem) (timestamp : string)
    (path : Path) : outcome (FileSystem * Path) :=
  let backup_name :=
    if is_file fs path then "backup_" ++ stem path ++ "_" ++ timestamp
    else "backup_" ++ name path ++ "_" ++ timestamp in
  let backup_dir := joinpath (parent path) backup_name in
  fs' <- mkdir fs backup_dir ;;
  Returned (fs', backup_dir).

Definition initial_result (dry_run recursive : bool) : CleanupResult :=
  {| success := false;
     error_message := None;
     tex_file_path := None;
     directory_path := None;
     cleaned_files_count := 0;
     cleaned_files := [];
     would_clean_files := [];
     dry_run := dry_run;
     recursive := recursive;
     backup_created := false;
     backup_directory := None |}.

(** The optional creation of the backup directory, before the main [try]. *)
Definition prepare_backup (fs : FileSystem) (timestamp : string)
    (path_obj : Path) (result : CleanupResult) (create_backup : bool)
  : State * option Path :=
  if create_backup && negb (dry_run result) then
    match _create_backup_directory fs timestamp path_obj with
    | Returned (fs', backup_dir) =>
        ((fs', set_backup_directory result (Some (str backup_dir))),
         Some backup_dir)
    | Raised e =>
        ((fs, set_error_message result
                (Some ("Warning: Backup creation failed: " ++ exn_msg e
                       ++ ". Continuing without backup."))),
         None)
    end
  else ((fs, result), None).

(** The last two statements of the main [try] block. *)
Definition finish (st : State) (backup_dir : option Path) : State :=
  let (fs, result) := st in
  let result :=
    match backup_dir, cleaned_files result with
    | Some _, _ :: _ => set_backup_created result true
    | _, _ => result
    end in
  (fs, set_success result true).

(** The main [try] block with its handler. *)
Definition clean_target (path_obj : Path) (cleanup_extensions : list string)
    (st : State) (backup_dir : option Path) (recursive : bool) : State :=
  let (fs, result) := st in
  if is_file fs path_obj then
    let result := set_tex_file_path result (Some (str path_obj)) in
    let result := set_directory_path result (Some (str (parent path_obj))) in
    let st :=
      if suffix path_obj =? ".tex" then
        _clean_tex_file_auxiliaries path_obj cleanup_extensions
          (fs, result) backup_dir
      else
        _clean_single_file path_obj cleanup_extensions (fs, result) backup_dir in
    finish st backup_dir
  else
    let result := set_directory_path result (Some (str path_obj)) in
    match _clean_directory_auxiliaries path_obj cleanup_extensions
            (fs, result) backup_dir recursive with
    | Returned st => finish st backup_dir
    | Raised e =>
        (fs, set_error_message result (Some ("Cleanup failed: " ++ exn_msg e)))
    end.

(** [clean_latex(path, extensions, dry_run, recursive, create_backup)] on
    the disk [fs] at the clock reading [timestamp]: the disk afterwards and
    what the call returns or raises. *)
Definition clean_latex (fs : FileSystem) (timestamp : string)
    (path : option string) (extensions : option (list string))
    (dry_run recursive create_backup : bool)
  : FileSystem * outcome CleanupResult :=
  match path with
  | None => (fs, Raised (Exn CleanupError "Path cannot be None"))
  | Some "" => (fs, Raised (Exn CleanupError "Path cannot be empty"))
  | Some path =>
      let path_obj := Path_of path in
      if negb (exists_ fs path_obj) then
        (fs, Raised (Exn CleanupError ("Path not found: " ++ path)))
      else
        let cleanup_extensions :=
          match extensions with
          | None => DEFAULT_CLEANUP_EXTENSIONS
          | Some l => set_of l
          end in
        let result := initial_result dry_run recursive in
        let (st, backup_dir) :=
          prepare_backup fs timestamp path_obj result create_backup in
        let (fs', result) :=
          clean_target path_obj cleanup_extensions st backup_dir recursive in
        (fs', Returned result)
  end.

End Cleanup.


(** ** Vocabulary of the specification *)

Module Spec.

(** [f] holds of every character of [s]. *)
Fixpoint all_chars (f : ascii -> bool) (s : string) : bool :=
  match s with
  | "" => true
  | String c s' => f c && all_chars f s'
  end.

(** Every character but the backslash. *)
Definition not_backslash (c : ascii) : bool := negb (Ascii.eqb c "\").

(** [pat] occurs in [s]. *)
Definition occurs (pat s : string) : Prop :=
  exists pre post, s = pre ++ pat ++ post.

Definition begin_tag (X : string) : string := "\begin{" ++ X ++ "}".
Definition end_tag (X : string) : string := "\end{" ++ X ++ "}".

(** [\begin{X}] occurs with no [\end{X}] after it. *)
Definition begin_without_later_end (s X : string) : Prop :=
  exists pre post, s = pre ++ begin_tag X ++ post /\ ~ occurs (end_tag X) post.

(** [\end{Y}] occurs with no [\begin{Y}] before it. *)
Definition end_without_prior_begin (s Y : string) : Prop :=
  exists pre post, s = pre ++ end_tag Y ++ post /\ ~ occurs (begin_tag Y) pre.

(** [kw{X}] occurs in [s], white space allowed between [kw] and the brace. *)
Definition mentions (kw X s : string) : Prop :=
  exists pre ws post,
    all_chars Validate.is_space ws = true
    /\ s = pre ++ kw ++ ws ++ "{" ++ X ++ "}" ++ post.

(** What one character adds to the brace counter. *)
Definition brace_delta (c : ascii) : Z :=
  if Ascii.eqb c "{" then 1%Z else if Ascii.eqb c "}" then (-1)%Z else 0%Z.

(** The number of [{] minus the number of [}], every brace counted. *)
Fixpoint net_braces (s : string) : Z :=
  match s with
  | "" => 0%Z
  | String c s' => (brace_delta c + net_braces s')%Z
  end.

(** The same count with escaped braces left out: a backslash escapes the
    character after it. *)
Fixpoint unescaped_net_braces (escaped : bool) (s : string) : Z :=
  match s with
  | "" => 0%Z
  | String c s' =>
      if escaped then unescaped_net_braces false s'
      else if Ascii.eqb c "\" then unescaped_net_braces true s'
      else (brace_delta c + unescaped_net_braces false s')%Z
  end.

(** A message of the brace check is in the list. *)
Definition brace_error_reported (errors : list string) : bool :=
  existsb (prefix "Unmatched ") errors.

(** No prefix of [s] closes more braces than it opens. *)
Definition never_overclosed (s : string) : Prop :=
  forall n, (0 <= net_braces (substring 0 n s))%Z.

(** With the counter at [k], scanning [s] never takes it below zero. *)
Fixpoint stays_nonnegative (k : Z) (s : string) : Prop :=
  match s with
  | "" => True
  | String c s' =>
      (0 <= k + brace_delta c)%Z /\ stays_nonnegative (k + brace_delta c) s'
  end.

(** The candidate-discovery phase of a cleanup run completes: only listing
    a directory can fail. *)
Definition discovery_completes (fs : FileSystem) (path_obj : Path)
    (recursive : bool) : Prop :=
  is_file fs path_obj = true
  \/ exists found, glob fs path_obj recursive = Returned found.

(** The disk on which the candidates are looked for: the one the call
    started on, with the backup directory if one was created. *)
Definition disk_at_discovery (fs : FileSystem) (timestamp : string)
    (path_obj : Path) (dry_run recursive create_backup : bool) : FileSystem :=
  fst (fst (Cleanup.prepare_backup fs timestamp path_obj
              (Cleanup.initial_result dry_run recursive) create_backup)).

(** Removing [file_path] fails on [fs]: the backup copy or the unlink
    raises. *)
Definition removal_fails (fs : FileSystem) (file_path : Path)
    (backup_dir : option Path) : Prop :=
  exists e, snd (Cleanup.backup_and_remove fs file_path backup_dir) = Raised e.

(** A second cleanup run, started on the disk the first one left, at the
    clock reading [later]. *)
Definition second_run (fs : FileSystem) (timestamp later : string)
    (path : option string) (extensions : option (list string))
    (dry_run recursive create_backup : bool)
  : outcome Cleanup.CleanupResult :=
  snd (Cleanup.clean_latex
         (fst (Cleanup.clean_latex fs timestamp path extensions
                 dry_run recursive create_backup))
         later path extensions dry_run recursive create_backup).

End Spec.

(** ** Worked inputs *)

Module Examples.

(** A project directory [/w] holding a source file, its PDF, two auxiliary
    files of which [paper.log] cannot be removed, and an image. *)
Definition project : FileSystem :=
  {| nodes :=
       [(["/"], Dir); (["/"; "w"], Dir);
        (["/"; "w"; "paper.tex"], File); (["/"; "w"; "paper.pdf"], File);
        (["/"; "w"; "paper.aux"], File); (["/"; "w"; "paper.log"], File);
        (["/"; "w"; "image.png"], File)];
     undeletable := [["/"; "w"; "paper.log"]];
     unwritable := [];
     unreadable := [];
     unlistable := [] |}.

(** The same directory when [/] takes no new entry. *)
Definition sealed_project : FileSystem :=
  {| nodes := nodes project;
     undeletable := undeletable project;
     unwritable := [["/"]];
     unreadable := [];
     unlistable := [] |}.

(** The working directory itself, holding one auxiliary file. *)
Definition workdir : FileSystem :=
  {| nodes := [([], Dir); (["a.tex"], File); (["a.aux"], File)];
     undeletable := [];
     unwritable := [];
     unreadable := [];
     unlistable := [] |}.

(** A compiler run that exits with [returncode] and leaves a PDF or not.
    The output directory cannot be created below a regular file. *)
Definition compiler_world (code : Z) (pdf_written : bool) : Compile.World :=
  {| Compile.exists_at_entry := fun p => path_eqb p ["/"; "w"; "paper.tex"];
     Compile.mkdir_parents :=
       fun p =>
         if below ["/"; "w"; "paper.tex"] p then
           Some (Exn NotADirectoryError
                   ("Not a directory: " ++ str p))
         else None;
     Compile.run := fun _ _ _ => Returned (Compile.mkCompleted code "");
     Compile.exists_after_run :=
       fun p => pdf_written && path_eqb p ["/"; "w"; "paper.pdf"];
     Compile.read_text := fun _ => Returned "" |}.

(** A document whose only [\end{a}] comes before its [\begin{a}]. *)
Definition end_before_begin : string := "\end{a}\begin{a}".

End Examples.

(** ** Further parts of the code *)

(** *** [cleanup.py]: the extension queries *)

Module CleanupQueries.

(** [get_default_cleanup_extensions()] *)
Definition get_default_cleanup_extensions : list string :=
  Cleanup.DEFAULT_CLEANUP_EXTENSIONS.

(** [get_protected_extensions()] *)
Definition get_protected_extensions : list string :=
  Cleanup.PROTECTED_EXTENSIONS.

(** [is_auxiliary_file(file_path)] *)
Definition is_auxiliary_file (file_path : Path) : bool :=
  str_in (suffix file_path) Cleanup.DEFAULT_CLEANUP_EXTENSIONS
  && negb (str_in (suffix file_path) Cleanup.PROTECTED_EXTENSIONS).

End CleanupQueries.

(** *** More vocabulary *)

Module Notions.

(** [s] ends with [tail]. *)
Definition ends_with (tail s : string) : Prop := exists front, s = front ++ tail.

(** No line feed in [s]. *)
Definition on_one_line (s : string) : bool :=
  Spec.all_chars (fun c => negb (Validate.is_newline c)) s.

(** The text holds [\documentclass], an optional bracketed argument on
    one line and a braced argument on one line, white space allowed
    between them. *)
Definition has_documentclass (content : string) : Prop :=
  exists pre ws opt ws' arg post,
    Spec.all_chars Validate.is_space ws = true
    /\ Spec.all_chars Validate.is_space ws' = true
    /\ (opt = "" \/ exists o, opt = "[" ++ o ++ "]" /\ on_one_line o = true)
    /\ on_one_line arg = true
    /\ content
       = pre ++ "\documentclass" ++ ws ++ opt ++ ws' ++ "{" ++ arg ++ "}" ++ post.

(** Every environment name of word characters that is begun somewhere is
    ended somewhere, and the other way round. *)
Definition environments_paired (content : string) : Prop :=
  forall X,
    X <> "" ->
    Spec.all_chars Validate.is_word X = true ->
    (Spec.mentions "\begin" X content <-> Spec.mentions "\end" X content).

(** What the validator accepts. *)
Definition well_formed (content : string) : Prop :=
  has_documentclass content
  /\ Spec.mentions "\begin" "document" content
  /\ Spec.mentions "\end" "document" content
  /\ Spec.never_overclosed content
  /\ Spec.net_braces content = 0%Z
  /\ environments_paired content.

(** The candidates of the single-[.tex] mode, in the order of the loop. *)
Definition tex_candidates (tex_file : Path) (cleanup_extensions : list string)
  : list Path :=
  map (fun ext => joinpath (parent tex_file) (stem tex_file ++ ext))
      cleanup_extensions.

(** The extensions a call works with. *)
Definition extensions_in_force (extensions : option (list string)) : list string :=
  match extensions with
  | Some l => set_of l
  | None => Cleanup.DEFAULT_CLEANUP_EXTENSIONS
  end.

(** The date and the time of day that the first fourteen characters of a
    PDF date stand for, in ISO notation. *)
Definition iso_date (stamp : string) : string :=
  slice 0 4 stamp ++ "-" ++ slice 4 6 stamp ++ "-" ++ slice 6 8 stamp.

Definition iso_time (stamp : string) : string :=
  slice 8 10 stamp ++ ":" ++ slice 10 12 stamp ++ ":" ++ slice 12 14 stamp.

(** [s] begins with a plus or a minus sign. *)
Definition signed (s : string) : bool := startswith "+" s || startswith "-" s.

(** The paths that the loop of a run goes through, by what the target is
    on the disk [fs]: the stem files of a [.tex] file, the file itself if
    its suffix is asked for, or what [find_auxiliary_files] proposes for a
    directory. *)
Definition candidates (fs : FileSystem) (path_obj : Path)
    (cleanup_extensions : list string) (recursive : bool) : list Path :=
  if is_file fs path_obj then
    if suffix path_obj =? ".tex" then tex_candidates path_obj cleanup_extensions
    else if str_in (suffix path_obj) cleanup_extensions then [path_obj]
    else []
  else
    match Cleanup.find_auxiliary_files fs path_obj recursive
            (Some cleanup_extensions) with
    | Returned files => files
    | Raised _ => []
    end.

(** The candidates of the call [clean_latex(path, extensions,
    dry_run=False, recursive, create_backup)] started on [fs]. *)
Definition run_candidates (fs : FileSystem) (timestamp path : string)
    (extensions : option (list string)) (recursive create_backup : bool)
  : list Path :=
  candidates
    (Spec.disk_at_discovery fs timestamp (Path_of path) false recursive
       create_backup)
    (Path_of path) (extensions_in_force extensions) recursive.

(** What holds of the state all through the loop of a run that started on
    the disk [fs0] with an empty list and goes through [found]: the files
    listed so far are candidates that the system did not refuse to
    unlink. *)
Definition listed (fs0 : FileSystem) (found : list Path)
    (st : Cleanup.State) : Prop :=
  undeletable (fst st) = undeletable fs0
  /\ Cleanup.dry_run (snd st) = false
  /\ exists removed,
       Cleanup.cleaned_files (snd st) = map str removed
       /\ incl removed found
       /\ forall f, In f removed -> path_in f (undeletable fs0) = false.

End Notions.

(** *** More worked inputs *)

Module MoreExamples.

(** A directory [/w] with one auxiliary file, and an empty directory [/b]
    to hold backups. *)
Definition with_backup_dir : FileSystem :=
  {| nodes :=
       [(["/"], Dir); (["/"; "w"], Dir); (["/"; "b"], Dir);
        (["/"; "w"; "paper.aux"], File)];
     undeletable := [];
     unwritable := [];
     unreadable := [];
     unlistable := [] |}.

(** A directory [/w] that cannot be listed. *)
Definition unlistable_project : FileSystem :=
  {| nodes := [(["/"], Dir); (["/"; "w"], Dir); (["/"; "w"; "paper.aux"], File)];
     undeletable := [];
     unwritable := [];
     unreadable := [];
     unlistable := [["/"; "w"]] |}.

End MoreExamples.

(** *** [validate.py]: the warnings *)

Module ValidateWarnings.
Import Validate.

(** [re.search] for a pattern given by its anchored matcher [here]: some
    suffix of the text matches at its start. *)
Fixpoint search_with (here : string -> bool) (s : string) : bool :=
  here s
  || match s with
     | "" => false
     | String _ s' => search_with here s'
     end.

Definition starts_with (lit s : string) : bool :=
  match strip_prefix lit s with
  | Some _ => true
  | None => false
  end.

(** [lit in s], and [re.search] for a pattern without operators. *)
Definition search_literal (lit s : string) : bool := search_with (starts_with lit) s.

(** [\\(begin\s*\{)?command] anchored at the start of [s]. *)
Definition match_use (command s : string) : bool :=
  match strip_prefix "\" s with
  | None => false
  | Some r =>
      match strip_prefix "begin" r with
      | Some r1 =>
          match strip_prefix "{" (skip_spaces r1) with
          | Some r2 => starts_with command r2
          | None => false
          end
      | None => false
      end
      || starts_with command r
  end.

(** [.*lit]: [lit] starts somewhere before the end of the line. *)
Fixpoint later_on_line (lit s : string) : bool :=
  starts_with lit s
  || match s with
     | "" => false
     | String c s' => if is_newline c then false else later_on_line lit s'
     end.

(** [\\usepackage.*\{package] anchored at the start of [s]. *)
Definition match_load (package s : string) : bool :=
  match strip_prefix "\usepackage" s with
  | None => false
  | Some r => later_on_line ("{" ++ package) r
  end.

(** [kw\s*\{] anchored at the start of [s]. *)
Definition match_open (kw s : string) : bool :=
  match strip_prefix kw s with
  | None => false
  | Some r => starts_with "{" (skip_spaces r)
  end.

(** The dict [package_commands], in the order it is written; a dict is
    walked in that order. *)
Definition package_commands : list (string * string) :=
  [("tikzpicture", "tikz");
   ("includegraphics", "graphicx");
   ("href", "hyperref");
   ("url", "url or hyperref");
   ("lstlisting", "listings");
   ("algorithm", "algorithm");
   ("align", "amsmath");
   ("gather", "amsmath");
   ("multirow", "multirow");
   ("multicolumn", "array or tabularx")].

Definition package_warning (command package : string) : string :=
  "Command/environment '" ++ command ++ "' used but package '" ++ package
  ++ "' not included".

(** The [if not quick] block. *)
Definition package_warnings (content : string) : list string :=
  flat_map
    (fun entry =>
       let (command, package) := entry : string * string in
       if search_with (match_use command) content
          && negb (search_with (match_load package) content)
       then [package_warning command package]
       else [])
    package_commands.

Definition line_feed : string := String (ascii_of_nat 10) "".

(** The [if strict] block. *)
Definition strict_warnings (content : string) : list string :=
  ((if search_with (match_open "\title") content
       && search_with (match_open "\author") content
       && negb (search_literal "\maketitle" content)
    then ["Title and author defined but \maketitle not called"]
    else [])
   ++ (if search_literal (line_feed ++ line_feed ++ line_feed) content
       then ["Multiple consecutive blank lines detected"]
       else [])
   ++ (if negb (search_literal "\section" content)
          && negb (search_literal "\chapter" content)
          && negb (search_literal "\subsection" content)
       then ["No section structure found in document"]
       else []))%list.

(** The [warnings] list that [validate_latex] builds from the file's
    text. *)
Definition collect_warnings (quick strict : bool) (content : string)
  : list string :=
  ((if negb quick then package_warnings content else [])
   ++ (if strict then strict_warnings content else []))%list.

(** The [warnings] field of the result of
    [validate_latex(file_path, quick, strict)]: the call raises as
    [Validate.validate_latex] does, and otherwise the list is built from
    the text that was read. *)
Definition validate_latex_warnings (disk : string -> source_file)
    (file_path : option string) (quick strict : bool)
  : outcome (list string) :=
  _ <- validate_latex disk file_path quick strict ;;
  Returned
    match file_path with
    | Some file_path =>
        match disk file_path with
        | Text content => collect_warnings quick strict content
        | _ => []
        end
    | None => []
    end.

End ValidateWarnings.

(** *** Vocabulary for the warnings *)

Module WarningNotions.

(** The text uses [command]: a backslash, or [\begin] and an opening
    brace, is followed by the name.  Nothing is asked of what follows the
    name. *)
Definition uses (command content : string) : Prop :=
  Spec.occurs ("\" ++ command) content
  \/ exists ws,
       Spec.all_chars Validate.is_space ws = true
       /\ Spec.occurs ("\begin" ++ ws ++ "{" ++ command) content.

(** The text loads [package]: a [\usepackage] is followed on its line by
    an opening brace and the name. *)
Definition loads (package content : string) : Prop :=
  exists pre mid post,
    Notions.on_one_line mid = true
    /\ content = pre ++ "\usepackage" ++ mid ++ "{" ++ package ++ post.

(** [kw] occurs followed by an opening brace, white space allowed between
    them. *)
Definition opens (kw content : string) : Prop :=
  exists ws,
    Spec.all_chars Validate.is_space ws = true
    /\ Spec.occurs (kw ++ ws ++ "{") content.

End WarningNotions.

(** *** [pdf_info.py]: reading a PDF *)

Module PdfInfoReader.

(** What an operation on the PDF raises: [PdfReadError], which has a
    handler of its own, or any other exception; both with [str(e)]. *)
Inductive pdf_exn : Type :=
| PdfReadError (msg : string)
| OtherError (msg : string).

(** The result of one operation on the PDF. *)
Inductive attempt (A : Type) : Type :=
| Got (a : A)
| Failed (e : pdf_exn).
Arguments Got {A} a.
Arguments Failed {A} e.

(** What a call of [extract_pdf_info] ends in. *)
Inductive call (A : Type) : Type :=
| Result (r : A)
| PDFInfoError (msg : string).
Arguments Result {A} r.
Arguments PDFInfoError {A} msg.

(** How the [try] block is left. *)
Inductive ending : Type :=
| Completed
| ReturnedEarly
| Threw (e : pdf_exn).

Section Reader.

(** Python's floats; the code stores them and never computes with them.
    [letter_width] and [letter_height] are [612.0] and [792.0]. *)
Variable num : Type.
Variable letter_width letter_height : num.

(** One entry of [page_dimensions]. *)
Record Dimensions : Type := mkDimensions {
  width : num;
  height : num;
  unit : string
}.

(** A page: [float(mediabox.width)] and [float(mediabox.height)], and
    [extract_text()]. *)
Record Page : Type := mkPage {
  mediabox : attempt (num * num);
  extract_text : attempt string
}.

(** The [PdfReader].  [pages] is what walking [pdf_reader.pages] gives:
    the walk may fail to start, and fetching any one page may fail;
    [len(pdf_reader.pages)] is the length of the walk.  [pdf_version] and
    [pdf_header] are read with [getattr(..., None)]; [metadata] is a dict
    of strings. *)
Record Reader : Type := mkReader {
  reader_is_encrypted : attempt bool;
  decrypt : string -> attempt Datatypes.unit;
  pages : attempt (list (attempt Page));
  reader_pdf_version : attempt (option string);
  pdf_header : attempt (option string);
  metadata : attempt (option (list (string * string)))
}.

(** The files: [Path(file_path).stat().st_size], and [open] followed by
    [PdfReader(file)]. *)
Record Files : Type := mkFiles {
  stat_size : string -> outcome Z;
  open_reader : string -> attempt Reader
}.

Record PDFInfoResult : Type := mkPDFInfoResult {
  success : bool;
  error_message : option string;
  file_path : string;
  file_size_bytes : Z;
  page_count : nat;
  page_dimensions : list Dimensions;
  pdf_version : option string;
  is_encrypted : bool;
  is_linearized : option bool;
  creation_date : option string;
  modification_date : option string;
  title : option string;
  author : option string;
  subject : option string;
  keywords : option string;
  producer : option string;
  creator : option string;
  text_content : option (list string)
}.

(** [str(e)] *)
Definition text_of (e : pdf_exn) : string :=
  match e with
  | PdfReadError msg => msg
  | OtherError msg => msg
  end.

(** The truth value of an optional string. *)
Definition truthy (s : option string) : bool :=
  match s with
  | Some (String _ _) => true
  | _ => false
  end.

(** [metadata.get(key)] and [metadata.get(key, "")]. *)
Fixpoint dict_get (key : string) (d : list (string * string)) : option string :=
  match d with
  | [] => None
  | (k, v) :: d' => if (k =? key)%string then Some v else dict_get key d'
  end.

Definition dict_get_or (key default : string) (d : list (string * string))
  : string :=
  match dict_get key d with
  | Some v => v
  | None => default
  end.

(** The initial result. *)
Definition initial_result (file_path : string) (file_size : Z) : PDFInfoResult :=
  {| success := false;
     error_message := None;
     file_path := file_path;
     file_size_bytes := file_size;
     page_count := 0;
     page_dimensions := [];
     pdf_version := None;
     is_encrypted := false;
     is_linearized := None;
     creation_date := None;
     modification_date := None;
     title := None;
     author := None;
     subject := None;
     keywords := None;
     producer := None;
     creator := None;
     text_content := None |}.

(** The assignments to the fields of [result]. *)
Definition set_error_message (v : option string) (r : PDFInfoResult) :=
  {| success := success r; error_message := v; file_path := file_path r;
     file_size_bytes := file_size_bytes r; page_count := page_count r;
     page_dimensions := page_dimensions r; pdf_version := pdf_version r;
     is_encrypted := is_encrypted r; is_linearized := is_linearized r;
     creation_date := creation_date r;
     modification_date := modification_date r; title := title r;
     author := author r; subject := subject r; keywords := keywords r;
     producer := producer r; creator := creator r;
     text_content := text_content r |}.

Definition set_is_encrypted (v : bool) (r : PDFInfoResult) :=
  {| success := success r; error_message := error_message r;
     file_path := file_path r; file_size_bytes := file_size_bytes r;
     page_count := page_count r; page_dimensions := page_dimensions r;
     pdf_version := pdf_version r; is_encrypted := v;
     is_linearized := is_linearized r; creation_date := creation_date r;
     modification_date := modification_date r; title := title r;
     author := author r; subject := subject r; keywords := keywords r;
     producer := producer r; creator := creator r;
     text_content := text_content r |}.

Definition set_page_count (v : nat) (r : PDFInfoResult) :=
  {| success := success r; error_message := error_message r;
     file_path := file_path r; file_size_bytes := file_size_bytes r;
     page_count := v; page_dimensions := page_dimensions r;
     pdf_version := pdf_version r; is_encrypted := is_encrypted r;
     is_linearized := is_linearized r; creation_date := creation_date r;
     modification_date := modification_date r; title := title r;
     author := author r; subject := subject r; keywords := keywords r;
     producer := producer r; creator := creator r;
     text_content := text_content r |}.

Definition set_pdf_version (v : option string) (r : PDFInfoResult) :=
  {| success := success r; error_message := error_message r;
     file_path := file_path r; file_size_bytes := file_size_bytes r;
     page_count := page_count r; page_dimensions := page_dimensions r;
     pdf_version := v; is_encrypted := is_encrypted r;
     is_linearized := is_linearized r; creation_date := creation_date r;
     modification_date := modification_date r; title := title r;
     author := author r; subject := subject r; keywords := keywords r;
     producer := producer r; creator := creator r;
     text_content := text_content r |}.

(** The eight assignments of the [if metadata:] block. *)
Definition set_metadata (d : list (string * string)) (r : PDFInfoResult) :=
  {| success := success r; error_message := error_message r;
     file_path := file_path r; file_size_bytes := file_size_bytes r;
     page_count := page_count r; page_dimensions := page_dimensions r;
     pdf_version := pdf_version r; is_encrypted := is_encrypted r;
     is_linearized := is_linearized r;
     creation_date := PdfInfo._format_pdf_date (dict_get "/CreationDate" d);
     modification_date := PdfInfo._format_pdf_date (dict_get "/ModDate" d);
     title := Some (dict_get_or "/Title" "" d);
     author := Some (dict_get_or "/Author" "" d);
     subject := Some (dict_get_or "/Subject" "" d);
     keywords := Some (dict_get_or "/Keywords" "" d);
     producer := Some (dict_get_or "/Producer" "" d);
     creator := Some (dict_get_or "/Creator" "" d);
     text_content := text_content r |}.

Definition set_page_dimensions (v : list Dimensions) (r : PDFInfoResult) :=
  {| success := success r; error_message := error_message r;
     file_path := file_path r; file_size_bytes := file_size_bytes r;
     page_count := page_count r; page_dimensions := v;
     pdf_version := pdf_version r; is_encrypted := is_encrypted r;
     is_linearized := is_linearized r; creation_date := creation_date r;
     modification_date := modification_date r; title := title r;
     author := author r; subject := subject r; keywords := keywords r;
     producer := producer r; creator := creator r;
     text_content := text_content r |}.

Definition set_text_content (v : option (list string)) (r : PDFInfoResult) :=
  {| success := success r; error_message := error_message r;
     file_path := file_path r; file_size_bytes := file_size_bytes r;
     page_count := page_count r; page_dimensions := page_dimensions r;
     pdf_version := pdf_version r; is_encrypted := is_encrypted r;
     is_linearized := is_linearized r; creation_date := creation_date r;
     modification_date := modification_date r; title := title r;
     author := author r; subject := subject r; keywords := keywords r;
     producer := producer r; creator := creator r;
     text_content := v |}.

(** [result.is_linearized = False] and [result.success = True]. *)
Definition set_done (r : PDFInfoResult) :=
  {| success := true; error_message := error_message r;
     file_path := file_path r; file_size_bytes := file_size_bytes r;
     page_count := page_count r; page_dimensions := page_dimensions r;
     pdf_version := pdf_version r; is_encrypted := is_encrypted r;
     is_linearized := Some false; creation_date := creation_date r;
     modification_date := modification_date r; title := title r;
     author := author r; subject := subject r; keywords := keywords r;
     producer := producer r; creator := creator r;
     text_content := text_content r |}.

(** The body of a [for page_num, page in enumerate(pdf_reader.pages)]
    loop whose own [try] turns a failure on the page into [fallback]:
    only fetching a page can end the loop early. *)
Fixpoint for_pages {A : Type} (f : Page -> attempt A) (fallback : A)
    (walk : list (attempt Page)) (acc : list A) : attempt (list A) :=
  match walk with
  | [] => Got acc
  | Failed e :: _ => Failed e
  | Got page :: rest =>
      let item :=
        match f page with
        | Got a => a
        | Failed _ => fallback
        end in
      for_pages f fallback rest (acc ++ [item])
  end.

Definition dimensions_of (page : Page) : attempt Dimensions :=
  match mediabox page with
  | Got (w, h) => Got {| width := w; height := h; unit := "pt" |}
  | Failed e => Failed e
  end.

Definition letter : Dimensions :=
  {| width := letter_width; height := letter_height; unit := "pt" |}.

(** The version: the [try] of its own gives [None] on any failure. *)
Definition read_version (reader : Reader) : option string :=
  match reader_pdf_version reader with
  | Failed _ => None
  | Got v =>
      if truthy v then v
      else
        match pdf_header reader with
        | Failed _ => None
        | Got h => h
        end
  end.

(** From [result.page_count = ...] to [result.success = True].
    [pdf_reader.pages] is read three times; the reader gives the same walk
    each time. *)
Definition read_document (reader : Reader) (include_text : bool)
    (result : PDFInfoResult) : PDFInfoResult * ending :=
  match pages reader with
  | Failed e => (result, Threw e)
  | Got walk =>
      let result := set_page_count (List.length walk) result in
      let result := set_pdf_version (read_version reader) result in
      match metadata reader with
      | Failed e => (result, Threw e)
      | Got md =>
          let result :=
            match md with
            | Some (entry :: more) => set_metadata (entry :: more) result
            | _ => result
            end in
          match for_pages dimensions_of letter walk [] with
          | Failed e => (result, Threw e)
          | Got dims =>
              let result := set_page_dimensions dims result in
              if include_text then
                match for_pages extract_text "" walk [] with
                | Failed e => (result, Threw e)
                | Got texts =>
                    (set_done (set_text_content (Some texts) result), Completed)
                end
              else (set_done result, Completed)
          end
      end
  end.

(** The [with open(...)] block. *)
Definition read_pdf (reader : Reader) (include_text : bool)
    (password : option string) (result : PDFInfoResult)
  : PDFInfoResult * ending :=
  match reader_is_encrypted reader with
  | Failed e => (result, Threw e)
  | Got false => read_document reader include_text result
  | Got true =>
      let result := set_is_encrypted true result in
      match password with
      | Some (String c p) =>
          match decrypt reader (String c p) with
          | Failed e =>
              (set_error_message
                 (Some ("Failed to decrypt PDF: " ++ text_of e)) result,
               ReturnedEarly)
          | Got _ => read_document reader include_text result
          end
      | _ => read_document reader include_text result
      end
  end.

(** [extract_pdf_info(file_path, include_text, password)] *)
Definition extract_pdf_info (files : Files) (file_path : option string)
    (include_text : bool) (password : option string) : call PDFInfoResult :=
  match file_path with
  | None => PDFInfoError "File path cannot be None"
  | Some "" => PDFInfoError "File path cannot be empty"
  | Some file_path =>
      match stat_size files file_path with
      | Raised e =>
          match exn_cls e with
          | FileNotFoundError => PDFInfoError ("File not found: " ++ file_path)
          | _ => PDFInfoError ("Cannot access file: " ++ exn_msg e)
          end
      | Returned file_size =>
          let result := initial_result file_path file_size in
          let (result, how) :=
            match open_reader files file_path with
            | Failed e => (result, Threw e)
            | Got reader => read_pdf reader include_text password result
            end in
          match how with
          | Completed => Result result
          | ReturnedEarly => Result result
          | Threw (PdfReadError msg) =>
              Result (set_error_message
                        (Some ("Not a valid PDF file: " ++ msg)) result)
          | Threw (OtherError msg) =>
              Result (set_error_message
                        (Some ("Failed to read PDF: " ++ msg)) result)
          end
      end
  end.

End Reader.

Arguments mkDimensions {num}.
Arguments width {num}.
Arguments height {num}.
Arguments unit {num}.
Arguments mkPage {num}.
Arguments mediabox {num}.
Arguments extract_text {num}.
Arguments mkReader {num}.
Arguments reader_is_encrypted {num}.
Arguments decrypt {num}.
Arguments pages {num}.
Arguments reader_pdf_version {num}.
Arguments pdf_header {num}.
Arguments metadata {num}.
Arguments mkFiles {num}.
Arguments stat_size {num}.
Arguments open_reader {num}.
Arguments success {num}.
Arguments error_message {num}.
Arguments file_path {num}.
Arguments file_size_bytes {num}.
Arguments page_count {num}.
Arguments page_dimensions {num}.
Arguments pdf_version {num}.
Arguments is_encrypted {num}.
Arguments is_linearized {num}.
Arguments creation_date {num}.
Arguments modification_date {num}.
Arguments title {num}.
Arguments author {num}.
Arguments subject {num}.
Arguments keywords {num}.
Arguments producer {num}.
Arguments creator {num}.
Arguments text_content {num}.
Arguments initial_result {num}.
Arguments set_error_message {num}.
Arguments set_is_encrypted {num}.
Arguments set_page_count {num}.
Arguments set_pdf_version {num}.
Arguments set_metadata {num}.
Arguments set_page_dimensions {num}.
Arguments set_text_content {num}.
Arguments set_done {num}.
Arguments read_version {num}.
Arguments letter {num}.
Arguments dimensions_of {num}.
Arguments for_pages {num A}.
Arguments read_document {num}.
Arguments read_pdf {num}.
Arguments extract_pdf_info {num}.

End PdfInfoReader.

(** *** A worked PDF *)

Module PdfExamples.
Import PdfInfoReader.

(** A one-page PDF whose media box cannot be read, with metadata that has
    no title; sizes in whole points. *)
Definition sample_files : Files Z :=
  {| stat_size := fun _ => Returned 1024%Z;
     open_reader := fun _ =>
       Got {| reader_is_encrypted := Got false;
              decrypt := fun _ => Got tt;
              pages := Got [Got {| mediabox := Failed (OtherError "no box");
                                   extract_text := Got "Hello" |}];
              reader_pdf_version := Got (Some "1.7");
              pdf_header := Got (Some "%PDF-1.7");
              metadata := Got (Some [("/Author", "A. Writer")]) |} |}.

End PdfExamples.

(** *** [latex_utils.py]: the brace and environment helpers *)

Module LatexUtils.
Import Validate.

(** [(?<!\\)c] with [finditer]: the positions of every [c] that does not
    come right after a backslash.  [after_backslash] tells whether the
    character before the one being read is a backslash. *)
Fixpoint finditer_unescaped (c : ascii) (after_backslash : bool) (pos : nat)
    (s : string) : list nat :=
  match s with
  | "" => []
  | String x s' =>
      ((if Ascii.eqb x c && negb after_backslash then [pos] else [])
       ++ finditer_unescaped c (Ascii.eqb x "\") (S pos) s')%list
  end.

(** The loop over the closing braces: [None] when it returns [False],
    and what is left of [open_braces] when it runs to its end. *)
Fixpoint pop_each (closes open_braces : list nat) : option (list nat) :=
  match closes with
  | [] => Some open_braces
  | _ :: rest =>
      match open_braces with
      | [] => None
      | _ :: _ => pop_each rest (removelast open_braces)
      end
  end.

(** [check_brace_balance(content)] *)
Definition check_brace_balance (content : string) : bool :=
  let open_braces := finditer_unescaped "{" false 0 content in
  match pop_each (finditer_unescaped "}" false 0 content) open_braces with
  | None => false
  | Some open_braces => (List.length open_braces =? 0)%nat
  end.

(** [[^}]+\}]: the characters before the first closing brace, of which
    there must be one at least, and what follows that brace. *)
Fixpoint take_name (s : string) : option (string * string) :=
  match s with
  | "" => None
  | String c s' =>
      if Ascii.eqb c "}" then Some ("", s')
      else
        match take_name s' with
        | Some (w, rest) => Some (String c w, rest)
        | None => None
        end
  end.

(** [kw\{([^}]+)\}] anchored at the start of [s], [opener] being [kw]
    with its brace: the group and the rest. *)
Definition match_group (opener s : string) : option (string * string) :=
  match strip_prefix opener s with
  | None => None
  | Some r =>
      match take_name r with
      | Some (String c w, rest) => Some (String c w, rest)
      | _ => None
      end
  end.

(** The groups of the matches that [finditer] yields, leftmost first and
    without overlap.  [skip] counts the characters of the last match that
    are still to be stepped over. *)
Fixpoint finditer_group (opener : string) (skip : nat) (s : string)
  : list string :=
  match s with
  | "" => []
  | String _ s' =>
      match skip with
      | S k => finditer_group opener k s'
      | O =>
          match match_group opener s with
          | Some (w, rest) =>
              w :: finditer_group opener
                     (String.length s' - String.length rest) s'
          | None => finditer_group opener 0 s'
          end
      end
  end.

(** [l[-1]] when [l] is not empty. *)
Fixpoint top_of (l : list string) : option string :=
  match l with
  | [] => None
  | [x] => Some x
  | _ :: l' => top_of l'
  end.

(** The loop over the [\end] matches: the stack and the list of
    unmatched names when it is over. *)
Fixpoint settle (ends begin_stack unmatched : list string)
  : list string * list string :=
  match ends with
  | [] => (begin_stack, unmatched)
  | env_name :: rest =>
      match top_of begin_stack with
      | Some last_begin_name =>
          if (last_begin_name =? env_name)%string then
            settle rest (removelast begin_stack) unmatched
          else settle rest begin_stack (unmatched ++ [env_name])%list
      | None => settle rest begin_stack (unmatched ++ [env_name])%list
      end
  end.

(** [find_unmatched_environments(content)] *)
Definition find_unmatched_environments (content : string) : list string :=
  let begin_stack := finditer_group "\begin{" 0 content in
  let (begin_stack, unmatched) :=
    settle (finditer_group "\end{" 0 content) begin_stack [] in
  (unmatched ++ begin_stack)%list.

End LatexUtils.

(** * Properties *)

(** ** PDF dates *)

Module PdfInfoFacts.
Import PdfInfo.

Lemma getitem_first (c : ascii) (s : string) :
  getitem (String c s) 0 = Returned (String c "").
Proof. reflexivity. Qed.

Lemma startswith_nonempty (p s : string) :
  p <> "" -> startswith p s = true -> s <> "".
Proof.
  intros Hp H ->. destruct p; [congruence | discriminate].
Qed.

(** No input makes the [try] block raise: the handler of
    [_format_pdf_date] is never entered. *)
Lemma format_body_returns (s : string) :
  exists r, format_body s = Returned r.
Proof.
  unfold format_body.
  destruct (14 <=? String.length s)%nat.
  - destruct (14 <? String.length s)%nat; [| eexists; reflexivity].
    set (tz := slice_from 14 s).
    destruct (startswith "+" tz || startswith "-" tz) eqn:Hsign;
      [| eexists; reflexivity].
    assert (Hne : tz <> "").
    { apply orb_true_iff in Hsign as [H | H];
        eapply startswith_nonempty; eauto; discriminate. }
    destruct tz as [| c tz']; [congruence |].
    rewrite getitem_first. cbn [bind].
    unfold contains, str_index.
    destruct (index 0 "'" (String c tz')) as [i |]; cbn [bind].
    + destruct (i + 2 <? String.length (String c tz'))%nat;
        cbn [bind]; eexists; reflexivity.
    + eexists; reflexivity.
  - destruct (8 <=? String.length s)%nat; eexists; reflexivity.
Qed.

(** The worked example of the specification. *)
Lemma format_pdf_date_example :
  _format_pdf_date (Some "D:20231201143000+05'30'")
  = Some "2023-12-01T14:30:00+05:30".
Proof. reflexivity. Qed.

Lemma format_pdf_date_absent : _format_pdf_date None = None.
Proof. reflexivity. Qed.

(** Fewer than eight characters after the prefix: no date. *)
Lemma format_pdf_date_short (raw : string) :
  String.length (stripped raw) < 8 -> _format_pdf_date (Some raw) = None.
Proof.
  intros Hlen. unfold _format_pdf_date.
  destruct raw as [| c raw']; [reflexivity |].
  cbv zeta. unfold format_body.
  destruct (Nat.leb_spec 14 (String.length (stripped (String c raw')))); [lia |].
  destruct (Nat.leb_spec 8 (String.length (stripped (String c raw')))); [lia |].
  reflexivity.
Qed.

(** Eight to thirteen characters after the prefix: midnight, UTC. *)
Lemma format_pdf_date_day_only (raw : string) :
  8 <= String.length (stripped raw) < 14 ->
  _format_pdf_date (Some raw)
  = Some (slice 0 4 (stripped raw) ++ "-" ++ slice 4 6 (stripped raw) ++ "-"
          ++ slice 6 8 (stripped raw) ++ "T00:00:00Z").
Proof.
  intros Hlen. unfold _format_pdf_date.
  destruct raw as [| c raw']; [cbn in Hlen; lia |].
  cbv zeta. unfold format_body.
  destruct (Nat.leb_spec 14 (String.length (stripped (String c raw')))); [lia |].
  destruct (Nat.leb_spec 8 (String.length (stripped (String c raw')))); [| lia].
  reflexivity.
Qed.

Lemma length_succ_inv (n : nat) (s : string) :
  String.length s = S n ->
  exists c s', s = String c s' /\ String.length s' = n.
Proof. destruct s; cbn; [discriminate |]. intros [= H]. eauto. Qed.

Lemma length_zero_inv (s : string) : String.length s = 0 -> s = "".
Proof. destruct s; [reflexivity | discriminate]. Qed.

(** Replace a string of known length by its characters. *)
Ltac chars H :=
  repeat (apply length_succ_inv in H as (? & ? & -> & H));
  apply length_zero_inv in H as ->.

(** A full date and time without offset is read as UTC. *)
Lemma format_pdf_date_utc (Y M D h m s : string) :
  String.length Y = 4 -> String.length M = 2 -> String.length D = 2 ->
  String.length h = 2 -> String.length m = 2 -> String.length s = 2 ->
  _format_pdf_date (Some ("D:" ++ Y ++ M ++ D ++ h ++ m ++ s))
  = Some (Y ++ "-" ++ M ++ "-" ++ D ++ "T" ++ h ++ ":" ++ m ++ ":" ++ s ++ "Z").
Proof.
  intros HY HM HD Hh Hm Hs.
  chars HY; chars HM; chars HD; chars Hh; chars Hm; chars Hs.
  reflexivity.
Qed.

(** A full date and time with an offset [±HH'MM'] keeps the offset. *)
Lemma format_pdf_date_offset (Y M D h m s HH MM : string) (sign : ascii) :
  String.length Y = 4 -> String.length M = 2 -> String.length D = 2 ->
  String.length h = 2 -> String.length m = 2 -> String.length s = 2 ->
  String.length HH = 2 -> String.length MM = 2 ->
  sign = "+"%char \/ sign = "-"%char ->
  contains "'" HH = false ->
  _format_pdf_date
    (Some ("D:" ++ Y ++ M ++ D ++ h ++ m ++ s
           ++ String sign (HH ++ "'" ++ MM ++ "'")))
  = Some (Y ++ "-" ++ M ++ "-" ++ D ++ "T" ++ h ++ ":" ++ m ++ ":" ++ s
          ++ String sign (HH ++ ":" ++ MM)).
Proof.
  intros HY HM HD Hh Hm Hs HHH HMM Hsign Hq.
  destruct HH as [| h1 [| h2 [| ? ?]]]; try discriminate HHH. clear HHH.
  chars HY; chars HM; chars HD; chars Hh; chars Hm; chars Hs; chars HMM.
  unfold contains in Hq. cbn -[ascii_dec] in Hq.
  destruct (ascii_dec "'" h1) as [| N1]; [discriminate |].
  destruct (ascii_dec "'" h2) as [| N2]; [discriminate |].
  assert (Hidx : forall sg rest,
             sg <> "'"%char ->
             index 0 "'" (String sg (String h1 (String h2 (String "'" rest))))
             = Some 3).
  { intros sg rest Hsg. cbn -[ascii_dec].
    destruct (ascii_dec "'" sg); [congruence |].
    destruct (ascii_dec "'" h1); [contradiction |].
    destruct (ascii_dec "'" h2); [contradiction |].
    destruct (ascii_dec "'" "'"); [| congruence].
    destruct rest; reflexivity. }
  unfold _format_pdf_date, stripped, format_body.
  destruct Hsign as [-> | ->]; cbn -[index contains str_index slice];
    unfold contains, str_index; rewrite !Hidx by discriminate; reflexivity.
Qed.


End PdfInfoFacts.

(** ** Compilation *)

Module CompileFacts.
Import Compile.

Lemma handle_fails (timeout : option Z) (e : exn) :
  success (handle timeout e) = false /\ error_message (handle timeout e) <> None.
Proof.
  unfold handle. destruct (exn_cls e); cbn; split; (reflexivity || discriminate).
Qed.

(** The verdict of the [try] block when the process has exited. *)
Lemma run_and_report_completed (w : World) (tex_file output_path pdf_path : Path)
    (timeout : option Z) (p : CompletedProcess) :
  run w (pdflatex_cmd tex_file output_path) timeout (str output_path) = Returned p ->
  exists r,
    run_and_report w tex_file output_path pdf_path timeout = Returned r
    /\ success r = ((returncode p =? 0)%Z && exists_after_run w pdf_path).
Proof.
  intros Hrun. unfold run_and_report. rewrite Hrun. cbn [bind].
  destruct ((returncode p =? 0)%Z && exists_after_run w pdf_path);
    eexists; split; reflexivity.
Qed.

(** Once the output directory is in place, [compile_latex] returns a
    result, and a process that could not be run to its end gives a failed
    one with a message. *)
Lemma compile_latex_returns_after_mkdir (w : World) (tex_path : string)
    (output_dir : option string) (timeout : option Z) :
  tex_path <> "" ->
  exists_at_entry w (Path_of tex_path) = true ->
  mkdir_parents w (resolve_output (Path_of tex_path) output_dir) = None ->
  exists r,
    compile_latex w (Some tex_path) output_dir timeout = Returned r
    /\ (forall e,
          run w (pdflatex_cmd (Path_of tex_path)
                   (resolve_output (Path_of tex_path) output_dir))
            timeout (str (resolve_output (Path_of tex_path) output_dir))
          = Raised e ->
          success r = false /\ error_message r <> None).
Proof.
  intros Hne Hex Hmk. unfold compile_latex.
  destruct tex_path as [| c t]; [congruence |].
  rewrite Hex, Hmk. cbn [negb].
  destruct (run_and_report w _ _ _ timeout) as [r | e] eqn:Hrr.
  - exists r. split; [reflexivity |].
    intros e He. unfold run_and_report in Hrr. rewrite He in Hrr. discriminate.
  - exists (handle timeout e). split; [reflexivity |].
    intros _ _. apply handle_fails.
Qed.

(** A failure to create the output directory leaves [compile_latex] as the
    exception that [mkdir] raised. *)
Lemma compile_latex_raises_mkdir_error (w : World) (tex_path : string)
    (output_dir : option string) (timeout : option Z) (e : exn) :
  tex_path <> "" ->
  exists_at_entry w (Path_of tex_path) = true ->
  mkdir_parents w (resolve_output (Path_of tex_path) output_dir) = Some e ->
  compile_latex w (Some tex_path) output_dir timeout = Raised e.
Proof.
  intros Hne Hex Hmk. unfold compile_latex.
  destruct tex_path as [| c t]; [congruence |].
  rewrite Hex, Hmk. reflexivity.
Qed.

(** C2: a returned result reports success exactly when the compiler
    process exited with code zero and the PDF named after the input's stem
    exists in the resolved output directory; exit code zero without that
    PDF gives [success = false]. *)
Theorem compile_latex_success_iff (w : World) (tex_path : string)
    (output_dir : option string) (timeout : option Z) (r : CompilationResult) :
  compile_latex w (Some tex_path) output_dir timeout = Returned r ->
  let tex_file := Path_of tex_path in
  let output_path := resolve_output tex_file output_dir in
  (success r = true <->
   exists stderr,
     run w (pdflatex_cmd tex_file output_path) timeout (str output_path)
     = Returned (mkCompleted 0 stderr)
     /\ exists_after_run w (expected_pdf tex_file output_dir) = true)
  /\ (forall stderr,
        run w (pdflatex_cmd tex_file output_path) timeout (str output_path)
        = Returned (mkCompleted 0 stderr) ->
        exists_after_run w (expected_pdf tex_file output_dir) = false ->
        success r = false).
Proof.
  intros Hcall tex_file output_path. unfold compile_latex in Hcall.
  destruct tex_path as [| c t]; [discriminate |].
  fold tex_file in Hcall.
  destruct (exists_at_entry w tex_file); [| discriminate].
  cbn [negb] in Hcall. fold output_path in Hcall.
  destruct (mkdir_parents w output_path); [discriminate |].
  unfold expected_pdf. fold tex_file output_path.
  set (pdf_path := joinpath output_path (stem tex_file ++ ".pdf")) in *.
  destruct (run w (pdflatex_cmd tex_file output_path) timeout (str output_path))
    as [p | e] eqn:Hrun.
  - destruct (run_and_report_completed w tex_file output_path pdf_path timeout p Hrun)
      as (r' & Hr' & Hs).
    rewrite Hr' in Hcall. injection Hcall as <-. rewrite Hs.
    destruct p as [rc err]. cbn [returncode]. split.
    + split.
      * intros H. apply andb_true_iff in H as [Hz Hpdf].
        apply Z.eqb_eq in Hz. subst rc. exists err. split; [reflexivity | exact Hpdf].
      * intros (err' & Heq & Hpdf). injection Heq as -> _.
        rewrite Hpdf. reflexivity.
    + intros err' Heq Hpdf. injection Heq as -> _. rewrite Hpdf. reflexivity.
  - unfold run_and_report in Hcall. rewrite Hrun in Hcall. cbn [bind] in Hcall.
    injection Hcall as <-. destruct (handle_fails timeout e) as [Hf _].
    rewrite Hf. split.
    + split; [discriminate |]. intros (err' & Heq & _). discriminate.
    + intros err' Heq. discriminate.
Qed.

Lemma compile_latex_success_iff_witness :
  Compile.success
    {| Compile.success := true;
       Compile.output_path := Some "/w/paper.pdf";
       Compile.error_message := None;
       Compile.log_content := Some "" |} = true <->
  exists stderr,
    Compile.run (Examples.compiler_world 0 true)
      (pdflatex_cmd (Path_of "/w/paper.tex")
         (resolve_output (Path_of "/w/paper.tex") None))
      None (str (resolve_output (Path_of "/w/paper.tex") None))
    = Returned (mkCompleted 0 stderr)
    /\ Compile.exists_after_run (Examples.compiler_world 0 true)
         (expected_pdf (Path_of "/w/paper.tex") None) = true.
Proof.
  exact (proj1 (compile_latex_success_iff (Examples.compiler_world 0 true)
                  "/w/paper.tex" None None _ eq_refl)).
Defined.

(** C5: the creation of the output directory happens before the [try]
    block, so its failure is raised to the caller.  With the output
    directory requested below the regular file [/w/paper.tex], the call
    ends in [NotADirectoryError] and returns no result. *)
Theorem compile_latex_mkdir_failure_escapes :
  compile_latex (Examples.compiler_world 0 true)
    (Some "/w/paper.tex") (Some "/w/paper.tex/out") None
  = Raised (Exn NotADirectoryError "Not a directory: /w/paper.tex/out").
Proof. reflexivity. Qed.

End CompileFacts.

(** ** Validation *)

Module ValidateFacts.
Import Validate Spec.

(** *** Brace balance *)

Lemma brace_scan_step (c : ascii) (rest : string) (k : Z) :
  brace_scan (String c rest) k
  = if (k + brace_delta c <? 0)%Z then ((k + brace_delta c)%Z, true)
    else brace_scan rest (k + brace_delta c).
Proof.
  cbn [brace_scan]. unfold brace_delta.
  destruct (Ascii.eqb c "{"); [reflexivity |].
  destruct (Ascii.eqb c "}").
  - replace (k + -1)%Z with (k - 1)%Z by lia. reflexivity.
  - rewrite Z.add_0_r. reflexivity.
Qed.

(** A scan that never dips ends at the net count without [break]. *)
Lemma brace_scan_stays (s : string) : forall k,
  stays_nonnegative k s -> brace_scan s k = ((k + net_braces s)%Z, false).
Proof.
  induction s as [| c s IH]; intros k Hs.
  - cbn. rewrite Z.add_0_r. reflexivity.
  - destruct Hs as [Hc Hs]. rewrite brace_scan_step.
    destruct (Z.ltb_spec (k + brace_delta c) 0); [lia |].
    rewrite (IH _ Hs). cbn [net_braces]. f_equal. lia.
Qed.

(** A scan that dips ends through [break] with a negative counter. *)
Lemma brace_scan_dips (s : string) : forall k,
  ~ stays_nonnegative k s ->
  exists m, (m < 0)%Z /\ brace_scan s k = (m, true).
Proof.
  induction s as [| c s IH]; intros k Hs.
  - exfalso. apply Hs. exact I.
  - rewrite brace_scan_step.
    destruct (Z.ltb_spec (k + brace_delta c) 0) as [Hneg | Hpos].
    + eexists; split; [exact Hneg | reflexivity].
    + apply IH. intros H. apply Hs. split; assumption.
Qed.

Lemma stays_nonnegative_dec (s : string) : forall k,
  stays_nonnegative k s \/ ~ stays_nonnegative k s.
Proof.
  induction s as [| c s IH]; intros k; cbn.
  - left; exact I.
  - destruct (Z.ltb_spec (k + brace_delta c) 0) as [Hneg | Hpos].
    + right. intros [H _]. lia.
    + destruct (IH (k + brace_delta c)%Z) as [H | H].
      * left; split; assumption.
      * right; intros [_ H']; contradiction.
Qed.

Lemma substring_cons (c : ascii) (s : string) (n : nat) :
  substring 0 (S n) (String c s) = String c (substring 0 n s).
Proof. reflexivity. Qed.

Lemma substring_zero (s : string) : substring 0 0 s = "".
Proof. destruct s; reflexivity. Qed.

(** The scan stays non-negative exactly when every prefix does. *)
Lemma stays_nonnegative_prefixes (s : string) : forall k,
  (0 <= k)%Z ->
  stays_nonnegative k s <->
  forall n, (0 <= k + net_braces (substring 0 n s))%Z.
Proof.
  induction s as [| c s IH]; intros k Hk.
  - split; [| intros _; exact I].
    intros _ n. destruct n; cbn; lia.
  - split.
    + intros [Hc Hs] n. destruct n as [| n].
      * rewrite substring_zero. cbn. lia.
      * rewrite substring_cons. cbn [net_braces].
        pose proof (proj1 (IH _ Hc) Hs n). lia.
    + intros H. assert (Hc : (0 <= k + brace_delta c)%Z).
      { specialize (H 1). rewrite substring_cons, substring_zero in H.
        cbn [net_braces] in H. lia. }
      split; [exact Hc |]. apply (IH _ Hc). intros n.
      specialize (H (S n)). rewrite substring_cons in H.
      cbn [net_braces] in H. lia.
Qed.

Lemma never_overclosed_stays (s : string) :
  never_overclosed s <-> stays_nonnegative 0 s.
Proof.
  unfold never_overclosed.
  rewrite (stays_nonnegative_prefixes s 0 (Z.le_refl 0)).
  split; intros H n; specialize (H n); lia.
Qed.

(** The brace check is silent exactly on the texts whose braces never
    over-close and balance in the end. *)
Lemma brace_errors_nil (content : string) :
  brace_errors content = [] <->
  never_overclosed content /\ net_braces content = 0%Z.
Proof.
  rewrite never_overclosed_stays. unfold brace_errors.
  destruct (stays_nonnegative_dec content 0) as [Hs | Hs].
  - rewrite (brace_scan_stays _ _ Hs). cbn [app Z.add].
    destruct (Z.gtb_spec (net_braces content) 0) as [Hgt | Hle].
    + split; [discriminate | intros [_ H]; lia].
    + destruct (Z.ltb_spec (net_braces content) 0) as [Hlt | Hge].
      * split; [discriminate | intros [_ H]; lia].
      * split; [intros _; split; [exact Hs | lia] | reflexivity].
  - destruct (brace_scan_dips _ _ Hs) as (m & Hm & ->).
    split; [discriminate | intros [H _]; contradiction].
Qed.

Lemma brace_errors_all_reported (content : string) :
  brace_error_reported (brace_errors content)
  = match brace_errors content with [] => false | _ => true end.
Proof.
  unfold brace_errors, brace_error_reported.
  destruct (brace_scan content 0) as [n broke].
  destruct broke; [reflexivity |].
  destruct (n >? 0)%Z; [reflexivity |].
  destruct (n <? 0)%Z; reflexivity.
Qed.

Lemma shell_errors_not_brace (content : string) :
  brace_error_reported (shell_errors content) = false.
Proof.
  unfold shell_errors, brace_error_reported.
  destruct (search_documentclass content);
    destruct (search_named "\begin" "document" content);
    destruct (search_named "\end" "document" content); reflexivity.
Qed.

Lemma env_errors_not_brace (opener closer label content : string) :
  (forall env, prefix "Unmatched " (label ++ env) = false) ->
  brace_error_reported (env_errors opener closer label content) = false.
Proof.
  intros Hlabel. unfold env_errors, brace_error_reported.
  induction (findall_env opener 0 content) as [| env l IH]; [reflexivity |].
  cbn [flat_map]. rewrite existsb_app, IH, orb_false_r.
  destruct (search_named closer env content); [reflexivity |].
  cbn [existsb]. rewrite Hlabel. reflexivity.
Qed.

(** Only the brace check contributes brace messages to [errors]. *)
Lemma brace_error_reported_collect (content : string) :
  brace_error_reported (collect_errors content)
  = match brace_errors content with [] => false | _ => true end.
Proof.
  unfold collect_errors.
  change (brace_error_reported ?l) with (existsb (prefix "Unmatched ") l).
  rewrite !existsb_app.
  change (existsb (prefix "Unmatched ") ?l) with (brace_error_reported l).
  rewrite shell_errors_not_brace, brace_errors_all_reported.
  unfold unclosed_errors, unopened_errors.
  rewrite !env_errors_not_brace by (intros env; reflexivity).
  rewrite !orb_false_r. reflexivity.
Qed.

(** C4, as the code has it: no brace message is reported exactly when,
    every brace counted whether escaped or not, no prefix of the text
    closes more braces than it opens and the whole text opens as many as
    it closes; so a silent brace check implies a zero net count. *)
Theorem brace_check_silent_iff (content : string) :
  (brace_error_reported (collect_errors content) = false <->
   never_overclosed content /\ net_braces content = 0%Z)
  /\ (brace_error_reported (collect_errors content) = false ->
      net_braces content = 0%Z).
Proof.
  assert (H : brace_error_reported (collect_errors content) = false <->
              never_overclosed content /\ net_braces content = 0%Z).
  { rewrite brace_error_reported_collect, <- brace_errors_nil.
    destruct (brace_errors content); split; congruence. }
  split; [exact H | intros Hs; apply H, Hs].
Qed.

Lemma brace_check_silent_iff_witness : net_braces "\section{a}" = 0%Z.
Proof.
  apply (proj2 (brace_check_silent_iff "\section{a}")). reflexivity.
Defined.

(** C4, as stated, fails: the braces of [}{] balance, none of them is
    escaped, and a brace error is reported; the escaped brace of [\{] is
    counted like any other. *)
Lemma brace_count_zero_yet_reported :
  ~ (forall content,
       unescaped_net_braces false content = 0%Z <->
       brace_error_reported (collect_errors content) = false)
  /\ net_braces "}{" = 0%Z
  /\ collect_errors "}{"
     = ["Missing \documentclass command"; "Missing \begin{document}";
        "Missing \end{document}"; "Unmatched closing brace }";
        "Unmatched closing braces: 1 extra"]
  /\ unescaped_net_braces false "\{" = 0%Z
  /\ brace_error_reported (collect_errors "\{") = true.
Proof.
  split; [| repeat split; reflexivity].
  intros H. specialize (H "}{"). destruct H as [H _].
  specialize (H eq_refl). discriminate.
Qed.

(** *** Environment matching *)

Lemma sapp_assoc (a b c : string) : (a ++ b) ++ c = a ++ b ++ c.
Proof. induction a as [| x a IH]; cbn; [reflexivity | now rewrite IH]. Qed.

Lemma sapp_length (a b : string) :
  String.length (a ++ b) = String.length a + String.length b.
Proof. induction a as [| x a IH]; cbn; [reflexivity | now rewrite IH]. Qed.

Lemma all_chars_app (f : ascii -> bool) (a b : string) :
  all_chars f (a ++ b) = all_chars f a && all_chars f b.
Proof.
  induction a as [| x a IH]; cbn; [reflexivity |].
  now rewrite IH, andb_assoc.
Qed.

Lemma all_chars_weaken (f g : ascii -> bool) (s : string) :
  (forall c, f c = true -> g c = true) ->
  all_chars f s = true -> all_chars g s = true.
Proof.
  intros Hfg. induction s as [| x s IH]; cbn; [reflexivity |].
  intros H. apply andb_true_iff in H as [Hx Hs].
  now rewrite (Hfg _ Hx), IH.
Qed.

Lemma strip_prefix_app (lit r : string) : strip_prefix lit (lit ++ r) = Some r.
Proof.
  induction lit as [| x lit IH]; cbn; [reflexivity |].
  now rewrite Ascii.eqb_refl.
Qed.

Lemma strip_prefix_inv (lit : string) : forall s r,
  strip_prefix lit s = Some r -> s = lit ++ r.
Proof.
  induction lit as [| x lit IH]; cbn; intros s r H.
  - congruence.
  - destruct s as [| y s]; [discriminate |].
    destruct (Ascii.eqb_spec x y) as [-> |]; [| discriminate].
    now rewrite (IH _ _ H).
Qed.

Lemma skip_spaces_split (s : string) :
  exists ws, all_chars is_space ws = true /\ s = ws ++ skip_spaces s.
Proof.
  induction s as [| x s (ws & Hws & Hs)]; cbn.
  - exists "". split; reflexivity.
  - destruct (is_space x) eqn:Hx.
    + exists (String x ws). cbn. rewrite Hx, Hws. split; [reflexivity |].
      now rewrite <- Hs.
    + exists "". split; reflexivity.
Qed.

Lemma skip_spaces_app (ws r : string) :
  all_chars is_space ws = true -> skip_spaces (ws ++ r) = skip_spaces r.
Proof.
  induction ws as [| x ws IH]; cbn; [reflexivity |].
  intros H. apply andb_true_iff in H as [-> Hws]. exact (IH Hws).
Qed.

Lemma take_word_split (s : string) : forall w r,
  take_word s = (w, r) -> s = w ++ r /\ all_chars is_word w = true.
Proof.
  induction s as [| x s IH]; cbn; intros w r H.
  - injection H as <- <-. split; reflexivity.
  - destruct (is_word x) eqn:Hx.
    + destruct (take_word s) as [w' r'] eqn:Htw.
      injection H as <- <-. destruct (IH _ _ eq_refl) as [-> Hw].
      cbn. rewrite Hx, Hw. split; reflexivity.
    + injection H as <- <-. split; reflexivity.
Qed.

Lemma take_word_app (X r : string) :
  all_chars is_word X = true ->
  take_word (X ++ String "}" r) = (X, String "}" r).
Proof.
  induction X as [| x X IH]; cbn; [reflexivity |].
  intros H. apply andb_true_iff in H as [-> HX]. now rewrite (IH HX).
Qed.

(** A match of [kw\s*\{(\w+)\}] spelled out. *)
Lemma match_env_inv (kw s w rest : string) :
  match_env kw s = Some (w, rest) ->
  exists ws,
    all_chars is_space ws = true
    /\ s = kw ++ ws ++ "{" ++ w ++ "}" ++ rest
    /\ all_chars is_word w = true.
Proof.
  unfold match_env. intros H.
  destruct (strip_prefix kw s) as [r |] eqn:Hkw; [| discriminate].
  apply strip_prefix_inv in Hkw. subst s.
  destruct (skip_spaces_split r) as (ws & Hws & Hr).
  destruct (skip_spaces r) as [| b r1]; [discriminate |].
  destruct (Ascii.eqb_spec b "{") as [-> | Hb].
  - destruct (take_word r1) as [w' r2] eqn:Htw.
    destruct w' as [| c w']; [discriminate |].
    destruct r2 as [| d r2]; [discriminate |].
    destruct (Ascii.eqb_spec d "}") as [-> | Hd].
    + injection H as <- <-. apply take_word_split in Htw as [-> Hw].
      exists ws. repeat split; [exact Hws | | exact Hw].
      rewrite Hr. reflexivity.
    + exfalso. revert H. clear -Hd.
      destruct d as [[] [] [] [] [] [] [] []]; try discriminate.
      now contradiction Hd.
  - exfalso. revert H. clear -Hb.
    destruct b as [[] [] [] [] [] [] [] []]; try discriminate.
    now contradiction Hb.
Qed.

Lemma match_env_app (kw ws X rest : string) :
  all_chars is_space ws = true ->
  all_chars is_word X = true ->
  X <> "" ->
  match_env kw (kw ++ ws ++ "{" ++ X ++ "}" ++ rest) = Some (X, rest).
Proof.
  intros Hws HX Hne. unfold match_env.
  rewrite strip_prefix_app, (skip_spaces_app _ _ Hws).
  change (skip_spaces ("{" ++ X ++ "}" ++ rest))
    with (String "{" (X ++ String "}" rest)).
  cbv beta iota. rewrite (take_word_app _ _ HX).
  destruct X; [congruence | reflexivity].
Qed.

Lemma match_named_inv (kw env s : string) :
  match_named kw env s = true ->
  exists ws r,
    all_chars is_space ws = true /\ s = kw ++ ws ++ "{" ++ env ++ "}" ++ r.
Proof.
  unfold match_named. intros H.
  destruct (strip_prefix kw s) as [r |] eqn:Hkw; [| discriminate].
  apply strip_prefix_inv in Hkw. subst s.
  destruct (skip_spaces_split r) as (ws & Hws & Hr).
  destruct (strip_prefix "{" (skip_spaces r)) as [r1 |] eqn:H1; [| discriminate].
  apply strip_prefix_inv in H1.
  destruct (strip_prefix env r1) as [r2 |] eqn:H2; [| discriminate].
  apply strip_prefix_inv in H2.
  destruct (strip_prefix "}" r2) as [r3 |] eqn:H3; [| discriminate].
  apply strip_prefix_inv in H3.
  exists ws, r3. split; [exact Hws |].
  rewrite Hr at 1. rewrite H1, H2, H3. reflexivity.
Qed.

Lemma match_named_app (kw ws env rest : string) :
  all_chars is_space ws = true ->
  match_named kw env (kw ++ ws ++ "{" ++ env ++ "}" ++ rest) = true.
Proof.
  intros Hws. unfold match_named.
  rewrite strip_prefix_app, (skip_spaces_app _ _ Hws).
  change (skip_spaces ("{" ++ env ++ "}" ++ rest))
    with ("{" ++ env ++ "}" ++ rest).
  now rewrite !strip_prefix_app.
Qed.

Lemma search_named_unfold (kw env s : string) :
  search_named kw env s
  = match_named kw env s
    || match s with
       | "" => false
       | String _ s' => search_named kw env s'
       end.
Proof. destruct s; reflexivity. Qed.

(** [re.search] finds the tag exactly when the text mentions it. *)
Lemma search_named_spec (kw env s : string) :
  search_named kw env s = true <-> mentions kw env s.
Proof.
  split.
  - induction s as [| x s IH]; rewrite search_named_unfold; intros H;
      apply orb_true_iff in H as [H | H].
    + apply match_named_inv in H as (ws & r & Hws & ->).
      exists "", ws, r. split; [exact Hws | reflexivity].
    + discriminate.
    + apply match_named_inv in H as (ws & r & Hws & ->).
      exists "", ws, r. split; [exact Hws | reflexivity].
    + destruct (IH H) as (pre & ws & post & Hws & ->).
      exists (String x pre), ws, post. split; [exact Hws | reflexivity].
  - intros (pre & ws & post & Hws & ->).
    pose proof (match_named_app kw ws env post Hws) as Hhere.
    set (tag := kw ++ ws ++ "{" ++ env ++ "}" ++ post) in *.
    induction pre as [| x pre IH]; rewrite search_named_unfold; cbn [append].
    + now rewrite Hhere.
    + rewrite IH. apply orb_true_r.
Qed.

Lemma space_not_backslash (c : ascii) : is_space c = true -> not_backslash c = true.
Proof.
  unfold not_backslash. destruct (Ascii.eqb_spec c "\") as [-> |];
    [discriminate | reflexivity].
Qed.

Lemma word_not_backslash (c : ascii) : is_word c = true -> not_backslash c = true.
Proof.
  unfold not_backslash. destruct (Ascii.eqb_spec c "\") as [-> |];
    [discriminate | reflexivity].
Qed.

(** A backslash of the text cannot lie inside a stretch free of them. *)
Lemma split_at_backslash (body : string) : forall a b rest,
  all_chars not_backslash body = true ->
  a ++ String "\" b = body ++ rest ->
  exists a', a = body ++ a'.
Proof.
  induction body as [| x body IH]; cbn; intros a b rest Hbody Heq.
  - exists a. reflexivity.
  - apply andb_true_iff in Hbody as [Hx Hbody].
    destruct a as [| y a]; cbn in Heq.
    + injection Heq as <- _. discriminate.
    + injection Heq as -> Heq. destruct (IH _ _ _ Hbody Heq) as (a' & ->).
      exists a'. reflexivity.
Qed.

Section Keyword.

(** A control word: a backslash and letters. *)
Variable kw kw' : string.
Hypothesis kw_shape : kw = String "\" kw'.
Hypothesis kw_letters : all_chars not_backslash kw' = true.

(** A match starts with the backslash of [kw] and holds no other. *)
Lemma match_env_body (s w rest : string) :
  match_env kw s = Some (w, rest) ->
  exists body,
    s = String "\" (body ++ rest) /\ all_chars not_backslash body = true.
Proof.
  intros Hm. apply match_env_inv in Hm as (ws & Hws & -> & Hw).
  exists (kw' ++ ws ++ "{" ++ w ++ "}"). split.
  - rewrite kw_shape, !sapp_assoc. reflexivity.
  - rewrite !all_chars_app, kw_letters.
    rewrite (all_chars_weaken _ _ _ space_not_backslash Hws).
    rewrite (all_chars_weaken _ _ _ word_not_backslash Hw).
    reflexivity.
Qed.

(** [re.findall] misses no tag: matches cannot overlap, since each holds a
    single backslash, its first character. *)
Lemma findall_env_finds (tag tail X post : string) :
  match_env kw tag = Some (X, post) ->
  tag = String "\" tail ->
  forall pre skip,
    skip <= String.length pre ->
    In X (findall_env kw skip (pre ++ tag)).
Proof.
  intros Hhere Htag. induction pre as [| c pre IH]; intros skip Hskip.
  - cbn in Hskip. assert (skip = 0) as -> by lia. cbn [append].
    rewrite Htag. cbn [findall_env]. rewrite <- Htag, Hhere.
    left. reflexivity.
  - cbn [append findall_env]. destruct skip as [| k].
    + destruct (match_env kw (String c (pre ++ tag))) as [[w rest] |] eqn:Hm.
      * right. apply IH.
        apply match_env_body in Hm as (body & Heq & Hbody).
        injection Heq as _ Heq. rewrite Htag in Heq.
        destruct (split_at_backslash _ _ _ _ Hbody Heq) as (a' & Ha).
        rewrite <- Htag in Heq. rewrite Heq, sapp_length, Ha, sapp_length. lia.
      * apply IH. lia.
    + apply IH. cbn in Hskip. lia.
Qed.

Lemma findall_env_mentions (X content : string) :
  all_chars is_word X = true ->
  X <> "" ->
  mentions kw X content ->
  In X (findall_env kw 0 content).
Proof.
  intros HX Hne (pre & ws & post & Hws & ->).
  apply (findall_env_finds _ (kw' ++ ws ++ "{" ++ X ++ "}" ++ post) _ post).
  - now apply match_env_app.
  - rewrite kw_shape. reflexivity.
  - lia.
Qed.

(** An environment that [kw] names and [closer] never mentions is in the
    messages of the check. *)
Lemma env_errors_reports (closer label X content : string) :
  all_chars is_word X = true ->
  X <> "" ->
  mentions kw X content ->
  ~ mentions closer X content ->
  In (label ++ X) (env_errors kw closer label content).
Proof.
  intros HX Hne Hm Hnot. unfold env_errors. apply in_flat_map.
  exists X. split; [now apply findall_env_mentions |].
  destruct (search_named closer X content) eqn:Hs.
  - exfalso. apply Hnot. now apply search_named_spec.
  - left. reflexivity.
Qed.

End Keyword.

Lemma nothing_occurs_in_empty (c : ascii) (pat : string) :
  ~ occurs (String c pat) "".
Proof.
  intros (pre & post & H). destruct pre; discriminate.
Qed.

(** C3, as the code has it: the check is by existence, not by position.
    For a non-empty name [X] of word characters, a [\begin{X}] in a text
    that mentions no [\end{X}] anywhere gives the error
    [Unclosed environment: X], and an [\end{X}] in a text that mentions no
    [\begin{X}] anywhere gives [Environment ended without begin: X]; white
    space may stand between the control word and the brace. *)
Theorem unmatched_environment_reported (content X : string) :
  X <> "" ->
  all_chars is_word X = true ->
  (mentions "\begin" X content ->
   ~ mentions "\end" X content ->
   In ("Unclosed environment: " ++ X) (collect_errors content))
  /\ (mentions "\end" X content ->
      ~ mentions "\begin" X content ->
      In ("Environment ended without begin: " ++ X) (collect_errors content)).
Proof.
  intros Hne HX. unfold collect_errors. split; intros Hm Hnot.
  - apply in_or_app; right. apply in_or_app; right. apply in_or_app; left.
    apply (env_errors_reports "\begin" "begin" eq_refl eq_refl); assumption.
  - apply in_or_app; right. apply in_or_app; right. apply in_or_app; right.
    apply (env_errors_reports "\end" "end" eq_refl eq_refl); assumption.
Qed.

Lemma unmatched_environment_reported_witness :
  In "Unclosed environment: a" (collect_errors "\begin{a}")
  /\ In "Environment ended without begin: b" (collect_errors "\end {b}").
Proof.
  split.
  - apply (proj1 (unmatched_environment_reported "\begin{a}" "a"
                    ltac:(discriminate) eq_refl)).
    + exists "", "", "". split; reflexivity.
    + intros H. apply search_named_spec in H. discriminate H.
  - apply (proj2 (unmatched_environment_reported "\end {b}" "b"
                    ltac:(discriminate) eq_refl)).
    + exists "", " ", "". split; reflexivity.
    + intros H. apply search_named_spec in H. discriminate H.
Defined.

(** C3, as stated, fails: in [\end{a}\begin{a}] the [\begin{a}] has no
    later [\end{a}] and the [\end{a}] has no prior [\begin{a}], yet neither
    error is reported. *)
Lemma misplaced_end_goes_unreported :
  ~ (forall content X,
       begin_without_later_end content X ->
       In ("Unclosed environment: " ++ X) (collect_errors content))
  /\ ~ (forall content Y,
          end_without_prior_begin content Y ->
          In ("Environment ended without begin: " ++ Y) (collect_errors content))
  /\ collect_errors Examples.end_before_begin
     = ["Missing \documentclass command"; "Missing \begin{document}";
        "Missing \end{document}"].
Proof.
  split; [| split; [| reflexivity]].
  - intros H. specialize (H Examples.end_before_begin "a").
    assert (Hpre : begin_without_later_end Examples.end_before_begin "a").
    { exists "\end{a}", "". split; [reflexivity |].
      apply nothing_occurs_in_empty. }
    specialize (H Hpre). vm_compute in H.
    repeat (destruct H as [H | H]; [discriminate H |]). exact H.
  - intros H. specialize (H Examples.end_before_begin "a").
    assert (Hpre : end_without_prior_begin Examples.end_before_begin "a").
    { exists "", "\begin{a}". split; [reflexivity |].
      apply nothing_occurs_in_empty. }
    specialize (H Hpre). vm_compute in H.
    repeat (destruct H as [H | H]; [discriminate H |]). exact H.
Qed.

(** A name outside [\w+] is not seen at all: [\begin{a*}] without any
    [\end{a*}] adds no environment error. *)
Lemma starred_environment_goes_unreported :
  begin_without_later_end "\begin{a*}" "a*"
  /\ ~ In "Unclosed environment: a*" (collect_errors "\begin{a*}").
Proof.
  split.
  - exists "", "". split; [reflexivity | apply nothing_occurs_in_empty].
  - intros H. vm_compute in H.
    repeat (destruct H as [H | H]; [discriminate H |]). exact H.
Qed.

End ValidateFacts.

(** ** Cleanup *)

Module CleanupFacts.
Import Cleanup Spec.

(** *** One candidate *)

(** What [_process_file_for_cleanup] does to the result object. *)
Lemma process_cases (f : Path) (fs : FileSystem) (r : CleanupResult)
    (b : option Path) :
  (dry_run r = true
   /\ _process_file_for_cleanup f (fs, r) b = (fs, record_would_clean r (str f)))
  \/ (dry_run r = false
      /\ (exists e, snd (backup_and_remove fs f b) = Raised e)
      /\ _process_file_for_cleanup f (fs, r) b
         = (fst (backup_and_remove fs f b), r))
  \/ (dry_run r = false
      /\ snd (backup_and_remove fs f b) = Returned tt
      /\ _process_file_for_cleanup f (fs, r) b
         = (fst (backup_and_remove fs f b), record_cleaned r (str f))).
Proof.
  unfold _process_file_for_cleanup.
  destruct (dry_run r); [left; split; reflexivity | right].
  destruct (backup_and_remove fs f b) as [fs' [[] | e]]; cbn [fst snd].
  - right. repeat split; reflexivity.
  - left. split; [reflexivity |]. split; [exists e |]; reflexivity.
Qed.

Section ResultInvariant.

(** A property of the result object that both ways of recording a file
    keep. *)
Variable P : CleanupResult -> Prop.
Hypothesis P_would : forall r s, P r -> P (record_would_clean r s).
Hypothesis P_cleaned :
  forall r s, P r -> dry_run r = false -> P (record_cleaned r s).

Lemma process_keeps (f : Path) (st : State) (b : option Path) :
  P (snd st) -> P (snd (_process_file_for_cleanup f st b)).
Proof.
  destruct st as [fs r]. cbn [snd]. intros HP.
  destruct (process_cases f fs r b) as [[_ ->] | [(_ & _ & ->) | (Hd & _ & ->)]];
    cbn [snd]; auto.
Qed.

Lemma tex_loop_keeps (tex_file : Path) (b : option Path) :
  forall exts st,
    P (snd st) -> P (snd (_clean_tex_file_auxiliaries tex_file exts st b)).
Proof.
  unfold _clean_tex_file_auxiliaries.
  induction exts as [| ext exts IH]; intros st HP; [exact HP |].
  cbn [fold_left]. apply IH.
  destruct (exists_ (fst st) _ && is_file (fst st) _); [| exact HP].
  now apply process_keeps.
Qed.

Lemma single_file_keeps (file_path : Path) (exts : list string) (st : State)
    (b : option Path) :
  P (snd st) -> P (snd (_clean_single_file file_path exts st b)).
Proof.
  unfold _clean_single_file. intros HP.
  destruct (str_in (suffix file_path) exts); [| exact HP].
  now apply process_keeps.
Qed.

Lemma directory_fold_keeps (b : option Path) :
  forall files st,
    P (snd st) ->
    P (snd (fold_left
              (fun st file_path => _process_file_for_cleanup file_path st b)
              files st)).
Proof.
  induction files as [| f files IH]; intros st HP; [exact HP |].
  cbn [fold_left]. apply IH. now apply process_keeps.
Qed.

(** The attribute assignments of [clean_latex] keep the property too. *)
Hypothesis P_success : forall r v, P r -> P (set_success r v).
Hypothesis P_error : forall r v, P r -> P (set_error_message r v).
Hypothesis P_tex : forall r v, P r -> P (set_tex_file_path r v).
Hypothesis P_dir : forall r v, P r -> P (set_directory_path r v).
Hypothesis P_created : forall r v, P r -> P (set_backup_created r v).
Hypothesis P_backup : forall r v, P r -> P (set_backup_directory r v).

Lemma finish_keeps (st : State) (b : option Path) :
  P (snd st) -> P (snd (finish st b)).
Proof.
  destruct st as [fs r]. unfold finish. cbn [snd]. intros HP.
  apply P_success. destruct b; [destruct (cleaned_files r) |]; auto.
Qed.

Lemma clean_target_keeps (path_obj : Path) (exts : list string) (st : State)
    (b : option Path) (rec : bool) :
  P (snd st) -> P (snd (clean_target path_obj exts st b rec)).
Proof.
  destruct st as [fs r]. unfold clean_target. cbn [snd]. intros HP.
  destruct (is_file fs path_obj).
  - apply finish_keeps.
    destruct (suffix path_obj =? ".tex");
      [apply tex_loop_keeps | apply single_file_keeps]; cbn [snd]; auto.
  - unfold _clean_directory_auxiliaries. cbn [fst].
    destruct (find_auxiliary_files fs path_obj rec (Some exts)) as [files | e];
      cbn [bind snd].
    + apply finish_keeps, directory_fold_keeps. cbn [snd]. auto.
    + auto.
Qed.

Lemma prepare_backup_keeps (fs : FileSystem) (timestamp : string)
    (path_obj : Path) (r : CleanupResult) (create_backup : bool) :
  P r -> P (snd (fst (prepare_backup fs timestamp path_obj r create_backup))).
Proof.
  unfold prepare_backup. intros HP.
  destruct (create_backup && negb (dry_run r)); [| exact HP].
  destruct (_create_backup_directory fs timestamp path_obj) as [[fs' d] | e];
    cbn [fst snd]; auto.
Qed.

(** Every result that [clean_latex] returns has the property, when the
    initial result object has it. *)
Lemma clean_latex_keeps (fs fs' : FileSystem) (timestamp : string)
    (path : option string) (extensions : option (list string))
    (dry rec create_backup : bool) (r : CleanupResult) :
  P (initial_result dry rec) ->
  clean_latex fs timestamp path extensions dry rec create_backup
  = (fs', Returned r) ->
  P r.
Proof.
  intros HP Hcall. unfold clean_latex in Hcall.
  destruct path as [[| c path] |]; try discriminate.
  destruct (exists_ fs (Path_of (String c path))); [| discriminate].
  cbn [negb] in Hcall.
  pose proof (prepare_backup_keeps fs timestamp (Path_of (String c path))
                _ create_backup HP) as HP1.
  destruct (prepare_backup fs timestamp (Path_of (String c path))
              (initial_result dry rec) create_backup) as [st b].
  cbn [fst] in HP1.
  pose proof (clean_target_keeps (Path_of (String c path))
                (match extensions with
                 | Some l => set_of l
                 | None => DEFAULT_CLEANUP_EXTENSIONS
                 end) st b rec HP1) as HP2.
  destruct (clean_target _ _ st b rec) as [fs2 r2].
  injection Hcall as _ <-. exact HP2.
Qed.

End ResultInvariant.

(** The counter, the list and the dry-run flag move together. *)
Lemma counter_invariant (dry : bool) (r : CleanupResult) :
  forall fs fs' timestamp path extensions rec create_backup,
    clean_latex fs timestamp path extensions dry rec create_backup
    = (fs', Returned r) ->
    cleaned_files_count r = Z.of_nat (List.length (cleaned_files r))
    /\ dry_run r = dry
    /\ (dry_run r = true -> cleaned_files r = []).
Proof.
  intros fs fs' timestamp path extensions rec create_backup.
  apply (clean_latex_keeps
           (fun r => cleaned_files_count r = Z.of_nat (List.length (cleaned_files r))
                     /\ dry_run r = dry
                     /\ (dry_run r = true -> cleaned_files r = []))).
  - intros r0 s (Hc & Hd & He). repeat split; auto.
  - intros r0 s (Hc & Hd & He) Hdry. cbn. repeat split.
    + rewrite length_app. cbn. lia.
    + exact Hd.
    + intros H. congruence.
  - intros r0 v H; exact H.
  - intros r0 v H; exact H.
  - intros r0 v H; exact H.
  - intros r0 v H; exact H.
  - intros r0 v H; exact H.
  - intros r0 v H; exact H.
  - cbn. repeat split; reflexivity || auto.
Qed.

(** C10: in every result that [clean_latex] returns the counter equals the
    length of the list of cleaned files, and in dry-run mode the counter is
    zero and the list empty. *)
Theorem cleaned_count_is_list_length (fs fs' : FileSystem) (timestamp : string)
    (path : option string) (extensions : option (list string))
    (dry rec create_backup : bool) (r : CleanupResult) :
  clean_latex fs timestamp path extensions dry rec create_backup
  = (fs', Returned r) ->
  cleaned_files_count r = Z.of_nat (List.length (cleaned_files r))
  /\ (dry = true -> cleaned_files_count r = 0%Z /\ cleaned_files r = []).
Proof.
  intros Hcall.
  destruct (counter_invariant dry r _ _ _ _ _ _ _ Hcall) as (Hc & Hd & He).
  split; [exact Hc |]. intros ->.
  specialize (He Hd). rewrite Hc, He. split; reflexivity.
Qed.

Lemma cleaned_count_is_list_length_witness :
  (1 = Z.of_nat (List.length ["/w/paper.aux"]))%Z
  /\ (false = true -> 1%Z = 0%Z /\ ["/w/paper.aux"] = @nil string).
Proof.
  exact (cleaned_count_is_list_length Examples.project _ "20240101_120000"
           (Some "/w") None false false false _ eq_refl).
Defined.

(** *** Protected extensions *)

(** The directory walk never proposes a file with a protected suffix. *)
Lemma find_auxiliary_files_spares_protected (fs : FileSystem) (directory : Path)
    (rec : bool) (extensions : option (list string)) (files : list Path) :
  find_auxiliary_files fs directory rec extensions = Returned files ->
  forall f, In f files ->
    is_file fs f = true
    /\ str_in (suffix f) PROTECTED_EXTENSIONS = false.
Proof.
  unfold find_auxiliary_files. intros H f Hf.
  destruct (glob fs directory rec) as [found | e]; [| discriminate].
  cbn [bind] in H. injection H as <-.
  apply filter_In in Hf as [_ Hf].
  apply andb_true_iff in Hf as [Hfile Hf].
  apply andb_true_iff in Hf as [_ Hprot].
  split; [exact Hfile | now apply negb_true_iff].
Qed.

Lemma directory_fold_lists (b : option Path) :
  forall files st s,
    In s (cleaned_files
            (snd (fold_left
                    (fun st file_path => _process_file_for_cleanup file_path st b)
                    files st))
          ++ would_clean_files
               (snd (fold_left
                       (fun st file_path => _process_file_for_cleanup file_path st b)
                       files st)))%list ->
    In s (cleaned_files (snd st) ++ would_clean_files (snd st))%list
    \/ exists f, In f files /\ s = str f.
Proof.
  induction files as [| f files IH]; intros st s Hs; [left; exact Hs |].
  cbn [fold_left] in Hs. destruct (IH _ _ Hs) as [Hin | (g & Hg & ->)].
  - destruct st as [fs r].
    destruct (process_cases f fs r b)
      as [[_ Heq] | [(_ & _ & Heq) | (_ & _ & Heq)]];
      rewrite Heq in Hin; cbn [snd] in Hin |- *.
    + cbn in Hin. apply in_app_or in Hin as [Hin | Hin].
      * left. apply in_or_app. now left.
      * apply in_app_or in Hin as [Hin | [<- | []]].
        -- left. apply in_or_app. now right.
        -- right. exists f. split; [now left | reflexivity].
    + left. exact Hin.
    + cbn in Hin. apply in_app_or in Hin as [Hin | Hin].
      * apply in_app_or in Hin as [Hin | [<- | []]].
        -- left. apply in_or_app. now left.
        -- right. exists f. split; [now left | reflexivity].
      * left. apply in_or_app. now right.
  - right. exists g. split; [now right | reflexivity].
Qed.

(** In directory mode every path that ends in [cleaned_files] or in
    [would_clean_files] names a file whose suffix is not protected,
    whatever extensions the caller asked for. *)
Lemma directory_mode_spares_protected (path_obj : Path) (exts : list string)
    (fs : FileSystem) (r : CleanupResult) (b : option Path) (rec : bool) :
  is_file fs path_obj = false ->
  cleaned_files r = [] ->
  would_clean_files r = [] ->
  forall s,
    In s (cleaned_files (snd (clean_target path_obj exts (fs, r) b rec))
          ++ would_clean_files (snd (clean_target path_obj exts (fs, r) b rec)))%list ->
    exists f,
      s = str f /\ is_file fs f = true
      /\ str_in (suffix f) PROTECTED_EXTENSIONS = false.
Proof.
  intros Hdir Hc Hw s. unfold clean_target. rewrite Hdir.
  unfold _clean_directory_auxiliaries. cbn [fst].
  destruct (find_auxiliary_files fs path_obj rec (Some exts)) as [files | e] eqn:Hfind;
    cbn [bind].
  - set (st := fold_left _ files _).
    assert (Hfin : forall st0 : State,
               cleaned_files (snd (finish st0 b)) = cleaned_files (snd st0)
               /\ would_clean_files (snd (finish st0 b)) = would_clean_files (snd st0)).
    { intros [fs0 r0]. unfold finish. cbn [snd].
      destruct b; [destruct (cleaned_files r0) eqn:E |]; cbn;
        rewrite ?E; split; reflexivity. }
    destruct (Hfin st) as [-> ->]. subst st. intros Hs.
    apply directory_fold_lists in Hs as [Hs | (f & Hf & ->)].
    + cbn in Hs. rewrite Hc, Hw in Hs. destruct Hs.
    + exists f. split; [reflexivity |].
      eapply find_auxiliary_files_spares_protected; eauto.
  - cbn. rewrite Hc, Hw. intros [].
Qed.

(** C1: the two single-file modes do not consult the protected table.
    Asked to clean [.pdf] around [/w/paper.tex], or to clean [/w/paper.pdf]
    itself, [clean_latex] removes the PDF and lists it in [cleaned_files];
    a dry run lists it in [would_clean_files]. *)
Theorem protected_pdf_is_removed :
  let pdf := ["/"; "w"; "paper.pdf"] in
  str_in (suffix pdf) PROTECTED_EXTENSIONS = true
  /\ is_file Examples.project pdf = true
  /\ (exists fs' r,
        clean_latex Examples.project "20240101_120000" (Some "/w/paper.tex")
          (Some [".pdf"]) false false false = (fs', Returned r)
        /\ exists_ fs' pdf = false
        /\ cleaned_files r = ["/w/paper.pdf"])
  /\ (exists fs' r,
        clean_latex Examples.project "20240101_120000" (Some "/w/paper.pdf")
          (Some [".pdf"]) false false false = (fs', Returned r)
        /\ exists_ fs' pdf = false
        /\ cleaned_files r = ["/w/paper.pdf"])
  /\ (exists fs' r,
        clean_latex Examples.project "20240101_120000" (Some "/w/paper.tex")
          (Some [".pdf"]) true false false = (fs', Returned r)
        /\ would_clean_files r = ["/w/paper.pdf"]).
Proof.
  cbv zeta. split; [reflexivity |]. split; [reflexivity |].
  split; [| split]; eexists; eexists; repeat split; reflexivity.
Qed.

(** *** Best-effort removal *)

Lemma finish_success (st : State) (b : option Path) :
  success (snd (finish st b)) = true.
Proof. destruct st as [fs r]. reflexivity. Qed.

Lemma find_returns_when_glob_does (fs : FileSystem) (directory : Path)
    (rec : bool) (extensions : option (list string)) (found : list Path) :
  glob fs directory rec = Returned found ->
  exists files, find_auxiliary_files fs directory rec extensions = Returned files.
Proof.
  intros H. unfold find_auxiliary_files. rewrite H. eexists; reflexivity.
Qed.

(** When the candidates can be listed, the main [try] block ends with
    [success = True]. *)
Lemma clean_target_success (path_obj : Path) (exts : list string)
    (fs : FileSystem) (r : CleanupResult) (b : option Path) (rec : bool) :
  discovery_completes fs path_obj rec ->
  success (snd (clean_target path_obj exts (fs, r) b rec)) = true.
Proof.
  intros Hd. unfold clean_target.
  destruct (is_file fs path_obj) eqn:Hfile; [apply finish_success |].
  destruct Hd as [Hd | (found & Hglob)]; [congruence |].
  unfold _clean_directory_auxiliaries. cbn [fst].
  destruct (find_returns_when_glob_does fs path_obj rec (Some exts) found Hglob)
    as (files & ->).
  cbn [bind]. apply finish_success.
Qed.

(** The main [try] block leaves [error_message] alone unless listing the
    candidates fails. *)
Lemma clean_target_error_message (path_obj : Path) (exts : list string)
    (fs : FileSystem) (r : CleanupResult) (b : option Path) (rec : bool) :
  discovery_completes fs path_obj rec ->
  error_message (snd (clean_target path_obj exts (fs, r) b rec))
  = error_message r.
Proof.
  intros Hd. unfold clean_target.
  set (P := fun r' => error_message r' = error_message r).
  assert (Hfinish : forall st, P (snd st) -> P (snd (finish st b))).
  { intros st. apply finish_keeps; unfold P; intros; assumption. }
  destruct (is_file fs path_obj) eqn:Hfile.
  - apply Hfinish.
    destruct (suffix path_obj =? ".tex").
    + apply tex_loop_keeps; unfold P; intros; try assumption. reflexivity.
    + apply single_file_keeps; unfold P; intros; try assumption. reflexivity.
  - destruct Hd as [Hd | (found & Hglob)]; [congruence |].
    unfold _clean_directory_auxiliaries. cbn [fst].
    destruct (find_returns_when_glob_does fs path_obj rec (Some exts) found Hglob)
      as (files & ->).
    cbn [bind]. apply Hfinish.
    apply directory_fold_keeps; unfold P; intros; try assumption. reflexivity.
Qed.

(** Past the check of its argument, [clean_latex] returns a result. *)
Lemma clean_latex_returns (fs : FileSystem) (timestamp path : string)
    (extensions : option (list string)) (dry rec create_backup : bool) :
  path <> "" ->
  exists_ fs (Path_of path) = true ->
  exists fs' r,
    clean_latex fs timestamp (Some path) extensions dry rec create_backup
    = (fs', Returned r)
    /\ r = snd (clean_target (Path_of path)
                  (match extensions with
                   | Some l => set_of l
                   | None => DEFAULT_CLEANUP_EXTENSIONS
                   end)
                  (fst (prepare_backup fs timestamp (Path_of path)
                          (initial_result dry rec) create_backup))
                  (snd (prepare_backup fs timestamp (Path_of path)
                          (initial_result dry rec) create_backup))
                  rec).
Proof.
  intros Hne Hex. unfold clean_latex.
  destruct path as [| c path]; [congruence |].
  rewrite Hex. cbn [negb].
  destruct (prepare_backup fs timestamp (Path_of (String c path))
              (initial_result dry rec) create_backup) as [st b].
  cbn [fst snd].
  destruct (clean_target _ _ st b rec) as [fs2 r2].
  exists fs2, r2. split; reflexivity.
Qed.

(** C9: when a backup is asked for outside dry-run mode and the backup
    directory cannot be created, the run goes on without backup: if the
    candidates can be listed, the result has [success = True] and carries
    the backup warning in [error_message]. *)
Theorem success_with_backup_warning (fs : FileSystem) (timestamp path : string)
    (extensions : option (list string)) (rec : bool) (e : exn) :
  path <> "" ->
  exists_ fs (Path_of path) = true ->
  _create_backup_directory fs timestamp (Path_of path) = Raised e ->
  discovery_completes fs (Path_of path) rec ->
  exists fs' r,
    clean_latex fs timestamp (Some path) extensions false rec true
    = (fs', Returned r)
    /\ success r = true
    /\ error_message r
       = Some ("Warning: Backup creation failed: " ++ exn_msg e
               ++ ". Continuing without backup.").
Proof.
  intros Hne Hex Hbackup Hd.
  destruct (clean_latex_returns fs timestamp path extensions false rec true
              Hne Hex) as (fs' & r & Hcall & Hr).
  exists fs', r. split; [exact Hcall |].
  unfold prepare_backup in Hr. cbn [initial_result dry_run andb negb] in Hr.
  rewrite Hbackup in Hr. cbn [fst snd] in Hr. rewrite Hr.
  split.
  - now apply clean_target_success.
  - now rewrite clean_target_error_message.
Qed.

Lemma success_with_backup_warning_witness :
  exists fs' r,
    clean_latex Examples.sealed_project "20240101_120000" (Some "/w") None
      false false true = (fs', Returned r)
    /\ success r = true
    /\ error_message r
       = Some ("Warning: Backup creation failed: "
               ++ "Permission denied: /backup_w_20240101_120000"
               ++ ". Continuing without backup.").
Proof.
  apply (success_with_backup_warning Examples.sealed_project "20240101_120000"
           "/w" None false
           (Exn PermissionError "Permission denied: /backup_w_20240101_120000")).
  - discriminate.
  - reflexivity.
  - reflexivity.
  - right. eexists. reflexivity.
Defined.

(** *** Running twice *)

Lemma path_eqb_eq (p q : Path) : path_eqb p q = true <-> p = q.
Proof.
  unfold path_eqb. destruct (path_eq_dec p q); split; congruence.
Qed.

Lemma path_eqb_refl (p : Path) : path_eqb p p = true.
Proof. now apply path_eqb_eq. Qed.

Lemma path_eqb_sym (p q : Path) : path_eqb p q = path_eqb q p.
Proof.
  unfold path_eqb. destruct (path_eq_dec p q), (path_eq_dec q p); congruence.
Qed.

(** Looking a path up once [f] has been dropped. *)
Lemma assoc_drop (f q : Path) (l : list (Path * Node)) :
  assoc q (drop f l) = if path_eqb f q then None else assoc q l.
Proof.
  unfold drop. induction l as [| [k v] l IH]; cbn [filter fst assoc].
  - now destruct (path_eqb f q).
  - destruct (path_eqb f k) eqn:Hfk; cbn [negb assoc].
    + rewrite IH. apply path_eqb_eq in Hfk as <-.
      rewrite (path_eqb_sym q f). now destruct (path_eqb f q).
    + rewrite IH. destruct (path_eqb q k) eqn:Hqk; [| reflexivity].
      apply path_eqb_eq in Hqk as ->. now rewrite Hfk.
Qed.

Lemma drop_keys (f : Path) (l : list (Path * Node)) :
  incl (map fst (drop f l)) (map fst l).
Proof.
  intros q Hq. apply in_map_iff in Hq as (e & <- & He).
  apply filter_In in He as [He _]. now apply in_map.
Qed.

Lemma unlink_removable (fs : FileSystem) (f : Path) :
  removable fs f = true ->
  unlink fs f = Returned (with_nodes fs (drop f (nodes fs))).
Proof.
  unfold removable, is_file, unlink. intros H.
  apply andb_true_iff in H as [Hfile Hdel].
  destruct (lookup fs f) as [[] |]; try discriminate.
  apply negb_true_iff in Hdel. now rewrite Hdel.
Qed.

Lemma unlink_not_removable (fs : FileSystem) (f : Path) :
  removable fs f = false -> exists e, unlink fs f = Raised e.
Proof.
  unfold removable, is_file, unlink. intros H.
  destruct (lookup fs f) as [[] |]; try (eexists; reflexivity).
  cbn in H. apply negb_false_iff in H. rewrite H. eexists; reflexivity.
Qed.

(** Without backup and outside dry-run mode a candidate is unlinked when
    it can be, and skipped otherwise. *)
Lemma process_without_backup (f : Path) (fs : FileSystem) (r : CleanupResult) :
  dry_run r = false ->
  _process_file_for_cleanup f (fs, r) None
  = if removable fs f then
      (with_nodes fs (drop f (nodes fs)), record_cleaned r (str f))
    else (fs, r).
Proof.
  intros Hdry. unfold _process_file_for_cleanup, backup_and_remove.
  rewrite Hdry. destruct (removable fs f) eqn:Hrem.
  - now rewrite (unlink_removable _ _ Hrem).
  - destruct (unlink_not_removable _ _ Hrem) as (e & ->). reflexivity.
Qed.

Lemma shrunk_refl (fs : FileSystem) : shrunk fs fs.
Proof.
  repeat split; auto. apply incl_refl.
Qed.

Lemma shrunk_trans (fs1 fs2 fs3 : FileSystem) :
  shrunk fs1 fs2 -> shrunk fs2 fs3 -> shrunk fs1 fs3.
Proof.
  intros (Hu & Hl & Hk & Hi) (Hu' & Hl' & Hk' & Hi').
  repeat split; try congruence.
  - intros q. destruct (Hk' q) as [H | H]; [| now right].
    rewrite H. apply Hk.
  - eapply incl_tran; eauto.
Qed.

Lemma shrunk_drop (fs : FileSystem) (f : Path) :
  shrunk fs (with_nodes fs (drop f (nodes fs))).
Proof.
  repeat split; try reflexivity.
  - intros q. unfold lookup. cbn. rewrite assoc_drop.
    destruct (path_eqb f q); auto.
  - apply drop_keys.
Qed.

Lemma removable_after_drop (fs : FileSystem) (f : Path) :
  removable (with_nodes fs (drop f (nodes fs))) f = false.
Proof.
  unfold removable, is_file, lookup. cbn.
  now rewrite assoc_drop, path_eqb_refl.
Qed.

(** What cannot be removed stays so on a shrunk disk. *)
Lemma shrunk_keeps_stuck (fs fs' : FileSystem) (q : Path) :
  shrunk fs fs' -> removable fs q = false -> removable fs' q = false.
Proof.
  intros (Hu & _ & Hk & _). unfold removable, is_file. rewrite Hu.
  destruct (Hk q) as [-> | ->]; auto.
Qed.

Lemma shrunk_is_file (fs fs' : FileSystem) (q : Path) :
  shrunk fs fs' -> is_file fs' q = true -> is_file fs q = true.
Proof.
  intros (_ & _ & Hk & _). unfold is_file.
  destruct (Hk q) as [-> | ->]; auto. discriminate.
Qed.

Lemma shrunk_lookup_existing (fs fs' : FileSystem) (q : Path) :
  shrunk fs fs' -> exists_ fs' q = true -> lookup fs' q = lookup fs q.
Proof.
  intros (_ & _ & Hk & _). unfold exists_.
  destruct (Hk q) as [-> | ->]; auto. discriminate.
Qed.

Section Sweep.

(** A loop over candidates, each of which is either processed without
    backup or passed over because it is no removable file. *)
Variable A : Type.
Variable cand : A -> Path.
Variable step : State -> A -> State.
Hypothesis step_spec :
  forall st a,
    step st a = _process_file_for_cleanup (cand a) st None
    \/ (step st a = st /\ removable (fst st) (cand a) = false).

Lemma step_effect (st : State) (a : A) :
  dry_run (snd st) = false ->
  shrunk (fst st) (fst (step st a))
  /\ dry_run (snd (step st a)) = false
  /\ removable (fst (step st a)) (cand a) = false.
Proof.
  intros Hdry. destruct (step_spec st a) as [-> | [-> Hstuck]].
  - destruct st as [fs r]. cbn [fst snd] in *.
    rewrite (process_without_backup _ _ _ Hdry).
    destruct (removable fs (cand a)) eqn:Hrem; cbn [fst snd].
    + split; [apply shrunk_drop |]. split; [exact Hdry |].
      apply removable_after_drop.
    + split; [apply shrunk_refl |]. split; [exact Hdry | exact Hrem].
  - split; [apply shrunk_refl |]. split; [exact Hdry | exact Hstuck].
Qed.

Lemma step_inert (st : State) (a : A) :
  dry_run (snd st) = false ->
  removable (fst st) (cand a) = false ->
  step st a = st.
Proof.
  intros Hdry Hstuck. destruct (step_spec st a) as [-> | [-> _]]; [| reflexivity].
  destruct st as [fs r]. cbn [fst snd] in *.
  now rewrite (process_without_backup _ _ _ Hdry), Hstuck.
Qed.

(** After the loop no candidate can be removed any more. *)
Lemma sweep_effect : forall (l : list A) (st : State),
  dry_run (snd st) = false ->
  shrunk (fst st) (fst (fold_left step l st))
  /\ dry_run (snd (fold_left step l st)) = false
  /\ forall a, In a l -> removable (fst (fold_left step l st)) (cand a) = false.
Proof.
  induction l as [| a l IH]; intros st Hdry; cbn [fold_left].
  - split; [apply shrunk_refl |]. split; [exact Hdry | intros a []].
  - destruct (step_effect st a Hdry) as (Hs1 & Hd1 & Hr1).
    destruct (IH (step st a) Hd1) as (Hs2 & Hd2 & Hr2).
    split; [eapply shrunk_trans; eauto |]. split; [exact Hd2 |].
    intros a' [<- | Hin]; [| now apply Hr2].
    eapply shrunk_keeps_stuck; eauto.
Qed.

(** A loop over candidates none of which can be removed changes nothing. *)
Lemma sweep_inert : forall (l : list A) (st : State),
  dry_run (snd st) = false ->
  (forall a, In a l -> removable (fst st) (cand a) = false) ->
  fold_left step l st = st.
Proof.
  induction l as [| a l IH]; intros st Hdry Hstuck; cbn [fold_left];
    [reflexivity |].
  rewrite (step_inert st a Hdry) by (apply Hstuck; now left).
  apply IH; [exact Hdry |]. intros a' Hin. apply Hstuck. now right.
Qed.

End Sweep.

Lemma tex_step_spec (tex_dir : Path) (tex_stem : string) (st : State)
    (ext : string) :
  let aux_file := joinpath tex_dir (tex_stem ++ ext) in
  (if exists_ (fst st) aux_file && is_file (fst st) aux_file then
     _process_file_for_cleanup aux_file st None
   else st)
  = _process_file_for_cleanup aux_file st None
  \/ ((if exists_ (fst st) aux_file && is_file (fst st) aux_file then
         _process_file_for_cleanup aux_file st None
       else st) = st
      /\ removable (fst st) aux_file = false).
Proof.
  cbv zeta.
  destruct (exists_ (fst st) _ && is_file (fst st) _) eqn:Hguard; [now left |].
  right. split; [reflexivity |]. unfold removable.
  apply andb_false_iff in Hguard as [Hex | ->]; [| reflexivity].
  unfold exists_ in Hex. unfold is_file.
  destruct (lookup (fst st) _); [discriminate | reflexivity].
Qed.

Lemma finish_without_backup (st : State) :
  finish st None = (fst st, set_success (snd st) true).
Proof. destruct st as [fs r]. reflexivity. Qed.

(** The candidates found on a shrunk disk were found before. *)
Lemma find_on_shrunk (fs fs' : FileSystem) (directory : Path) (rec : bool)
    (extensions : option (list string)) (files files' : list Path) :
  shrunk fs fs' ->
  find_auxiliary_files fs directory rec extensions = Returned files ->
  find_auxiliary_files fs' directory rec extensions = Returned files' ->
  incl files' files.
Proof.
  intros Hs Hfind Hfind' f Hf. unfold find_auxiliary_files in *.
  destruct (glob fs directory rec) as [found | e] eqn:Hglob; [| discriminate].
  destruct (glob fs' directory rec) as [found' | e] eqn:Hglob'; [| discriminate].
  cbn [bind] in *. injection Hfind as <-. injection Hfind' as <-.
  apply filter_In in Hf as [Hin Hcond].
  apply andb_true_iff in Hcond as [Hfile Hsuffix].
  apply filter_In. split.
  - unfold glob in Hglob, Hglob'.
    destruct (existsb _ _) in Hglob; [discriminate |].
    destruct (existsb _ _) in Hglob'; [discriminate |].
    injection Hglob as <-. injection Hglob' as <-.
    apply nodup_In. apply nodup_In in Hin.
    apply filter_In in Hin as [Hin Hbelow].
    apply filter_In. split; [| exact Hbelow].
    destruct Hs as (_ & _ & _ & Hincl). now apply Hincl.
  - rewrite (shrunk_is_file _ _ _ Hs Hfile). exact Hsuffix.
Qed.

(** Without backup, outside dry-run mode: a second pass over the same
    target, on the disk the first pass left, records nothing. *)
Lemma clean_target_rerun (path_obj : Path) (exts : list string)
    (fs : FileSystem) (r r' : CleanupResult) (rec : bool) :
  dry_run r = false ->
  dry_run r' = false ->
  exists_ (fst (clean_target path_obj exts (fs, r) None rec)) path_obj = true ->
  cleaned_files
    (snd (clean_target path_obj exts
            (fst (clean_target path_obj exts (fs, r) None rec), r') None rec))
  = cleaned_files r'
  /\ cleaned_files_count
       (snd (clean_target path_obj exts
               (fst (clean_target path_obj exts (fs, r) None rec), r') None rec))
     = cleaned_files_count r'.
Proof.
  intros Hdry Hdry'.
  remember (clean_target path_obj exts (fs, r) None rec) as first eqn:Hfirst.
  unfold clean_target in Hfirst.
  destruct (is_file fs path_obj) eqn:Hfile.
  - (* a single file *)
    rewrite finish_without_backup in Hfirst.
    destruct (suffix path_obj =? ".tex") eqn:Htex.
    + (* the auxiliaries of a .tex file *)
      unfold _clean_tex_file_auxiliaries in Hfirst.
      match type of Hfirst with
      | context [fold_left ?f exts ?s] =>
          set (step := f) in Hfirst; set (st0 := s) in Hfirst
      end.
      destruct (sweep_effect string
                  (fun ext => joinpath (parent path_obj) (stem path_obj ++ ext))
                  step (tex_step_spec _ _) exts st0 Hdry)
        as (Hs & _ & Hstuck).
      subst first. cbn [fst]. unfold State in *.
      intros Hex. unfold clean_target.
      assert (Hfile1 : is_file (fst (fold_left step exts st0)) path_obj = true).
      { unfold is_file. rewrite (shrunk_lookup_existing _ _ _ Hs Hex).
        exact Hfile. }
      rewrite Hfile1, Htex, finish_without_backup.
      unfold _clean_tex_file_auxiliaries. fold step.
      rewrite (sweep_inert string
                 (fun ext => joinpath (parent path_obj) (stem path_obj ++ ext))
                 step (tex_step_spec _ _) exts);
        [split; reflexivity | exact Hdry' | exact Hstuck].
    + (* the file itself *)
      unfold _clean_single_file in Hfirst.
      destruct (str_in (suffix path_obj) exts) eqn:Hin.
      * rewrite process_without_backup in Hfirst by exact Hdry.
        destruct (removable fs path_obj) eqn:Hrem; subst first; cbn [fst].
        -- unfold exists_, lookup. cbn.
           rewrite assoc_drop, path_eqb_refl. discriminate.
        -- intros _. unfold clean_target.
           rewrite Hfile, Htex, finish_without_backup.
           unfold _clean_single_file. rewrite Hin.
           rewrite process_without_backup by exact Hdry'.
           rewrite Hrem. split; reflexivity.
      * subst first. cbn [fst]. intros _. unfold clean_target.
        rewrite Hfile, Htex, finish_without_backup.
        unfold _clean_single_file. rewrite Hin. split; reflexivity.
  - (* a directory *)
    unfold _clean_directory_auxiliaries in Hfirst. cbn [fst] in Hfirst.
    destruct (find_auxiliary_files fs path_obj rec (Some exts))
      as [files | e] eqn:Hfind; cbn [bind] in Hfirst.
    + rewrite finish_without_backup in Hfirst.
      match type of Hfirst with
      | context [fold_left ?f files ?s] =>
          set (step := f) in Hfirst; set (st0 := s) in Hfirst
      end.
      destruct (sweep_effect Path (fun f => f) step
                  (fun st f => or_introl eq_refl) files st0 Hdry)
        as (Hs & _ & Hstuck).
      subst first. cbn [fst]. unfold State in *.
      intros Hex. unfold clean_target.
      assert (Hfile1 : is_file (fst (fold_left step files st0)) path_obj = false).
      { unfold is_file. rewrite (shrunk_lookup_existing _ _ _ Hs Hex).
        exact Hfile. }
      rewrite Hfile1. unfold _clean_directory_auxiliaries. cbn [fst].
      destruct (find_auxiliary_files (fst (fold_left step files st0)) path_obj
                  rec (Some exts))
        as [files' | e'] eqn:Hfind'; cbn [bind snd]; [| split; reflexivity].
      rewrite finish_without_backup. fold step.
      rewrite (sweep_inert Path (fun f => f) step
                 (fun st f => or_introl eq_refl) files');
        [split; reflexivity | exact Hdry' |].
      intros f Hf. apply Hstuck.
      eapply find_on_shrunk; eauto.
    + subst first. cbn [fst]. intros _. unfold clean_target. rewrite Hfile.
      unfold _clean_directory_auxiliaries. cbn [fst]. rewrite Hfind.
      split; reflexivity.
Qed.

Lemma clean_latex_unfold (fs : FileSystem) (timestamp path : string)
    (extensions : option (list string)) (dry rec create_backup : bool) :
  path <> "" ->
  exists_ fs (Path_of path) = true ->
  clean_latex fs timestamp (Some path) extensions dry rec create_backup
  = (fst (clean_target (Path_of path)
            (match extensions with
             | Some l => set_of l
             | None => DEFAULT_CLEANUP_EXTENSIONS
             end)
            (fst (prepare_backup fs timestamp (Path_of path)
                    (initial_result dry rec) create_backup))
            (snd (prepare_backup fs timestamp (Path_of path)
                    (initial_result dry rec) create_backup))
            rec),
     Returned
       (snd (clean_target (Path_of path)
               (match extensions with
                | Some l => set_of l
                | None => DEFAULT_CLEANUP_EXTENSIONS
                end)
               (fst (prepare_backup fs timestamp (Path_of path)
                       (initial_result dry rec) create_backup))
               (snd (prepare_backup fs timestamp (Path_of path)
                       (initial_result dry rec) create_backup))
               rec))).
Proof.
  intros Hne Hex. unfold clean_latex.
  destruct path as [| c path]; [congruence |].
  rewrite Hex. cbn [negb].
  destruct (prepare_backup fs timestamp (Path_of (String c path))
              (initial_result dry rec) create_backup) as [st b].
  cbn [fst snd].
  destruct (clean_target _ _ st b rec) as [fs2 r2]. reflexivity.
Qed.

Lemma prepare_backup_off (fs : FileSystem) (timestamp : string)
    (path_obj : Path) (dry rec create_backup : bool) :
  create_backup = false \/ dry = true ->
  prepare_backup fs timestamp path_obj (initial_result dry rec) create_backup
  = ((fs, initial_result dry rec), None).
Proof.
  unfold prepare_backup. cbn [initial_result dry_run].
  intros [-> | ->]; [reflexivity |]. now rewrite andb_false_r.
Qed.

(** The call when no backup directory is made. *)
Lemma clean_latex_without_backup (fs : FileSystem) (timestamp path : string)
    (extensions : option (list string)) (dry rec create_backup : bool) :
  path <> "" ->
  exists_ fs (Path_of path) = true ->
  create_backup = false \/ dry = true ->
  clean_latex fs timestamp (Some path) extensions dry rec create_backup
  = (fst (clean_target (Path_of path)
            (match extensions with
             | Some l => set_of l
             | None => DEFAULT_CLEANUP_EXTENSIONS
             end)
            (fs, initial_result dry rec) None rec),
     Returned
       (snd (clean_target (Path_of path)
               (match extensions with
                | Some l => set_of l
                | None => DEFAULT_CLEANUP_EXTENSIONS
                end)
               (fs, initial_result dry rec) None rec))).
Proof.
  intros Hne Hex Hoff.
  rewrite (clean_latex_unfold _ _ _ _ _ _ _ Hne Hex).
  now rewrite (prepare_backup_off _ _ _ _ _ _ Hoff).
Qed.

(** C8, as the code has it: with [create_backup] off, or in dry-run mode,
    a second run on the same target with the same options, started on the
    disk the first run left, either raises [CleanupError] because the
    first run removed the target itself, or returns a result with
    [cleaned_files_count = 0] and an empty [cleaned_files]. *)
Theorem second_run_removes_nothing (fs fs1 : FileSystem)
    (timestamp later : string) (path : option string)
    (extensions : option (list string)) (dry rec create_backup : bool)
    (r1 : CleanupResult) :
  create_backup = false \/ dry = true ->
  clean_latex fs timestamp path extensions dry rec create_backup
  = (fs1, Returned r1) ->
  (exists p,
     path = Some p
     /\ second_run fs timestamp later path extensions dry rec create_backup
        = Raised (Exn CleanupError ("Path not found: " ++ p)))
  \/ (exists r2,
        second_run fs timestamp later path extensions dry rec create_backup
        = Returned r2
        /\ cleaned_files_count r2 = 0%Z
        /\ cleaned_files r2 = []).
Proof.
  intros Hoff Hfirst. unfold second_run. rewrite Hfirst.
  change (fst (fs1, Returned r1)) with fs1.
  destruct path as [[| c path] |]; try discriminate.
  set (p := String c path) in *.
  assert (Hne : p <> "") by discriminate.
  assert (Hex : exists_ fs (Path_of p) = true).
  { unfold clean_latex in Hfirst. fold p in Hfirst.
    destruct (exists_ fs (Path_of p)); [reflexivity | discriminate]. }
  destruct (exists_ fs1 (Path_of p)) eqn:Hex1.
  - right.
    pose proof (clean_latex_without_backup fs1 later p extensions dry rec
                  create_backup Hne Hex1 Hoff) as Hsecond.
    rewrite Hsecond. eexists. split; [reflexivity |].
    destruct dry.
    + destruct (counter_invariant true _ _ _ _ _ _ _ _ Hsecond)
        as (Hc & Hd & He).
      rewrite Hc, (He Hd). split; reflexivity.
    + clear Hsecond.
      rewrite (clean_latex_without_backup _ _ _ _ _ _ _ Hne Hex Hoff) in Hfirst.
      remember (clean_target (Path_of p) _ (fs, initial_result false rec)
                  None rec) as first eqn:Hct.
      assert (Hdisk : fs1 = fst first) by congruence.
      subst first. rewrite Hdisk in Hex1 |- *.
      destruct (clean_target_rerun (Path_of p) _ fs
                  (initial_result false rec) (initial_result false rec) rec
                  eq_refl eq_refl Hex1) as [-> ->].
      split; reflexivity.
  - left. exists p. split; [reflexivity |].
    unfold clean_latex. fold p. subst p. rewrite Hex1. reflexivity.
Qed.

Lemma second_run_removes_nothing_witness :
  (exists p,
     Some "/w" = Some p
     /\ second_run Examples.project "20240101_120000" "20240101_120005"
          (Some "/w") None false false false
        = Raised (Exn CleanupError ("Path not found: " ++ p)))
  \/ (exists r2,
        second_run Examples.project "20240101_120000" "20240101_120005"
          (Some "/w") None false false false = Returned r2
        /\ cleaned_files_count r2 = 0%Z
        /\ cleaned_files r2 = []).
Proof.
  apply (second_run_removes_nothing Examples.project _ "20240101_120000"
           "20240101_120005" (Some "/w") None false false false _
           (or_introl eq_refl) eq_refl).
Defined.

(** C8, as stated, fails.  With a backup requested, a recursive run on the
    working directory puts its backup directory inside the directory it
    scans, and the second run removes the backed-up copy of [a.aux]; and a
    run on a single auxiliary file removes its own target, so the second
    run raises instead of returning a result. *)
Lemma second_run_removes_backup_copy :
  second_run Examples.workdir "20240101_120000" "20240101_120005"
    (Some ".") None false true true
  = Returned
      {| success := true;
         error_message := None;
         tex_file_path := None;
         directory_path := Some ".";
         cleaned_files_count := 1;
         cleaned_files := ["backup__20240101_120000/a.aux"];
         would_clean_files := [];
         dry_run := false;
         recursive := true;
         backup_created := true;
         backup_directory := Some "backup__20240101_120005" |}
  /\ second_run Examples.project "20240101_120000" "20240101_120005"
       (Some "/w/paper.aux") None false false false
     = Raised (Exn CleanupError "Path not found: /w/paper.aux").
Proof. split; reflexivity. Qed.

End CleanupFacts.

(** ** More on cleanup *)

Module CleanupExtra.
Import Cleanup Spec Notions CleanupFacts.

(** *** Dry runs *)

Lemma process_dry (f : Path) (fs : FileSystem) (r : CleanupResult)
    (b : option Path) :
  dry_run r = true ->
  _process_file_for_cleanup f (fs, r) b = (fs, record_would_clean r (str f)).
Proof.
  intros Hdry. unfold _process_file_for_cleanup. now rewrite Hdry.
Qed.

(** In a dry run a loop over candidates only extends [would_clean_files]. *)
Lemma dry_fold (b : option Path) : forall files fs r,
  dry_run r = true ->
  exists r',
    fold_left (fun st file_path => _process_file_for_cleanup file_path st b)
      files (fs, r) = (fs, r')
    /\ dry_run r' = true
    /\ would_clean_files r' = (would_clean_files r ++ map str files)%list
    /\ cleaned_files r' = cleaned_files r
    /\ cleaned_files_count r' = cleaned_files_count r.
Proof.
  induction files as [| f files IH]; intros fs r Hdry; cbn [fold_left].
  - exists r. rewrite app_nil_r. repeat split; assumption || reflexivity.
  - rewrite (process_dry _ _ _ _ Hdry).
    destruct (IH fs (record_would_clean r (str f)) Hdry)
      as (r' & Hfold & Hd & Hw & Hc & Hn).
    exists r'. split; [exact Hfold |]. split; [exact Hd |].
    split; [| split; assumption].
    rewrite Hw. cbn. now rewrite <- app_assoc.
Qed.

Lemma dry_tex_loop (tex_file : Path) (b : option Path) : forall exts fs r,
  dry_run r = true ->
  exists r',
    _clean_tex_file_auxiliaries tex_file exts (fs, r) b = (fs, r')
    /\ dry_run r' = true
    /\ would_clean_files r'
       = (would_clean_files r
          ++ map str (filter (is_file fs) (tex_candidates tex_file exts)))%list
    /\ cleaned_files r' = cleaned_files r.
Proof.
  unfold _clean_tex_file_auxiliaries, tex_candidates.
  induction exts as [| ext exts IH]; intros fs r Hdry; cbn [fold_left map filter].
  - exists r. rewrite app_nil_r. repeat split; assumption || reflexivity.
  - cbn [fst].
    set (c := joinpath (parent tex_file) (stem tex_file ++ ext)).
    assert (Hguard : exists_ fs c && is_file fs c = is_file fs c).
    { unfold exists_, is_file. now destruct (lookup fs c) as [[] |]. }
    rewrite Hguard. destruct (is_file fs c).
    + rewrite (process_dry _ _ _ _ Hdry).
      destruct (IH fs (record_would_clean r (str c)) Hdry)
        as (r' & Hloop & Hd & Hw & Hc).
      exists r'. split; [exact Hloop |]. split; [exact Hd |]. split; [| exact Hc].
      rewrite Hw. cbn. now rewrite <- app_assoc.
    + apply IH, Hdry.
Qed.

Lemma finish_lists (st : State) (b : option Path) :
  fst (finish st b) = fst st
  /\ cleaned_files (snd (finish st b)) = cleaned_files (snd st)
  /\ would_clean_files (snd (finish st b)) = would_clean_files (snd st)
  /\ cleaned_files_count (snd (finish st b)) = cleaned_files_count (snd st).
Proof.
  destruct st as [fs r]. unfold finish. cbn [fst snd].
  destruct b; [destruct (cleaned_files r) eqn:E |]; cbn; rewrite ?E;
    repeat split; reflexivity.
Qed.

(** A dry run changes nothing on the disk, whatever else was asked for. *)
Lemma clean_target_dry (path_obj : Path) (exts : list string)
    (fs : FileSystem) (r : CleanupResult) (b : option Path) (rec : bool) :
  dry_run r = true ->
  fst (clean_target path_obj exts (fs, r) b rec) = fs.
Proof.
  intros Hdry. unfold clean_target.
  destruct (is_file fs path_obj).
  - destruct (finish_lists
                (if suffix path_obj =? ".tex"
                 then _clean_tex_file_auxiliaries path_obj exts
                        (fs, set_directory_path
                               (set_tex_file_path r (Some (str path_obj)))
                               (Some (str (parent path_obj)))) b
                 else _clean_single_file path_obj exts
                        (fs, set_directory_path
                               (set_tex_file_path r (Some (str path_obj)))
                               (Some (str (parent path_obj)))) b) b) as [-> _].
    destruct (suffix path_obj =? ".tex").
    + destruct (dry_tex_loop path_obj b exts fs
                  (set_directory_path (set_tex_file_path r (Some (str path_obj)))
                     (Some (str (parent path_obj)))) Hdry) as (r' & -> & _).
      reflexivity.
    + unfold _clean_single_file.
      destruct (str_in (suffix path_obj) exts); [| reflexivity].
      now rewrite process_dry.
  - unfold _clean_directory_auxiliaries. cbn [fst].
    destruct (find_auxiliary_files fs path_obj rec (Some exts)) as [files | e];
      cbn [bind]; [| reflexivity].
    destruct (dry_fold b files fs (set_directory_path r (Some (str path_obj)))
                Hdry) as (r' & Hfold & _).
    unfold State in *. rewrite Hfold.
    now destruct (finish_lists (fs, r') b) as [-> _].
Qed.

(** X1: a dry run never changes the disk: whatever the target, the
    extensions and the other flags, and also when the call raises, the
    disk after [clean_latex(..., dry_run=True)] is the disk before it.  No
    backup directory is made either. *)
Theorem dry_run_leaves_disk_untouched (fs : FileSystem) (timestamp : string)
    (path : option string) (extensions : option (list string))
    (rec create_backup : bool) :
  fst (clean_latex fs timestamp path extensions true rec create_backup) = fs.
Proof.
  unfold clean_latex.
  destruct path as [[| c path] |]; try reflexivity.
  destruct (exists_ fs (Path_of (String c path))); [| reflexivity].
  cbn [negb].
  rewrite (prepare_backup_off fs timestamp _ true rec create_backup
             (or_intror eq_refl)).
  pose proof (clean_target_dry (Path_of (String c path))
                (match extensions with
                 | Some l => set_of l
                 | None => DEFAULT_CLEANUP_EXTENSIONS
                 end) fs (initial_result true rec) None rec eq_refl) as H.
  destruct (clean_target _ _ _ None rec) as [fs' r]. exact H.
Qed.

(** X2: the dry run of a directory reports exactly the files that
    [find_auxiliary_files] proposes, in its order: [would_clean_files] is
    their paths as strings, [cleaned_files] is empty and [success] is
    true. *)
Theorem dry_run_lists_directory_candidates (fs : FileSystem)
    (timestamp path : string) (extensions : option (list string))
    (rec create_backup : bool) (files : list Path) :
  path <> "" ->
  exists_ fs (Path_of path) = true ->
  is_file fs (Path_of path) = false ->
  find_auxiliary_files fs (Path_of path) rec
    (Some (extensions_in_force extensions)) = Returned files ->
  exists r,
    clean_latex fs timestamp (Some path) extensions true rec create_backup
    = (fs, Returned r)
    /\ success r = true
    /\ would_clean_files r = map str files
    /\ cleaned_files r = [].
Proof.
  intros Hne Hex Hdir Hfind.
  rewrite (clean_latex_without_backup fs timestamp path extensions true rec
             create_backup Hne Hex (or_intror eq_refl)).
  fold (extensions_in_force extensions).
  unfold clean_target. rewrite Hdir.
  unfold _clean_directory_auxiliaries. cbn [fst]. rewrite Hfind. cbn [bind].
  destruct (dry_fold None files fs
              (set_directory_path (initial_result true rec)
                 (Some (str (Path_of path)))) eq_refl)
    as (r' & Hfold & _ & Hw & Hc & _).
  unfold State in *. rewrite Hfold. cbn [finish fst snd].
  eexists. split; [reflexivity |]. cbn.
  rewrite Hw, Hc. repeat split; reflexivity.
Qed.

Lemma dry_run_lists_directory_candidates_witness :
  exists r,
    clean_latex Examples.project "20240101_120000" (Some "/w") None
      true false false = (Examples.project, Returned r)
    /\ success r = true
    /\ would_clean_files r
       = map str [["/"; "w"; "paper.aux"]; ["/"; "w"; "paper.log"]]
    /\ cleaned_files r = [].
Proof.
  apply (dry_run_lists_directory_candidates Examples.project
           "20240101_120000" "/w" None false false);
    [discriminate | reflexivity | reflexivity | reflexivity].
Defined.

(** X3: the dry run around a [.tex] file reports exactly the existing
    regular files named by the file's stem followed by one of the
    extensions in force, in the order of the extensions. *)
Theorem dry_run_lists_stem_files (fs : FileSystem)
    (timestamp path : string) (extensions : option (list string))
    (rec create_backup : bool) :
  path <> "" ->
  is_file fs (Path_of path) = true ->
  suffix (Path_of path) = ".tex" ->
  exists r,
    clean_latex fs timestamp (Some path) extensions true rec create_backup
    = (fs, Returned r)
    /\ success r = true
    /\ would_clean_files r
       = map str (filter (is_file fs)
                    (tex_candidates (Path_of path)
                       (extensions_in_force extensions)))
    /\ cleaned_files r = [].
Proof.
  intros Hne Hfile Htex.
  assert (Hex : exists_ fs (Path_of path) = true).
  { unfold exists_, is_file in *. now destruct (lookup fs (Path_of path)). }
  rewrite (clean_latex_without_backup fs timestamp path extensions true rec
             create_backup Hne Hex (or_intror eq_refl)).
  fold (extensions_in_force extensions).
  unfold clean_target. rewrite Hfile, Htex. cbn [String.eqb Ascii.eqb Bool.eqb].
  destruct (dry_tex_loop (Path_of path) None (extensions_in_force extensions) fs
              (set_directory_path
                 (set_tex_file_path (initial_result true rec)
                    (Some (str (Path_of path))))
                 (Some (str (parent (Path_of path))))) eq_refl)
    as (r' & Hloop & _ & Hw & Hc).
  rewrite Hloop. cbn [finish fst snd].
  eexists. split; [reflexivity |]. cbn.
  rewrite Hw, Hc. repeat split; reflexivity.
Qed.

Lemma dry_run_lists_stem_files_witness :
  exists r,
    clean_latex Examples.project "20240101_120000" (Some "/w/paper.tex") None
      true false false = (Examples.project, Returned r)
    /\ success r = true
    /\ would_clean_files r
       = map str (filter (is_file Examples.project)
                    (tex_candidates (Path_of "/w/paper.tex")
                       (extensions_in_force None)))
    /\ cleaned_files r = [].
Proof.
  apply (dry_run_lists_stem_files Examples.project "20240101_120000"
           "/w/paper.tex" None false false);
    [discriminate | reflexivity | reflexivity].
Defined.

(** *** What a directory run removes *)

Lemma path_in_In (q : Path) (l : list Path) : path_in q l = true <-> In q l.
Proof.
  unfold path_in. rewrite existsb_exists. split.
  - intros (x & Hx & Heq). apply path_eqb_eq in Heq. now subst.
  - intros H. exists q. split; [exact H | apply path_eqb_refl].
Qed.

Lemma path_in_cons (q f : Path) (l : list Path) :
  path_in q (f :: l) = path_eqb q f || path_in q l.
Proof. reflexivity. Qed.

Lemma removable_after_other_drop (fs : FileSystem) (f q : Path) :
  q <> f ->
  removable (with_nodes fs (drop f (nodes fs))) q = removable fs q.
Proof.
  intros Hne. unfold removable, is_file, lookup. cbn.
  rewrite assoc_drop.
  destruct (path_eqb f q) eqn:E; [| reflexivity].
  apply path_eqb_eq in E. congruence.
Qed.

(** Without backup, a loop over distinct candidates removes exactly those
    that can be unlinked and touches nothing else. *)
Lemma sweep_exact : forall (files : list Path) (fs : FileSystem) (r : CleanupResult),
  dry_run r = false ->
  NoDup files ->
  exists fs' r',
    fold_left (fun st file_path => _process_file_for_cleanup file_path st None)
      files (fs, r) = (fs', r')
    /\ cleaned_files r'
       = (cleaned_files r ++ map str (filter (removable fs) files))%list
    /\ would_clean_files r' = would_clean_files r
    /\ (forall q,
          lookup fs' q
          = if path_in q files && removable fs q then None else lookup fs q).
Proof.
  induction files as [| f files IH]; intros fs r Hdry Hnd; cbn [fold_left].
  - exists fs, r. cbn. rewrite app_nil_r. repeat split; reflexivity.
  - apply NoDup_cons_iff in Hnd as [Hnotin Hnd].
    rewrite (process_without_backup _ _ _ Hdry).
    destruct (removable fs f) eqn:Hrem.
    + destruct (IH (with_nodes fs (drop f (nodes fs)))
                  (record_cleaned r (str f)) Hdry Hnd)
        as (fs' & r' & Hfold & Hc & Hw & Hl).
      exists fs', r'. split; [exact Hfold |]. split; [| split; [exact Hw |]].
      * rewrite Hc. cbn [filter map]. rewrite Hrem. cbn [map record_cleaned cleaned_files].
        rewrite <- app_assoc. cbn [app]. do 3 f_equal.
        apply filter_ext_in. intros g Hg.
        apply removable_after_other_drop. intros ->. contradiction.
      * intros q. rewrite Hl, path_in_cons.
        destruct (path_eqb q f) eqn:E.
        -- apply path_eqb_eq in E. subst q. rewrite Hrem. cbn [orb andb].
           assert (Hp : path_in f files = false).
           { destruct (path_in f files) eqn:Hp; [| reflexivity].
             apply path_in_In in Hp. contradiction. }
           rewrite Hp. cbn [andb]. unfold lookup. cbn.
           now rewrite assoc_drop, path_eqb_refl.
        -- cbn [orb].
           assert (Hne : q <> f).
           { intros ->. rewrite path_eqb_refl in E. discriminate. }
           rewrite (removable_after_other_drop _ _ _ Hne).
           destruct (path_in q files && removable fs q); [reflexivity |].
           unfold lookup. cbn. rewrite assoc_drop.
           destruct (path_eqb f q) eqn:E'; [| reflexivity].
           apply path_eqb_eq in E'. congruence.
    + destruct (IH fs r Hdry Hnd) as (fs' & r' & Hfold & Hc & Hw & Hl).
      exists fs', r'. split; [exact Hfold |]. split; [| split; [exact Hw |]].
      * rewrite Hc. cbn [filter]. now rewrite Hrem.
      * intros q. rewrite Hl, path_in_cons.
        destruct (path_eqb q f) eqn:E; [| reflexivity].
        apply path_eqb_eq in E. subst q. rewrite Hrem, !andb_false_r.
        reflexivity.
Qed.

Lemma find_auxiliary_files_distinct (fs : FileSystem) (directory : Path)
    (rec : bool) (extensions : option (list string)) (files : list Path) :
  find_auxiliary_files fs directory rec extensions = Returned files ->
  NoDup files.
Proof.
  unfold find_auxiliary_files, glob. intros H.
  destruct (existsb _ _); [discriminate |].
  cbn [bind] in H. injection H as <-.
  apply NoDup_filter, NoDup_nodup.
Qed.

(** X4: a run on a directory, without backup and outside dry-run mode,
    removes exactly the proposed files that can be unlinked: they are the
    entries of [cleaned_files], in the order found, they are gone from the
    disk afterwards, and every other path is as it was. *)
Theorem directory_run_removes_exactly (fs : FileSystem)
    (timestamp path : string) (extensions : option (list string))
    (rec : bool) (files : list Path) :
  path <> "" ->
  exists_ fs (Path_of path) = true ->
  is_file fs (Path_of path) = false ->
  find_auxiliary_files fs (Path_of path) rec
    (Some (extensions_in_force extensions)) = Returned files ->
  exists fs' r,
    clean_latex fs timestamp (Some path) extensions false rec false
    = (fs', Returned r)
    /\ success r = true
    /\ cleaned_files r = map str (filter (removable fs) files)
    /\ would_clean_files r = []
    /\ (forall q,
          lookup fs' q
          = if path_in q files && removable fs q then None else lookup fs q).
Proof.
  intros Hne Hex Hdir Hfind.
  rewrite (clean_latex_without_backup fs timestamp path extensions false rec
             false Hne Hex (or_introl eq_refl)).
  fold (extensions_in_force extensions).
  unfold clean_target. rewrite Hdir.
  unfold _clean_directory_auxiliaries. cbn [fst]. rewrite Hfind. cbn [bind].
  destruct (sweep_exact files fs
              (set_directory_path (initial_result false rec)
                 (Some (str (Path_of path)))) eq_refl
              (find_auxiliary_files_distinct _ _ _ _ _ Hfind))
    as (fs' & r' & Hfold & Hc & Hw & Hl).
  unfold State in *. rewrite Hfold. cbn [finish fst snd].
  exists fs'. eexists. split; [reflexivity |]. cbn.
  rewrite Hc, Hw. repeat split; try reflexivity. exact Hl.
Qed.

Lemma directory_run_removes_exactly_witness :
  exists fs' r,
    clean_latex Examples.project "20240101_120000" (Some "/w") None
      false false false = (fs', Returned r)
    /\ success r = true
    /\ cleaned_files r
       = map str (filter (removable Examples.project)
                    [["/"; "w"; "paper.aux"]; ["/"; "w"; "paper.log"]])
    /\ would_clean_files r = []
    /\ (forall q,
          lookup fs' q
          = if path_in q [["/"; "w"; "paper.aux"]; ["/"; "w"; "paper.log"]]
               && removable Examples.project q
            then None else lookup Examples.project q).
Proof.
  apply (directory_run_removes_exactly Examples.project "20240101_120000"
           "/w" None false);
    [discriminate | reflexivity | reflexivity | reflexivity].
Defined.

(** *** Backups *)

Lemma assoc_app_new (q p : Path) (k : Node) (l : list (Path * Node)) :
  assoc q (l ++ [(p, k)])
  = match assoc q l with
    | Some v => Some v
    | None => if path_eqb q p then Some k else None
    end.
Proof.
  induction l as [| [x v] l IH]; cbn [app assoc]; [reflexivity |].
  destruct (path_eqb q x); [reflexivity | exact IH].
Qed.

(** A copy that succeeds leaves a regular file at its destination. *)
Lemma copy2_leaves_file (fs fs1 : FileSystem) (src dst : Path) :
  copy2 fs src dst = Returned fs1 ->
  let target := if is_dir fs dst then joinpath dst (name src) else dst in
  is_file fs src = true
  /\ target <> src
  /\ is_file fs1 target = true
  /\ undeletable fs1 = undeletable fs
  /\ lookup fs1 src = lookup fs src.
Proof.
  unfold copy2. cbv zeta.
  set (target := if is_dir fs dst then joinpath dst (name src) else dst).
  destruct (path_eqb src target && exists_ fs src) eqn:Hsame; [discriminate |].
  unfold exists_ in Hsame. unfold is_file at 1.
  destruct (lookup fs src) as [[] |] eqn:Hsrc; try discriminate.
  rewrite andb_true_r in Hsame.
  assert (Hne : target <> src).
  { intros Heq. rewrite Heq, path_eqb_refl in Hsame. discriminate. }
  destruct (path_in src (unreadable fs)); [discriminate |].
  destruct (lookup fs target) as [[] |] eqn:Htarget; try discriminate.
  - destruct (path_in target (unwritable fs)); [discriminate |].
    intros [= <-]. unfold is_file. rewrite Htarget, Hsrc. auto.
  - unfold create.
    destruct (lookup fs (parent target)) as [[] |]; try discriminate.
    destruct (path_in (parent target) (unwritable fs)); [discriminate |].
    intros [= <-]. unfold is_file, lookup in *. cbn.
    rewrite !assoc_app_new, Htarget, Hsrc, path_eqb_refl. auto.
Qed.

(** X5: with a backup directory, a file is unlinked only after its copy
    is in place: whenever the backup-and-remove block succeeds, the file
    was a regular file, it is gone afterwards, and a regular file exists at
    the backup destination, which is a different path. *)
Theorem removed_files_have_backup_copy (fs fs' : FileSystem)
    (file_path backup_dir : Path) :
  backup_and_remove fs file_path (Some backup_dir) = (fs', Returned tt) ->
  let dst := joinpath backup_dir (name file_path) in
  let target := if is_dir fs dst then joinpath dst (name file_path) else dst in
  is_file fs file_path = true
  /\ exists_ fs' file_path = false
  /\ target <> file_path
  /\ is_file fs' target = true.
Proof.
  unfold backup_and_remove. cbv zeta.
  destruct (copy2 fs file_path (joinpath backup_dir (name file_path)))
    as [fs1 | e] eqn:Hcopy; [| discriminate].
  destruct (copy2_leaves_file _ _ _ _ Hcopy) as (Hfile & Hne & Htarget & Hund & Hsrc).
  destruct (unlink fs1 file_path) as [fs2 | e] eqn:Hunlink; [| discriminate].
  intros [= <-]. unfold unlink in Hunlink.
  destruct (lookup fs1 file_path) as [[] |]; try discriminate.
  destruct (path_in file_path (undeletable fs1)); [discriminate |].
  injection Hunlink as <-.
  split; [exact Hfile |]. split; [| split; [exact Hne |]].
  - unfold exists_, lookup. cbn. now rewrite assoc_drop, path_eqb_refl.
  - unfold is_file, lookup in *. cbn. rewrite assoc_drop.
    destruct (path_eqb file_path _) eqn:E; [| exact Htarget].
    apply path_eqb_eq in E. congruence.
Qed.

Lemma removed_files_have_backup_copy_witness :
  is_file MoreExamples.with_backup_dir ["/"; "w"; "paper.aux"] = true
  /\ exists_
       (fst (backup_and_remove MoreExamples.with_backup_dir
               ["/"; "w"; "paper.aux"] (Some ["/"; "b"])))
       ["/"; "w"; "paper.aux"] = false
  /\ ["/"; "b"; "paper.aux"] <> ["/"; "w"; "paper.aux"]
  /\ is_file
       (fst (backup_and_remove MoreExamples.with_backup_dir
               ["/"; "w"; "paper.aux"] (Some ["/"; "b"])))
       ["/"; "b"; "paper.aux"] = true.
Proof.
  exact (removed_files_have_backup_copy MoreExamples.with_backup_dir _
           ["/"; "w"; "paper.aux"] ["/"; "b"] eq_refl).
Defined.

Lemma finish_backup_flag (st : State) (b : option Path) :
  backup_created (snd st) = false ->
  backup_directory (snd (finish st b)) = backup_directory (snd st)
  /\ (backup_created (snd (finish st b)) = true <->
      b <> None /\ cleaned_files (snd (finish st b)) <> []).
Proof.
  destruct st as [fs r]. unfold finish. cbn [snd]. intros Hc.
  destruct b as [d |]; [destruct (cleaned_files r) eqn:E |]; cbn;
    rewrite ?E, ?Hc; (split; [reflexivity |]); split;
    try discriminate; try (intros [H1 H2]; congruence).
  intros _. split; discriminate.
Qed.

Lemma prepare_backup_shape (fs : FileSystem) (timestamp : string)
    (path_obj : Path) (dry rec create_backup : bool) :
  backup_created
    (snd (fst (prepare_backup fs timestamp path_obj (initial_result dry rec)
                 create_backup))) = false
  /\ cleaned_files
       (snd (fst (prepare_backup fs timestamp path_obj (initial_result dry rec)
                    create_backup))) = []
  /\ would_clean_files
       (snd (fst (prepare_backup fs timestamp path_obj (initial_result dry rec)
                    create_backup))) = []
  /\ dry_run
       (snd (fst (prepare_backup fs timestamp path_obj (initial_result dry rec)
                    create_backup))) = dry
  /\ (backup_directory
        (snd (fst (prepare_backup fs timestamp path_obj (initial_result dry rec)
                     create_backup))) = None <->
      snd (prepare_backup fs timestamp path_obj (initial_result dry rec)
             create_backup) = None).
Proof.
  unfold prepare_backup.
  destruct (create_backup && negb (dry_run (initial_result dry rec))).
  - destruct (_create_backup_directory fs timestamp path_obj) as [[fs1 d] | e];
      cbn; repeat split; try reflexivity; discriminate.
  - cbn. repeat split; reflexivity.
Qed.

Lemma clean_target_backup_flag (path_obj : Path) (exts : list string)
    (fs : FileSystem) (r : CleanupResult) (b : option Path) (rec : bool) :
  backup_created r = false ->
  cleaned_files r = [] ->
  backup_directory (snd (clean_target path_obj exts (fs, r) b rec))
  = backup_directory r
  /\ (backup_created (snd (clean_target path_obj exts (fs, r) b rec)) = true <->
      b <> None
      /\ cleaned_files (snd (clean_target path_obj exts (fs, r) b rec)) <> []).
Proof.
  intros Hcreated Hcleaned. unfold clean_target.
  set (Q := fun r1 => backup_directory r1 = backup_directory r
                      /\ backup_created r1 = false).
  assert (Hend : forall st,
             Q (snd st) ->
             backup_directory (snd (finish st b)) = backup_directory r
             /\ (backup_created (snd (finish st b)) = true <->
                 b <> None /\ cleaned_files (snd (finish st b)) <> [])).
  { intros st [Hd Hc]. destruct (finish_backup_flag st b Hc) as [-> Hiff].
    split; assumption. }
  destruct (is_file fs path_obj).
  - apply Hend. destruct (suffix path_obj =? ".tex").
    + apply tex_loop_keeps; unfold Q; cbn; intros; tauto.
    + apply single_file_keeps; unfold Q; cbn; intros; tauto.
  - unfold _clean_directory_auxiliaries. cbn [fst].
    destruct (find_auxiliary_files fs path_obj rec (Some exts)) as [files | e];
      cbn [bind].
    + apply Hend. apply directory_fold_keeps; unfold Q; cbn; intros; tauto.
    + cbn. rewrite Hcreated, Hcleaned. split; [reflexivity |].
      split; [discriminate | intros [_ H]; congruence].
Qed.

(** From a returned result back to the main block that produced it. *)
Lemma clean_latex_result (fs fs' : FileSystem) (timestamp : string)
    (path : option string) (extensions : option (list string))
    (dry rec create_backup : bool) (r : CleanupResult) :
  clean_latex fs timestamp path extensions dry rec create_backup
  = (fs', Returned r) ->
  exists p,
    path = Some p /\ p <> "" /\ exists_ fs (Path_of p) = true
    /\ clean_target (Path_of p) (extensions_in_force extensions)
         (fst (prepare_backup fs timestamp (Path_of p)
                 (initial_result dry rec) create_backup))
         (snd (prepare_backup fs timestamp (Path_of p)
                 (initial_result dry rec) create_backup))
         rec
       = (fs', r).
Proof.
  intros Hcall.
  destruct path as [[| c path] |]; try discriminate.
  set (p := String c path) in *.
  assert (Hne : p <> "") by discriminate.
  assert (Hex : exists_ fs (Path_of p) = true).
  { unfold clean_latex in Hcall. fold p in Hcall.
    destruct (exists_ fs (Path_of p)); [reflexivity | discriminate]. }
  exists p. split; [reflexivity |]. split; [exact Hne |]. split; [exact Hex |].
  rewrite (clean_latex_unfold _ _ _ _ _ _ _ Hne Hex) in Hcall.
  unfold extensions_in_force.
  remember (clean_target (Path_of p) _ _ _ rec) as ct eqn:Hct.
  destruct ct as [fs2 r2]. cbn [fst snd] in Hcall. congruence.
Qed.

(** X6: a returned result says [backup_created] exactly when a backup
    directory was made and at least one file was removed; an empty backup
    directory is never announced as a backup. *)
Theorem backup_created_iff (fs fs' : FileSystem) (timestamp : string)
    (path : option string) (extensions : option (list string))
    (dry rec create_backup : bool) (r : CleanupResult) :
  clean_latex fs timestamp path extensions dry rec create_backup
  = (fs', Returned r) ->
  (backup_created r = true <->
   backup_directory r <> None /\ cleaned_files r <> []).
Proof.
  intros Hcall.
  destruct (clean_latex_result _ _ _ _ _ _ _ _ _ Hcall)
    as (p & _ & _ & _ & Hct).
  destruct (prepare_backup_shape fs timestamp (Path_of p) dry rec create_backup)
    as (Hcreated & Hcleaned & _ & _ & Hdir).
  destruct (prepare_backup fs timestamp (Path_of p) (initial_result dry rec)
              create_backup) as [[fs1 r1] b].
  cbn [fst snd] in *.
  destruct (clean_target_backup_flag (Path_of p)
              (extensions_in_force extensions) fs1 r1 b rec Hcreated Hcleaned)
    as [Hbd Hiff].
  rewrite Hct in Hbd, Hiff. cbn [snd] in Hbd, Hiff.
  rewrite Hiff, Hbd. split; intros [H1 H2]; (split; [| exact H2]).
  - intros H. apply H1. now apply Hdir.
  - intros H. apply H1. now apply Hdir.
Qed.

Lemma backup_created_iff_witness :
  true = true <->
  Some "/backup_w_20240101_120000" <> None /\ ["/w/paper.aux"] <> @nil string.
Proof.
  exact (backup_created_iff Examples.project _ "20240101_120000" (Some "/w")
           None false false true _ eq_refl).
Defined.

(** *** Failed runs *)

(** X7: a result with [success = False] means that listing the target
    directory failed: nothing was removed or proposed, the disk is the one
    the listing was attempted on, and [error_message] is
    [Cleanup failed:] followed by the text of the listing error. *)
Theorem failed_run_removed_nothing (fs fs' : FileSystem) (timestamp : string)
    (path : option string) (extensions : option (list string))
    (dry rec create_backup : bool) (r : CleanupResult) :
  clean_latex fs timestamp path extensions dry rec create_backup
  = (fs', Returned r) ->
  success r = false ->
  exists p e,
    path = Some p
    /\ fs' = disk_at_discovery fs timestamp (Path_of p) dry rec create_backup
    /\ glob fs' (Path_of p) rec = Raised e
    /\ error_message r = Some ("Cleanup failed: " ++ exn_msg e)
    /\ cleaned_files r = []
    /\ would_clean_files r = []
    /\ cleaned_files_count r = 0%Z.
Proof.
  intros Hcall Hfail.
  destruct (clean_latex_result _ _ _ _ _ _ _ _ _ Hcall)
    as (p & -> & _ & _ & Hct).
  exists p. unfold disk_at_discovery.
  destruct (prepare_backup_shape fs timestamp (Path_of p) dry rec create_backup)
    as (_ & Hcleaned & Hwould & _ & _).
  assert (Hcount : cleaned_files_count
                     (snd (fst (prepare_backup fs timestamp (Path_of p)
                                  (initial_result dry rec) create_backup)))
                   = 0%Z).
  { unfold prepare_backup.
    destruct (create_backup && negb (dry_run (initial_result dry rec)));
      [| reflexivity].
    destruct (_create_backup_directory fs timestamp (Path_of p))
      as [[fs1 d] | e]; reflexivity. }
  destruct (prepare_backup fs timestamp (Path_of p) (initial_result dry rec)
              create_backup) as [[fs1 r1] b].
  cbn [fst snd] in *. unfold clean_target in Hct.
  destruct (is_file fs1 (Path_of p)).
  - pose proof (finish_success
                  (if suffix (Path_of p) =? ".tex"
                   then _clean_tex_file_auxiliaries (Path_of p)
                          (extensions_in_force extensions)
                          (fs1, set_directory_path
                                  (set_tex_file_path r1 (Some (str (Path_of p))))
                                  (Some (str (parent (Path_of p))))) b
                   else _clean_single_file (Path_of p)
                          (extensions_in_force extensions)
                          (fs1, set_directory_path
                                  (set_tex_file_path r1 (Some (str (Path_of p))))
                                  (Some (str (parent (Path_of p))))) b) b) as Hs.
    rewrite Hct in Hs. cbn [snd] in Hs. congruence.
  - unfold _clean_directory_auxiliaries in Hct. cbn [fst] in Hct.
    unfold find_auxiliary_files in Hct.
    destruct (glob fs1 (Path_of p) rec) as [found | e] eqn:Hglob;
      cbn [bind] in Hct.
    + match type of Hct with
      | finish ?st b = _ => pose proof (finish_success st b) as Hs
      end.
      rewrite Hct in Hs. cbn [snd] in Hs. congruence.
    + exists e. injection Hct as <- <-. cbn.
      rewrite Hcleaned, Hwould, Hcount. repeat split; try reflexivity.
      exact Hglob.
Qed.

Lemma failed_run_removed_nothing_witness :
  exists p e,
    Some "/w" = Some p
    /\ MoreExamples.unlistable_project
       = disk_at_discovery MoreExamples.unlistable_project "20240101_120000"
           (Path_of p) false false false
    /\ glob MoreExamples.unlistable_project (Path_of p) false = Raised e
    /\ error_message
         (snd (clean_target (Path_of "/w") DEFAULT_CLEANUP_EXTENSIONS
                 (MoreExamples.unlistable_project, initial_result false false)
                 None false))
       = Some ("Cleanup failed: " ++ exn_msg e)
    /\ cleaned_files
         (snd (clean_target (Path_of "/w") DEFAULT_CLEANUP_EXTENSIONS
                 (MoreExamples.unlistable_project, initial_result false false)
                 None false)) = []
    /\ would_clean_files
         (snd (clean_target (Path_of "/w") DEFAULT_CLEANUP_EXTENSIONS
                 (MoreExamples.unlistable_project, initial_result false false)
                 None false)) = []
    /\ cleaned_files_count
         (snd (clean_target (Path_of "/w") DEFAULT_CLEANUP_EXTENSIONS
                 (MoreExamples.unlistable_project, initial_result false false)
                 None false)) = 0%Z.
Proof.
  exact (failed_run_removed_nothing MoreExamples.unlistable_project _
           "20240101_120000" (Some "/w") None false false false _
           eq_refl eq_refl).
Defined.

(** *** What a run around a [.tex] file removes *)

Lemma not_file_not_removable (fs : FileSystem) (f : Path) :
  exists_ fs f && is_file fs f = false -> removable fs f = false.
Proof.
  unfold removable, exists_, is_file.
  destruct (lookup fs f) as [[] |]; cbn; congruence.
Qed.

(** Without backup, the loop over the extensions is the loop over the
    candidate paths: a candidate that is no regular file is passed over
    either way. *)
Lemma tex_loop_as_fold (tex_file : Path) : forall exts fs r,
  dry_run r = false ->
  _clean_tex_file_auxiliaries tex_file exts (fs, r) None
  = fold_left (fun st file_path => _process_file_for_cleanup file_path st None)
      (tex_candidates tex_file exts) (fs, r).
Proof.
  unfold _clean_tex_file_auxiliaries, tex_candidates.
  induction exts as [| ext exts IH]; intros fs r Hdry; [reflexivity |].
  cbn [fold_left map fst].
  set (c := joinpath (parent tex_file) (stem tex_file ++ ext)).
  rewrite (process_without_backup c fs r Hdry).
  destruct (exists_ fs c && is_file fs c) eqn:Hguard.
  - destruct (removable fs c); apply IH; exact Hdry.
  - rewrite (not_file_not_removable _ _ Hguard). apply IH, Hdry.
Qed.

(** X8: a run around a [.tex] file, without backup and outside dry-run
    mode, removes exactly the paths "stem + extension" that are regular
    files and can be unlinked: they are the entries of [cleaned_files], in
    the order of the extensions, and every other path, whatever its stem
    or extension, is as it was.  (The candidate paths are taken to be
    distinct.) *)
Theorem tex_run_removes_exactly (fs : FileSystem)
    (timestamp path : string) (extensions : option (list string))
    (rec : bool) :
  path <> "" ->
  is_file fs (Path_of path) = true ->
  suffix (Path_of path) = ".tex" ->
  NoDup (tex_candidates (Path_of path) (extensions_in_force extensions)) ->
  exists fs' r,
    clean_latex fs timestamp (Some path) extensions false rec false
    = (fs', Returned r)
    /\ success r = true
    /\ cleaned_files r
       = map str (filter (removable fs)
                    (tex_candidates (Path_of path)
                       (extensions_in_force extensions)))
    /\ (forall q,
          lookup fs' q
          = if path_in q (tex_candidates (Path_of path)
                            (extensions_in_force extensions))
               && removable fs q
            then None else lookup fs q).
Proof.
  intros Hne Hfile Htex Hnd.
  assert (Hex : exists_ fs (Path_of path) = true).
  { unfold exists_, is_file in *. now destruct (lookup fs (Path_of path)). }
  rewrite (clean_latex_without_backup fs timestamp path extensions false rec
             false Hne Hex (or_introl eq_refl)).
  fold (extensions_in_force extensions).
  unfold clean_target. rewrite Hfile, Htex. cbn [String.eqb Ascii.eqb Bool.eqb].
  rewrite tex_loop_as_fold by reflexivity.
  destruct (sweep_exact _ fs
              (set_directory_path
                 (set_tex_file_path (initial_result false rec)
                    (Some (str (Path_of path))))
                 (Some (str (parent (Path_of path))))) eq_refl Hnd)
    as (fs' & r' & Hfold & Hc & _ & Hl).
  unfold State in *. rewrite Hfold. cbn [finish fst snd].
  exists fs'. eexists. split; [reflexivity |]. cbn.
  rewrite Hc. repeat split; try reflexivity. exact Hl.
Qed.

Lemma tex_run_removes_exactly_witness :
  exists fs' r,
    clean_latex Examples.project "20240101_120000" (Some "/w/paper.tex")
      (Some [".aux"; ".log"; ".pdf"]) false false false = (fs', Returned r)
    /\ success r = true
    /\ cleaned_files r
       = map str (filter (removable Examples.project)
                    (tex_candidates (Path_of "/w/paper.tex")
                       (extensions_in_force (Some [".aux"; ".log"; ".pdf"]))))
    /\ (forall q,
          lookup fs' q
          = if path_in q (tex_candidates (Path_of "/w/paper.tex")
                            (extensions_in_force
                               (Some [".aux"; ".log"; ".pdf"])))
               && removable Examples.project q
            then None else lookup Examples.project q).
Proof.
  apply (tex_run_removes_exactly Examples.project "20240101_120000"
           "/w/paper.tex" (Some [".aux"; ".log"; ".pdf"]) false);
    [discriminate | reflexivity | reflexivity |].
  vm_compute. repeat constructor; cbn; intuition discriminate.
Defined.

(** *** Extensions and suffixes *)

Lemma rfind_dot_offset (s : string) : forall pos found,
  rfind_dot s pos found
  = match rfind_dot s 0 None with
    | Some j => Some (pos + j)
    | None => found
    end.
Proof.
  induction s as [| c s IH]; intros pos found; cbn [rfind_dot]; [reflexivity |].
  rewrite (IH (S pos)), (IH 1).
  destruct (rfind_dot s 0 None) as [j |].
  - f_equal. lia.
  - destruct (Ascii.eqb c "."); [f_equal; lia | reflexivity].
Qed.

Lemma rfind_dot_cons (c : ascii) (s : string) :
  rfind_dot (String c s) 0 None
  = match rfind_dot s 0 None with
    | Some j => Some (S j)
    | None => if Ascii.eqb c "." then Some 0 else None
    end.
Proof.
  cbn [rfind_dot]. rewrite rfind_dot_offset.
  now destruct (rfind_dot s 0 None).
Qed.

(** The last dot of a concatenation is the last dot of its second part,
    when that part has one. *)
Lemma rfind_dot_app (a b : string) (j : nat) :
  rfind_dot b 0 None = Some j ->
  rfind_dot (a ++ b) 0 None = Some (String.length a + j).
Proof.
  intros Hb. induction a as [| c a IH]; [exact Hb |].
  cbn [append]. rewrite rfind_dot_cons, IH. reflexivity.
Qed.

Lemma substring_skip (a b : string) (k n : nat) :
  substring (String.length a + k) n (a ++ b) = substring k n b.
Proof.
  induction a as [| c a IH]; [reflexivity |]. cbn. exact IH.
Qed.

Lemma slice_from_skip (a b : string) (k : nat) :
  slice_from (String.length a + k) (a ++ b) = slice_from k b.
Proof.
  unfold slice_from. rewrite substring_skip. f_equal.
  rewrite ValidateFacts.sapp_length. lia.
Qed.

(** The suffix of a name that ends in a dotted tail with a last dot at
    [j], neither first nor last in the name, is the tail from [j] on. *)
Lemma suffix_of_tail (p : Path) (front tail : string) (j : nat) :
  name p = front ++ tail ->
  rfind_dot tail 0 None = Some j ->
  0 < String.length front + j ->
  S j < String.length tail ->
  suffix p = slice_from j tail.
Proof.
  intros Hname Hdot Hpos Hlast. unfold suffix, suffix_start.
  rewrite Hname, (rfind_dot_app front tail j Hdot).
  rewrite ValidateFacts.sapp_length.
  destruct (Nat.ltb_spec 0 (String.length front + j)); [| lia].
  destruct (Nat.ltb_spec (String.length front + j)
              (String.length front + String.length tail - 1)); [| lia].
  cbn [andb]. apply slice_from_skip.
Qed.

(** What [find_auxiliary_files] returns has a suffix in the table used. *)
Lemma find_auxiliary_files_member (fs : FileSystem) (directory : Path)
    (rec : bool) (extensions : option (list string)) (files : list Path) :
  find_auxiliary_files fs directory rec extensions = Returned files ->
  forall f, In f files ->
    str_in (suffix f)
      (match extensions with
       | None => DEFAULT_CLEANUP_EXTENSIONS
       | Some l => l
       end) = true.
Proof.
  unfold find_auxiliary_files. intros H f Hf.
  destruct (glob fs directory rec) as [found | e]; [| discriminate].
  cbn [bind] in H. injection H as <-.
  apply filter_In in Hf as [_ Hf].
  apply andb_true_iff in Hf as [_ Hf].
  apply andb_true_iff in Hf as [Hin _]. exact Hin.
Qed.

(** X9: [Path.suffix] is the last extension only, so the two-part
    entries [.synctex.gz] and [.run.xml] of the default table never match
    a file in the suffix-based checks: for a file named [x.synctex.gz] or
    [x.run.xml], [is_auxiliary_file] is false and
    [find_auxiliary_files] with the default extensions does not return
    it. *)
Theorem two_part_extensions_never_match (p : Path) :
  ends_with ".synctex.gz" (name p) \/ ends_with ".run.xml" (name p) ->
  CleanupQueries.is_auxiliary_file p = false
  /\ forall fs directory rec files,
       find_auxiliary_files fs directory rec None = Returned files ->
       ~ In p files.
Proof.
  intros Hname.
  assert (Hsuffix : str_in (suffix p) DEFAULT_CLEANUP_EXTENSIONS = false).
  { destruct Hname as [(front & Hname) | (front & Hname)].
    - rewrite (suffix_of_tail p front ".synctex.gz" 8 Hname eq_refl);
        [reflexivity | lia | cbn; lia].
    - rewrite (suffix_of_tail p front ".run.xml" 4 Hname eq_refl);
        [reflexivity | lia | cbn; lia]. }
  split.
  - unfold CleanupQueries.is_auxiliary_file. now rewrite Hsuffix.
  - intros fs directory rec files Hfind Hin.
    pose proof (find_auxiliary_files_member _ _ _ _ _ Hfind _ Hin) as Hm.
    unfold extensions_in_force in Hm. congruence.
Qed.

Lemma two_part_extensions_never_match_witness :
  CleanupQueries.is_auxiliary_file ["/"; "w"; "paper.synctex.gz"] = false
  /\ forall fs directory rec files,
       find_auxiliary_files fs directory rec None = Returned files ->
       ~ In ["/"; "w"; "paper.synctex.gz"] files.
Proof.
  apply two_part_extensions_never_match.
  left. exists "paper". reflexivity.
Defined.

(** X10: the default table and the protected table share no extension,
    so for the default table the protected check changes nothing:
    [is_auxiliary_file] holds exactly of the paths whose suffix is in the
    default table. *)
Theorem default_and_protected_disjoint :
  (forall ext,
     str_in ext DEFAULT_CLEANUP_EXTENSIONS = true ->
     str_in ext PROTECTED_EXTENSIONS = false)
  /\ (forall p,
        CleanupQueries.is_auxiliary_file p
        = str_in (suffix p) CleanupQueries.get_default_cleanup_extensions).
Proof.
  assert (H : forall ext,
             str_in ext DEFAULT_CLEANUP_EXTENSIONS = true ->
             str_in ext PROTECTED_EXTENSIONS = false).
  { intros ext Hin. unfold str_in in Hin.
    apply existsb_exists in Hin as (x & Hx & Heq).
    apply String.eqb_eq in Heq. subst x.
    unfold DEFAULT_CLEANUP_EXTENSIONS in Hx. cbn [In] in Hx.
    repeat (destruct Hx as [<- | Hx]; [reflexivity |]). destruct Hx. }
  split; [exact H |].
  intros p. unfold CleanupQueries.is_auxiliary_file,
    CleanupQueries.get_default_cleanup_extensions.
  destruct (str_in (suffix p) DEFAULT_CLEANUP_EXTENSIONS) eqn:E; [| reflexivity].
  now rewrite (H _ E).
Qed.

Lemma default_and_protected_disjoint_witness :
  str_in ".aux" PROTECTED_EXTENSIONS = false.
Proof.
  apply (proj1 default_and_protected_disjoint). reflexivity.
Defined.

(** *** What a run on a single file removes *)

(** X28: a run on one file that is no [.tex] file, without backup and
    outside dry-run mode, removes that file exactly when its suffix is
    among the extensions in force and it can be unlinked, and changes
    nothing else; the table of protected extensions is not consulted. *)
Theorem single_file_run_touches_only_target (fs : FileSystem)
    (timestamp path : string) (extensions : option (list string))
    (rec : bool) :
  path <> "" ->
  is_file fs (Path_of path) = true ->
  suffix (Path_of path) <> ".tex" ->
  exists fs' r,
    clean_latex fs timestamp (Some path) extensions false rec false
    = (fs', Returned r)
    /\ success r = true
    /\ cleaned_files r
       = (if str_in (suffix (Path_of path)) (extensions_in_force extensions)
             && removable fs (Path_of path)
          then [str (Path_of path)] else [])
    /\ (forall q,
          lookup fs' q
          = if path_eqb q (Path_of path)
               && (str_in (suffix (Path_of path))
                     (extensions_in_force extensions)
                   && removable fs (Path_of path))
            then None else lookup fs q).
Proof.
  intros Hne Hfile Hsuffix.
  assert (Hex : exists_ fs (Path_of path) = true).
  { unfold exists_, is_file in *. now destruct (lookup fs (Path_of path)). }
  rewrite (clean_latex_without_backup fs timestamp path extensions false rec
             false Hne Hex (or_introl eq_refl)).
  fold (extensions_in_force extensions).
  unfold clean_target. rewrite Hfile.
  apply String.eqb_neq in Hsuffix. rewrite Hsuffix.
  unfold _clean_single_file.
  set (p := Path_of path) in *.
  set (r0 := set_directory_path
               (set_tex_file_path (initial_result false rec) (Some (str p)))
               (Some (str (parent p)))).
  destruct (str_in (suffix p) (extensions_in_force extensions)).
  - destruct (sweep_exact [p] fs r0 eq_refl
                (NoDup_cons p (@in_nil _ p) (NoDup_nil _)))
      as (fs' & r' & Hfold & Hc & _ & Hl).
    cbn [fold_left] in Hfold. unfold State in *. rewrite Hfold.
    cbn [finish fst snd].
    exists fs'. eexists. split; [reflexivity |]. cbn.
    rewrite Hc. cbn [filter map andb].
    split; [reflexivity |]. split.
    + now destruct (removable fs p).
    + intros q. rewrite Hl, path_in_cons. cbn [path_in orb].
      rewrite orb_false_r.
      destruct (path_eqb q p) eqn:E; [| reflexivity].
      apply path_eqb_eq in E. now subst q.
  - cbn [finish fst snd andb]. exists fs. eexists.
    split; [reflexivity |]. cbn. repeat split.
    intros q. now rewrite andb_false_r.
Qed.

Lemma single_file_run_touches_only_target_witness :
  exists fs' r,
    clean_latex Examples.project "20240101_120000" (Some "/w/paper.pdf")
      (Some [".pdf"]) false false false = (fs', Returned r)
    /\ success r = true
    /\ cleaned_files r
       = (if str_in (suffix (Path_of "/w/paper.pdf"))
               (extensions_in_force (Some [".pdf"]))
             && removable Examples.project (Path_of "/w/paper.pdf")
          then [str (Path_of "/w/paper.pdf")] else [])
    /\ (forall q,
          lookup fs' q
          = if path_eqb q (Path_of "/w/paper.pdf")
               && (str_in (suffix (Path_of "/w/paper.pdf"))
                     (extensions_in_force (Some [".pdf"]))
                   && removable Examples.project (Path_of "/w/paper.pdf"))
            then None else lookup Examples.project q).
Proof.
  apply (single_file_run_touches_only_target Examples.project
           "20240101_120000" "/w/paper.pdf" (Some [".pdf"]) false);
    [discriminate | reflexivity | discriminate].
Defined.

End CleanupExtra.

(** ** Cleanup: what a run lists when removals fail *)

Module CleanupRuns.
Import Cleanup Spec Notions CleanupFacts CleanupExtra.

(** Neither the backup copy nor the removal changes what the system
    refuses to unlink. *)
Lemma copy2_keeps_undeletable (fs fs1 : FileSystem) (src dst : Path) :
  copy2 fs src dst = Returned fs1 -> undeletable fs1 = undeletable fs.
Proof.
  unfold copy2.
  destruct (path_eqb src _ && exists_ fs src); [discriminate |].
  destruct (lookup fs src) as [[] |]; try discriminate.
  destruct (path_in src (unreadable fs)); [discriminate |].
  destruct (lookup fs _) as [[] |]; try discriminate.
  - destruct (path_in _ (unwritable fs)); [discriminate |]. now intros [= <-].
  - unfold create. destruct (lookup fs (parent _)) as [[] |]; try discriminate.
    destruct (path_in _ (unwritable fs)); [discriminate |]. now intros [= <-].
Qed.

Lemma unlink_keeps_undeletable (fs fs1 : FileSystem) (p : Path) :
  unlink fs p = Returned fs1 ->
  undeletable fs1 = undeletable fs /\ path_in p (undeletable fs) = false.
Proof.
  unfold unlink. destruct (lookup fs p) as [[] |]; try discriminate.
  destruct (path_in p (undeletable fs)); [discriminate |].
  intros [= <-]. split; reflexivity.
Qed.

Lemma backup_and_remove_undeletable (fs : FileSystem) (f : Path)
    (b : option Path) :
  undeletable (fst (backup_and_remove fs f b)) = undeletable fs
  /\ (snd (backup_and_remove fs f b) = Returned tt ->
      path_in f (undeletable fs) = false).
Proof.
  unfold backup_and_remove.
  assert (Hcopy : forall fs1,
             match b with
             | Some dir => copy2 fs f (joinpath dir (name f))
             | None => Returned fs
             end = Returned fs1 ->
             undeletable fs1 = undeletable fs).
  { destruct b as [dir |]; intros fs1 H.
    - now apply copy2_keeps_undeletable in H.
    - now injection H as <-. }
  destruct (match b with
            | Some dir => copy2 fs f (joinpath dir (name f))
            | None => Returned fs
            end) as [fs1 | e]; cbn [fst snd].
  - specialize (Hcopy fs1 eq_refl).
    destruct (unlink fs1 f) as [fs2 | e] eqn:Hun; cbn [fst snd].
    + apply unlink_keeps_undeletable in Hun as [H1 H2].
      split; [congruence |]. intros _. now rewrite <- Hcopy.
    + split; [exact Hcopy | discriminate].
  - split; [reflexivity | discriminate].
Qed.

Section Listed.

(** The disk a run starts on, the candidates of the run, and the backup
    directory in use. *)
Variable fs0 : FileSystem.
Variable found : list Path.
Variable b : option Path.

Lemma process_listed (f : Path) (st : State) :
  In f found -> listed fs0 found st ->
  listed fs0 found (_process_file_for_cleanup f st b).
Proof.
  destruct st as [fs r]. intros Hin (Hu & Hdry & removed & Hc & Hincl & Hok).
  cbn [fst snd] in *.
  destruct (backup_and_remove_undeletable fs f b) as [Hkeep Hdel].
  destruct (process_cases f fs r b)
    as [[Hd _] | [(_ & _ & ->) | (_ & Hdone & ->)]]; [congruence | |].
  - split; [cbn [fst]; congruence |]. split; [exact Hdry |].
    exists removed. auto.
  - split; [cbn [fst]; congruence |]. split; [exact Hdry |].
    exists (removed ++ [f])%list. cbn [snd record_cleaned cleaned_files].
    rewrite Hc, map_app. split; [reflexivity |]. split.
    + apply incl_app; [exact Hincl |]. intros g [<- | []]. exact Hin.
    + intros g Hg. apply in_app_or in Hg as [Hg | [<- | []]]; [now apply Hok |].
      rewrite <- Hu. now apply Hdel.
Qed.

Lemma fold_listed : forall (files : list Path) (st : State),
  incl files found -> listed fs0 found st ->
  listed fs0 found (fold_left
            (fun st file_path => _process_file_for_cleanup file_path st b)
            files st).
Proof.
  induction files as [| f files IH]; intros st Hincl Hst; [exact Hst |].
  cbn [fold_left]. apply IH.
  - intros g Hg. apply Hincl. now right.
  - apply process_listed; [apply Hincl; now left | exact Hst].
Qed.

Lemma tex_loop_listed (tex_file : Path) :
  forall (exts : list string) (st : State),
  incl (tex_candidates tex_file exts) found -> listed fs0 found st ->
  listed fs0 found (_clean_tex_file_auxiliaries tex_file exts st b).
Proof.
  unfold _clean_tex_file_auxiliaries, tex_candidates.
  induction exts as [| ext exts IH]; intros st Hincl Hst; [exact Hst |].
  cbn [fold_left map] in *. apply IH.
  - intros g Hg. apply Hincl. now right.
  - destruct (exists_ (fst st) _ && is_file (fst st) _); [| exact Hst].
    apply process_listed; [apply Hincl; now left | exact Hst].
Qed.

Lemma finish_listed (st : State) :
  listed fs0 found st -> listed fs0 found (finish st b).
Proof.
  destruct st as [fs r]. unfold finish, listed. cbn [fst snd].
  intros (Hu & Hdry & Hrest). split; [exact Hu |].
  destruct b; [destruct (cleaned_files r) eqn:E |]; cbn; rewrite ?E;
    (split; [exact Hdry | exact Hrest]).
Qed.

End Listed.

(** The main [try] block lists only candidates that the system did not
    refuse to unlink. *)
Lemma clean_target_listed (path_obj : Path) (exts : list string)
    (fs : FileSystem) (r : CleanupResult) (b : option Path) (rec : bool) :
  dry_run r = false -> cleaned_files r = [] ->
  listed fs (candidates fs path_obj exts rec)
    (clean_target path_obj exts (fs, r) b rec).
Proof.
  intros Hdry Hnone.
  assert (Hstart : forall r' found,
             dry_run r' = false -> cleaned_files r' = [] ->
             listed fs found (fs, r')).
  { intros r' found Hd Hc. split; [reflexivity |]. split; [exact Hd |].
    exists []. split; [exact Hc |]. split; [intros g [] | intros g []]. }
  unfold clean_target, candidates.
  destruct (is_file fs path_obj).
  - apply finish_listed.
    destruct (suffix path_obj =? ".tex").
    + apply tex_loop_listed; [apply incl_refl | now apply Hstart].
    + unfold _clean_single_file.
      destruct (str_in (suffix path_obj) exts).
      * apply process_listed; [now left | now apply Hstart].
      * now apply Hstart.
  - unfold _clean_directory_auxiliaries. cbn [fst].
    destruct (find_auxiliary_files fs path_obj rec (Some exts))
      as [files | e]; cbn [bind].
    + apply finish_listed, fold_listed; [apply incl_refl | now apply Hstart].
    + now apply Hstart.
Qed.

(** Making the backup directory changes neither the list of the result
    nor what the system refuses to unlink. *)
Lemma prepare_backup_start (fs : FileSystem) (timestamp : string)
    (path_obj : Path) (rec create_backup : bool) :
  undeletable (disk_at_discovery fs timestamp path_obj false rec create_backup)
  = undeletable fs
  /\ dry_run (snd (fst (prepare_backup fs timestamp path_obj
                          (initial_result false rec) create_backup))) = false
  /\ cleaned_files (snd (fst (prepare_backup fs timestamp path_obj
                                (initial_result false rec) create_backup)))
     = [].
Proof.
  unfold disk_at_discovery, prepare_backup.
  destruct (create_backup && negb (dry_run (initial_result false rec)));
    [| split; [reflexivity | split; reflexivity]].
  destruct (_create_backup_directory fs timestamp path_obj)
    as [[fs1 d] | e] eqn:H; cbn [fst snd];
    [| split; [reflexivity | split; reflexivity]].
  split; [| split; reflexivity].
  unfold _create_backup_directory in H.
  destruct (mkdir fs _) as [fs2 | e] eqn:Hm; cbn [bind] in H; [| discriminate].
  injection H as <- _. unfold mkdir in Hm.
  destruct (lookup fs _) as [[] |]; try discriminate.
  - now injection Hm as <-.
  - unfold create in Hm.
    destruct (lookup fs (parent _)) as [[] |]; try discriminate.
    destruct (path_in _ (unwritable fs)); [discriminate |].
    now injection Hm as <-.
Qed.

(** Without backup, the loops of the three modes list exactly the
    candidates that can be unlinked. *)
Lemma clean_target_exact (path_obj : Path) (exts : list string)
    (fs : FileSystem) (r : CleanupResult) (rec : bool) :
  dry_run r = false -> cleaned_files r = [] ->
  NoDup (candidates fs path_obj exts rec) ->
  cleaned_files (snd (clean_target path_obj exts (fs, r) None rec))
  = map str (filter (removable fs) (candidates fs path_obj exts rec)).
Proof.
  intros Hdry Hnone Hnd.
  assert (Hfinish : forall st,
             cleaned_files (snd (finish st None)) = cleaned_files (snd st)).
  { intros [fs1 r1]. reflexivity. }
  assert (Hsweep : forall r' files,
             dry_run r' = false -> cleaned_files r' = [] -> NoDup files ->
             cleaned_files
               (snd (fold_left
                       (fun st file_path =>
                          _process_file_for_cleanup file_path st None)
                       files (fs, r')))
             = map str (filter (removable fs) files)).
  { intros r' files Hd Hc Hn.
    destruct (sweep_exact files fs r' Hd Hn) as (fs' & r'' & Hfold & Hl & _).
    unfold State in *. rewrite Hfold. cbn [snd]. now rewrite Hl, Hc. }
  unfold clean_target, candidates in *.
  destruct (is_file fs path_obj).
  - rewrite Hfinish.
    destruct (suffix path_obj =? ".tex").
    + rewrite tex_loop_as_fold by exact Hdry. now apply Hsweep.
    + unfold _clean_single_file.
      destruct (str_in (suffix path_obj) exts); [| exact Hnone].
      exact (Hsweep
               (set_directory_path
                  (set_tex_file_path r (Some (str path_obj)))
                  (Some (str (parent path_obj))))
               [path_obj] Hdry Hnone Hnd).
  - unfold _clean_directory_auxiliaries. cbn [fst].
    destruct (find_auxiliary_files fs path_obj rec (Some exts))
      as [files | e]; cbn [bind].
    + rewrite Hfinish. now apply Hsweep.
    + exact Hnone.
Qed.

(** C7: outside dry-run mode a candidate whose backup copy or removal
    fails raises nothing and leaves the result object as it was, so the
    file is not added to [cleaned_files] and [success] is not touched.
    For the whole call: [clean_latex], once its argument is accepted,
    returns a result; its [success] is true whenever the candidates could
    be listed, however many of them were removed; its [cleaned_files]
    holds candidates only, none of which the system refuses to unlink, so
    a candidate that cannot be unlinked is left out of the list; and in a
    run without backup the list is exactly the candidates that can be
    unlinked, in the order of the loop. *)
Theorem deletion_failure_is_swallowed :
  (forall (fs : FileSystem) (f : Path) (r : CleanupResult) (b : option Path),
      dry_run r = false ->
      removal_fails fs f b ->
      snd (_process_file_for_cleanup f (fs, r) b) = r)
  /\ (forall (fs : FileSystem) (timestamp path : string)
        (extensions : option (list string)) (rec create_backup : bool),
        path <> "" ->
        exists_ fs (Path_of path) = true ->
        exists fs' r,
          clean_latex fs timestamp (Some path) extensions false rec create_backup
          = (fs', Returned r)
          /\ (discovery_completes
                (disk_at_discovery fs timestamp (Path_of path) false rec
                   create_backup)
                (Path_of path) rec ->
              success r = true)
          /\ (exists removed,
                cleaned_files r = map str removed
                /\ incl removed
                     (run_candidates fs timestamp path extensions rec
                        create_backup)
                /\ forall f,
                     In f removed -> path_in f (undeletable fs) = false)
          /\ (forall f,
                path_in f (undeletable fs) = true ->
                (forall g,
                   In g (run_candidates fs timestamp path extensions rec
                           create_backup) ->
                   str g = str f -> g = f) ->
                ~ In (str f) (cleaned_files r))
          /\ (create_backup = false ->
              NoDup (run_candidates fs timestamp path extensions rec
                       create_backup) ->
              cleaned_files r
              = map str
                  (filter (removable fs)
                     (run_candidates fs timestamp path extensions rec
                        create_backup)))).
Proof.
  split.
  - intros fs f r b Hdry (e & He).
    destruct (process_cases f fs r b)
      as [[Hd _] | [(_ & _ & ->) | (_ & Hok & _)]]; [congruence | reflexivity |].
    rewrite Hok in He. discriminate.
  - intros fs timestamp path extensions rec create_backup Hne Hex.
    rewrite (clean_latex_unfold fs timestamp path extensions false rec
               create_backup Hne Hex).
    fold (extensions_in_force extensions).
    unfold run_candidates.
    destruct (prepare_backup_start fs timestamp (Path_of path) rec create_backup)
      as (Hu & Hdry & Hnone).
    pose proof (prepare_backup_off fs timestamp (Path_of path) false rec
                  create_backup) as Hoff.
    unfold disk_at_discovery in *.
    destruct (prepare_backup fs timestamp (Path_of path)
                (initial_result false rec) create_backup) as [[fs1 r1] b].
    cbn [fst snd] in *.
    pose proof (clean_target_listed (Path_of path)
                  (extensions_in_force extensions) fs1 r1 b rec Hdry Hnone)
      as (_ & _ & removed & Hc & Hincl & Hok).
    assert (Hlisted : exists removed,
               cleaned_files
                 (snd (clean_target (Path_of path)
                         (extensions_in_force extensions) (fs1, r1) b rec))
               = map str removed
               /\ incl removed
                    (candidates fs1 (Path_of path)
                       (extensions_in_force extensions) rec)
               /\ forall f, In f removed -> path_in f (undeletable fs) = false).
    { exists removed. split; [exact Hc |]. split; [exact Hincl |].
      intros f Hf. rewrite <- Hu. now apply Hok. }
    eexists. eexists. split; [reflexivity |].
    split; [now apply clean_target_success |].
    split; [exact Hlisted |]. split.
    + intros f Hf Hinj Hin. rewrite Hc in Hin.
      apply in_map_iff in Hin as (g & Hg & Hgin).
      assert (g = f) as -> by (apply Hinj; [now apply Hincl | exact Hg]).
      rewrite <- Hu in Hf. rewrite (Hok f Hgin) in Hf. discriminate.
    + intros -> Hnd.
      specialize (Hoff (or_introl eq_refl)).
      injection Hoff as -> -> ->.
      now apply clean_target_exact.
Qed.

Lemma deletion_failure_is_swallowed_witness :
  snd (_process_file_for_cleanup ["/"; "w"; "paper.log"]
         (Examples.project, initial_result false false) None)
  = initial_result false false
  /\ exists fs' r,
       clean_latex Examples.project "20240101_120000" (Some "/w") None
         false false false = (fs', Returned r)
       /\ success r = true
       /\ cleaned_files r = ["/w/paper.aux"]
       /\ ~ In "/w/paper.log" (cleaned_files r).
Proof.
  split.
  - apply (proj1 deletion_failure_is_swallowed); [reflexivity |].
    eexists. reflexivity.
  - destruct (proj2 deletion_failure_is_swallowed Examples.project
                "20240101_120000" "/w" None false false)
      as (fs' & r & Hcall & Hsuccess & _ & Hout & Hexact);
      [discriminate | reflexivity |].
    exists fs', r. split; [exact Hcall |]. split.
    + apply Hsuccess. right. eexists. reflexivity.
    + split.
      * rewrite Hexact; [reflexivity | reflexivity |].
        vm_compute. repeat constructor; cbn; intuition discriminate.
      * apply (Hout ["/"; "w"; "paper.log"]); [reflexivity |].
        intros g Hg Hstr. vm_compute in Hg.
        destruct Hg as [<- | [<- | []]]; [discriminate Hstr | reflexivity].
Defined.

End CleanupRuns.

(** ** More on validation *)

Module ValidateExtra.
Import Validate Spec Notions ValidateFacts.

(** *** The two brace messages *)

Lemma brace_delta_bounds (c : ascii) : (-1 <= brace_delta c <= 1)%Z.
Proof.
  unfold brace_delta. destruct (Ascii.eqb c "{"); [lia |].
  destruct (Ascii.eqb c "}"); lia.
Qed.

(** The loop stops at the first dip, so it always stops at minus one. *)
Lemma brace_scan_dips_at_minus_one (s : string) : forall k,
  (0 <= k)%Z ->
  ~ stays_nonnegative k s ->
  brace_scan s k = ((-1)%Z, true).
Proof.
  induction s as [| c s IH]; intros k Hk Hs.
  - exfalso. apply Hs. exact I.
  - rewrite brace_scan_step. pose proof (brace_delta_bounds c) as Hb.
    destruct (Z.ltb_spec (k + brace_delta c) 0) as [Hneg | Hpos].
    + f_equal. lia.
    + apply IH; [exact Hpos |]. intros H. apply Hs. split; assumption.
Qed.

Lemma stays_nonnegative_total (s : string) : forall k,
  (0 <= k)%Z -> stays_nonnegative k s -> (0 <= k + net_braces s)%Z.
Proof.
  induction s as [| c s IH]; intros k Hk Hs; cbn [net_braces]; [lia |].
  destruct Hs as [Hc Hs]. pose proof (IH _ Hc Hs). lia.
Qed.

(** X11: the brace check gives one of three reports.  Braces that never
    over-close and balance give none; braces that never over-close and
    leave [n > 0] open give the single message
    [Unmatched opening braces: n unclosed] with [n] the true count; and as
    soon as some prefix closes more than it opens, the report is the pair
    [Unmatched closing brace }], [Unmatched closing braces: 1 extra],
    whatever the number of surplus closing braces. *)
Theorem brace_report_shape (content : string) :
  (never_overclosed content /\ net_braces content = 0%Z
   /\ brace_errors content = [])
  \/ (never_overclosed content /\ (0 < net_braces content)%Z
      /\ brace_errors content
         = ["Unmatched opening braces: " ++ str_of_Z (net_braces content)
            ++ " unclosed"])
  \/ (~ never_overclosed content
      /\ brace_errors content
         = ["Unmatched closing brace }"; "Unmatched closing braces: 1 extra"]).
Proof.
  rewrite never_overclosed_stays. unfold brace_errors.
  destruct (stays_nonnegative_dec content 0) as [Hs | Hs].
  - rewrite (brace_scan_stays _ _ Hs). cbn [Z.add app].
    pose proof (stays_nonnegative_total _ 0 (Z.le_refl 0) Hs) as Hnet.
    destruct (Z.gtb_spec (net_braces content) 0) as [Hgt | Hle].
    + right; left. repeat split; [exact Hs | lia].
    + left. destruct (Z.ltb_spec (net_braces content) 0); [lia |].
      repeat split; [exact Hs | lia].
  - right; right. rewrite (brace_scan_dips_at_minus_one _ _ (Z.le_refl 0) Hs).
    split; [exact Hs | reflexivity].
Qed.

(** *** The environment messages *)

Lemma mentions_cons (kw X s : string) (c : ascii) :
  mentions kw X s -> mentions kw X (String c s).
Proof.
  intros (pre & ws & post & Hws & ->).
  exists (String c pre), ws, post. split; [exact Hws | reflexivity].
Qed.

(** Everything [re.findall] returns is the name of a tag of the text. *)
Lemma findall_env_sound (kw : string) (s : string) : forall skip X,
  In X (findall_env kw skip s) ->
  mentions kw X s /\ X <> "" /\ all_chars is_word X = true.
Proof.
  induction s as [| c s IH]; intros skip X Hin; [destruct Hin |].
  cbn [findall_env] in Hin. destruct skip as [| k].
  - destruct (match_env kw (String c s)) as [[w rest] |] eqn:Hm.
    + destruct Hin as [<- | Hin].
      * pose proof Hm as Hm'.
        apply match_env_inv in Hm' as (ws & Hws & Heq & Hw).
        split; [| split; [| exact Hw]].
        -- exists "", ws, rest. split; [exact Hws | exact Heq].
        -- unfold match_env in Hm.
           destruct (strip_prefix kw (String c s)); [| discriminate].
           destruct (skip_spaces s0) as [| b r1]; [discriminate |].
           destruct b as [[] [] [] [] [] [] [] []]; try discriminate.
           destruct (take_word r1) as [[| x w'] [| d r2]]; try discriminate.
           destruct d as [[] [] [] [] [] [] [] []]; try discriminate.
           injection Hm as <- _. discriminate.
      * destruct (IH _ _ Hin) as (Hmn & Hne & Hw).
        split; [now apply mentions_cons | split; assumption].
    + destruct (IH _ _ Hin) as (Hmn & Hne & Hw).
      split; [now apply mentions_cons | split; assumption].
  - destruct (IH _ _ Hin) as (Hmn & Hne & Hw).
    split; [now apply mentions_cons | split; assumption].
Qed.

Lemma sapp_inj_l (a b c : string) : a ++ b = a ++ c -> b = c.
Proof.
  induction a as [| x a IH]; cbn; [auto |]. intros [= H]. auto.
Qed.

Lemma existsb_false_In {A : Type} (f : A -> bool) (l : list A) (x : A) :
  existsb f l = false -> In x l -> f x = false.
Proof.
  intros Hf Hin. destruct (f x) eqn:E; [| reflexivity].
  assert (existsb f l = true) by (apply existsb_exists; eauto). congruence.
Qed.

Lemma env_errors_other_start (pat opener closer label content : string) :
  (forall env, prefix pat (label ++ env) = false) ->
  existsb (prefix pat) (env_errors opener closer label content) = false.
Proof.
  intros Hlabel. unfold env_errors.
  induction (findall_env opener 0 content) as [| env l IH]; [reflexivity |].
  cbn [flat_map]. rewrite existsb_app, IH, orb_false_r.
  destruct (search_named closer env content); [reflexivity |].
  cbn [existsb]. rewrite Hlabel. reflexivity.
Qed.

Lemma shell_errors_start (pat : string) (content : string) :
  prefix pat "Missing \documentclass command" = false ->
  prefix pat "Missing \begin{document}" = false ->
  prefix pat "Missing \end{document}" = false ->
  existsb (prefix pat) (shell_errors content) = false.
Proof.
  intros H1 H2 H3. unfold shell_errors.
  destruct (search_documentclass content);
    destruct (search_named "\begin" "document" content);
    destruct (search_named "\end" "document" content);
    cbn [app existsb]; rewrite ?H1, ?H2, ?H3; reflexivity.
Qed.

Lemma brace_errors_start (pat : string) (content : string) :
  prefix pat "Unmatched closing brace }" = false ->
  (forall rest, prefix pat ("Unmatched opening braces: " ++ rest) = false) ->
  (forall rest, prefix pat ("Unmatched closing braces: " ++ rest) = false) ->
  existsb (prefix pat) (brace_errors content) = false.
Proof.
  intros H1 H2 H3. unfold brace_errors.
  destruct (brace_scan content 0) as [n broke].
  destruct broke, (n >? 0)%Z, (n <? 0)%Z; cbn [app existsb];
    rewrite ?H1, ?H2, ?H3; reflexivity.
Qed.

(** A message of an environment check comes from a name that the opener
    introduces and the closer does not mention. *)
Lemma env_errors_in (opener closer label X content : string) :
  In (label ++ X) (env_errors opener closer label content) <->
  In X (findall_env opener 0 content)
  /\ search_named closer X content = false.
Proof.
  unfold env_errors. rewrite in_flat_map. split.
  - intros (env & Hin & Hmsg).
    destruct (search_named closer env content) eqn:Hs; [destruct Hmsg |].
    destruct Hmsg as [Heq | []]. apply sapp_inj_l in Heq. subst env.
    split; assumption.
  - intros [Hin Hs]. exists X. split; [exact Hin |]. rewrite Hs. now left.
Qed.

Lemma search_named_false (kw X content : string) :
  search_named kw X content = false <-> ~ mentions kw X content.
Proof.
  rewrite <- search_named_spec.
  destruct (search_named kw X content); split; congruence.
Qed.

(** X12: [Unclosed environment: X] is reported exactly when [X] is a
    non-empty name of word characters, the text holds [\begin{X}] and
    holds no [\end{X}] at all (white space allowed before the brace in
    both). *)
Theorem unclosed_message_iff (content X : string) :
  In ("Unclosed environment: " ++ X) (collect_errors content) <->
  X <> "" /\ all_chars is_word X = true
  /\ mentions "\begin" X content /\ ~ mentions "\end" X content.
Proof.
  split.
  - intros Hin. unfold collect_errors in Hin.
    apply in_app_or in Hin as [Hin | Hin].
    { apply (existsb_false_In (prefix "Unc")) in Hin;
        [discriminate Hin | now apply shell_errors_start]. }
    apply in_app_or in Hin as [Hin | Hin].
    { apply (existsb_false_In (prefix "Unc")) in Hin;
        [discriminate Hin |].
      apply brace_errors_start; [reflexivity | intros; reflexivity ..]. }
    apply in_app_or in Hin as [Hin | Hin].
    + apply env_errors_in in Hin as [Hfound Hs].
      apply findall_env_sound in Hfound as (Hm & Hne & Hw).
      apply search_named_false in Hs. tauto.
    + apply (existsb_false_In (prefix "Unc")) in Hin; [discriminate Hin |].
      now apply env_errors_other_start.
  - intros (Hne & Hw & Hm & Hnot).
    unfold collect_errors.
    apply in_or_app; right. apply in_or_app; right. apply in_or_app; left.
    apply (env_errors_reports "\begin" "begin" eq_refl eq_refl); assumption.
Qed.

(** X13: [Environment ended without begin: X] is reported exactly when
    [X] is a non-empty name of word characters, the text holds [\end{X}]
    and holds no [\begin{X}] at all. *)
Theorem unopened_message_iff (content X : string) :
  In ("Environment ended without begin: " ++ X) (collect_errors content) <->
  X <> "" /\ all_chars is_word X = true
  /\ mentions "\end" X content /\ ~ mentions "\begin" X content.
Proof.
  split.
  - intros Hin. unfold collect_errors in Hin.
    apply in_app_or in Hin as [Hin | Hin].
    { apply (existsb_false_In (prefix "Env")) in Hin;
        [discriminate Hin | now apply shell_errors_start]. }
    apply in_app_or in Hin as [Hin | Hin].
    { apply (existsb_false_In (prefix "Env")) in Hin;
        [discriminate Hin |].
      apply brace_errors_start; [reflexivity | intros; reflexivity ..]. }
    apply in_app_or in Hin as [Hin | Hin].
    + apply (existsb_false_In (prefix "Env")) in Hin; [discriminate Hin |].
      now apply env_errors_other_start.
    + apply env_errors_in in Hin as [Hfound Hs].
      apply findall_env_sound in Hfound as (Hm & Hne & Hw).
      apply search_named_false in Hs. tauto.
  - intros (Hne & Hw & Hm & Hnot).
    unfold collect_errors.
    apply in_or_app; right. apply in_or_app; right. apply in_or_app; right.
    apply (env_errors_reports "\end" "end" eq_refl eq_refl); assumption.
Qed.

(** *** What counts as valid *)

Lemma closes_on_line_spec (c : ascii) (s : string) :
  closes_on_line c s = true <->
  exists a b, on_one_line a = true /\ s = a ++ String c b.
Proof.
  split.
  - induction s as [| x s IH]; cbn [closes_on_line]; [discriminate |].
    destruct (Ascii.eqb_spec x c) as [-> | Hx].
    + intros _. exists "", s. split; reflexivity.
    + destruct (is_newline x) eqn:Hnl; [discriminate |].
      intros H. destruct (IH H) as (a & b & Ha & ->).
      exists (String x a), b. split; [| reflexivity].
      unfold on_one_line in *. cbn. now rewrite Hnl.
  - intros (a & b & Ha & ->). induction a as [| x a IH]; cbn [append closes_on_line].
    + now rewrite Ascii.eqb_refl.
    + unfold on_one_line in Ha. cbn in Ha.
      apply andb_true_iff in Ha as [Hx Ha]. apply negb_true_iff in Hx.
      destruct (Ascii.eqb x c); [reflexivity |]. rewrite Hx. exact (IH Ha).
Qed.

Lemma braced_here_spec (s : string) :
  braced_here s = true <->
  exists arg post, on_one_line arg = true /\ s = "{" ++ arg ++ "}" ++ post.
Proof.
  split.
  - destruct s as [| x s]; [discriminate |]. cbn [braced_here].
    destruct (Ascii.eqb_spec x "{") as [-> | Hx].
    + intros H. apply closes_on_line_spec in H as (a & b & Ha & ->).
      exists a, b. split; [exact Ha | reflexivity].
    + intros H. exfalso. revert H. clear -Hx.
      destruct x as [[] [] [] [] [] [] [] []]; try discriminate.
      now contradiction Hx.
  - intros (arg & post & Ha & ->).
    change (braced_here ("{" ++ arg ++ "}" ++ post))
      with (closes_on_line "}" (arg ++ String "}" post)).
    apply closes_on_line_spec. exists arg, post. split; [exact Ha | reflexivity].
Qed.

Lemma bracket_then_braced_spec (s : string) :
  bracket_then_braced s = true <->
  exists o rest,
    on_one_line o = true /\ s = o ++ "]" ++ rest
    /\ braced_here (skip_spaces rest) = true.
Proof.
  split.
  - induction s as [| x s IH]; cbn [bracket_then_braced]; [discriminate |].
    destruct (Ascii.eqb_spec x "]") as [-> | Hx].
    + intros H. apply orb_true_iff in H as [H | H].
      * exists "", s. split; [reflexivity | split; [reflexivity | exact H]].
      * destruct (IH H) as (o & rest & Ho & -> & Hb).
        exists (String "]" o), rest. split; [| split; [reflexivity | exact Hb]].
        unfold on_one_line in *. cbn [all_chars]. now rewrite Ho.
    + destruct (is_newline x) eqn:Hnl; [discriminate |].
      intros H. destruct (IH H) as (o & rest & Ho & -> & Hb).
      exists (String x o), rest. split; [| split; [reflexivity | exact Hb]].
      unfold on_one_line in *. cbn [all_chars]. now rewrite Hnl.
  - intros (o & rest & Ho & -> & Hb).
    induction o as [| x o IH]; cbn [append bracket_then_braced].
    + change (Ascii.eqb "]" "]") with true. cbv iota. rewrite Hb. reflexivity.
    + unfold on_one_line in Ho. cbn [all_chars] in Ho.
      apply andb_true_iff in Ho as [Hx Ho]. apply negb_true_iff in Hx.
      specialize (IH Ho). cbn [append] in IH.
      destruct (Ascii.eqb x "]"); [rewrite IH; apply orb_true_r |].
      rewrite Hx. exact IH.
Qed.

Lemma skip_spaces_idem (s : string) : skip_spaces (skip_spaces s) = skip_spaces s.
Proof.
  induction s as [| x s IH]; [reflexivity |]. cbn [skip_spaces].
  destruct (is_space x) eqn:Hx; [exact IH |]. cbn [skip_spaces]. now rewrite Hx.
Qed.

Lemma match_documentclass_spec (s : string) :
  match_documentclass s = true <->
  exists ws opt ws' arg post,
    all_chars is_space ws = true
    /\ all_chars is_space ws' = true
    /\ (opt = "" \/ exists o, opt = "[" ++ o ++ "]" /\ on_one_line o = true)
    /\ on_one_line arg = true
    /\ s = "\documentclass" ++ ws ++ opt ++ ws' ++ "{" ++ arg ++ "}" ++ post.
Proof.
  unfold match_documentclass. split.
  - destruct (strip_prefix "\documentclass" s) as [r |] eqn:Hkw; [| discriminate].
    apply strip_prefix_inv in Hkw. subst s.
    destruct (skip_spaces_split r) as (ws & Hws & Hr).
    cbv zeta. intros H. apply orb_true_iff in H as [H | H].
    + apply braced_here_spec in H as (arg & post & Harg & Ht).
      exists ws, "", "", arg, post. repeat split; auto.
      rewrite Hr at 1. rewrite Ht. reflexivity.
    + destruct (skip_spaces r) as [| b t'] eqn:Ht; [discriminate |].
      destruct (Ascii.eqb_spec b "[") as [-> | Hb].
      * apply bracket_then_braced_spec in H as (o & rest & Ho & -> & Hbr).
        destruct (skip_spaces_split rest) as (ws' & Hws' & Hrest).
        apply braced_here_spec in Hbr as (arg & post & Harg & Hbr).
        exists ws, ("[" ++ o ++ "]"), ws', arg, post.
        repeat split; auto; [right; exists o; auto |].
        rewrite Hr at 1. rewrite Hrest at 1. rewrite Hbr.
        cbn [append]. rewrite !sapp_assoc. reflexivity.
      * exfalso. revert H. clear -Hb.
        destruct b as [[] [] [] [] [] [] [] []]; try discriminate.
        now contradiction Hb.
  - intros (ws & opt & ws' & arg & post & Hws & Hws' & Hopt & Harg & ->).
    rewrite strip_prefix_app, (skip_spaces_app _ _ Hws). cbv zeta.
    destruct Hopt as [-> | (o & -> & Ho)].
    + cbn [append]. rewrite (skip_spaces_app _ _ Hws').
      change (skip_spaces ("{" ++ arg ++ "}" ++ post))
        with ("{" ++ arg ++ "}" ++ post).
      apply orb_true_iff. left. apply braced_here_spec.
      exists arg, post. split; [exact Harg | reflexivity].
    + change (skip_spaces (("[" ++ o ++ "]") ++ ws' ++ "{" ++ arg ++ "}" ++ post))
        with (String "[" ((o ++ "]") ++ ws' ++ "{" ++ arg ++ "}" ++ post)).
      apply orb_true_iff. right. apply bracket_then_braced_spec.
      exists o, (ws' ++ "{" ++ arg ++ "}" ++ post).
      split; [exact Ho |]. split; [now rewrite sapp_assoc |].
      rewrite (skip_spaces_app _ _ Hws').
      change (skip_spaces ("{" ++ arg ++ "}" ++ post))
        with ("{" ++ arg ++ "}" ++ post).
      apply braced_here_spec.
      exists arg, post. split; [exact Harg | reflexivity].
Qed.

Lemma search_documentclass_unfold (s : string) :
  search_documentclass s
  = match_documentclass s
    || match s with
       | "" => false
       | String _ s' => search_documentclass s'
       end.
Proof. destruct s; reflexivity. Qed.

(** [re.search] finds the class declaration exactly when the text has one. *)
Lemma search_documentclass_spec (content : string) :
  search_documentclass content = true <-> has_documentclass content.
Proof.
  unfold has_documentclass. split.
  - induction content as [| x s IH]; rewrite search_documentclass_unfold;
      intros H; apply orb_true_iff in H as [H | H]; try discriminate.
    + apply match_documentclass_spec in H
        as (ws & opt & ws' & arg & post & H1 & H2 & H3 & H4 & Hs).
      exists "", ws, opt, ws', arg, post. repeat split; auto.
    + destruct (IH H) as (pre & ws & opt & ws' & arg & post & H1 & H2 & H3 & H4 & ->).
      exists (String x pre), ws, opt, ws', arg, post. repeat split; auto.
  - intros (pre & ws & opt & ws' & arg & post & H1 & H2 & H3 & H4 & ->).
    assert (Hhere : match_documentclass
                      ("\documentclass" ++ ws ++ opt ++ ws' ++ "{" ++ arg
                       ++ "}" ++ post) = true).
    { apply match_documentclass_spec. exists ws, opt, ws', arg, post. auto. }
    set (tag := "\documentclass" ++ ws ++ opt ++ ws' ++ "{" ++ arg ++ "}" ++ post)
      in *.
    induction pre as [| x pre IH]; rewrite search_documentclass_unfold;
      cbn [append].
    + now rewrite Hhere.
    + rewrite IH. apply orb_true_r.
Qed.

Lemma shell_errors_nil (content : string) :
  shell_errors content = [] <->
  has_documentclass content
  /\ mentions "\begin" "document" content
  /\ mentions "\end" "document" content.
Proof.
  rewrite <- search_documentclass_spec, <- !search_named_spec.
  unfold shell_errors.
  destruct (search_documentclass content),
    (search_named "\begin" "document" content),
    (search_named "\end" "document" content); cbn; split;
    (discriminate || tauto || (intros (? & ? & ?); discriminate)).
Qed.

Section Pairing.

Variable kw kw' : string.
Hypothesis kw_shape : kw = String "\" kw'.
Hypothesis kw_letters : all_chars not_backslash kw' = true.

(** An environment check is silent exactly when every name that the
    opener introduces is mentioned by the closer. *)
Lemma env_errors_nil (closer label content : string) :
  env_errors kw closer label content = [] <->
  forall X,
    X <> "" -> all_chars is_word X = true ->
    mentions kw X content -> mentions closer X content.
Proof.
  split.
  - intros Hnil X Hne Hw Hm.
    destruct (search_named closer X content) eqn:Hs;
      [now apply search_named_spec |].
    assert (Hin : In (label ++ X) (env_errors kw closer label content)).
    { apply env_errors_in. split; [| exact Hs].
      now apply (findall_env_mentions kw kw' kw_shape kw_letters). }
    rewrite Hnil in Hin. destruct Hin.
  - intros Hall. unfold env_errors.
    assert (Hfound : forall X, In X (findall_env kw 0 content) ->
                               search_named closer X content = true).
    { intros X Hin. apply findall_env_sound in Hin as (Hm & Hne & Hw).
      apply search_named_spec. now apply Hall. }
    induction (findall_env kw 0 content) as [| env l IH]; [reflexivity |].
    cbn [flat_map]. rewrite (Hfound env) by now left.
    apply IH. intros X Hin. apply Hfound. now right.
Qed.

End Pairing.

(** The list of errors is empty exactly for the well-formed texts. *)
Lemma collect_errors_nil (content : string) :
  collect_errors content = [] <-> well_formed content.
Proof.
  unfold collect_errors, well_formed, environments_paired,
    unclosed_errors, unopened_errors.
  split.
  - intros H.
    apply app_eq_nil in H as [Hshell H].
    apply app_eq_nil in H as [Hbrace H].
    apply app_eq_nil in H as [Hunclosed Hunopened].
    apply shell_errors_nil in Hshell as (H1 & H2 & H3).
    apply brace_errors_nil in Hbrace as (H4 & H5).
    pose proof (proj1 (env_errors_nil "\begin" "begin" eq_refl eq_refl _ _ _)
                  Hunclosed) as H6.
    pose proof (proj1 (env_errors_nil "\end" "end" eq_refl eq_refl _ _ _)
                  Hunopened) as H7.
    repeat split; auto.
  - intros (H1 & H2 & H3 & H4 & H5 & H6).
    rewrite (proj2 (shell_errors_nil content)) by auto.
    rewrite (proj2 (brace_errors_nil content)) by auto.
    rewrite (proj2 (env_errors_nil "\begin" "begin" eq_refl eq_refl "\end" _ content))
      by (intros X Hne Hw; apply H6; assumption).
    rewrite (proj2 (env_errors_nil "\end" "end" eq_refl eq_refl "\begin" _ content))
      by (intros X Hne Hw; apply H6; assumption).
    reflexivity.
Qed.

(** X14: the validator's verdict, in full.  A text is reported valid
    exactly when it has a [\documentclass{...}] with its arguments on one
    line, a [\begin{document}] and an [\end{document}], its braces never
    over-close and balance in the end, and every environment name of word
    characters that is begun somewhere is ended somewhere and the other
    way round; [error_message] is absent exactly for the valid texts. *)
Theorem valid_iff_well_formed (disk : string -> source_file)
    (file_path : string) (quick strict : bool) (content : string)
    (r : ValidationResult) :
  disk file_path = Text content ->
  validate_latex disk (Some file_path) quick strict = Returned r ->
  (is_valid r = true <-> well_formed content)
  /\ (error_message r = None <-> is_valid r = true)
  /\ errors r = collect_errors content.
Proof.
  intros Hdisk Hcall. unfold validate_latex in Hcall.
  destruct file_path as [| c p]; [discriminate |].
  destruct (quick && strict); [discriminate |].
  rewrite Hdisk in Hcall. injection Hcall as <-. cbn [is_valid error_message errors].
  rewrite <- collect_errors_nil.
  destruct (collect_errors content) as [| e l]; cbn.
  - repeat split; auto.
  - repeat split; intros; discriminate.
Qed.

Lemma valid_iff_well_formed_witness :
  (true = true <->
   well_formed "\documentclass[a4paper]{article}\begin{document}{x}\end{document}")
  /\ (@None string = None <-> true = true)
  /\ @nil string
     = collect_errors
         "\documentclass[a4paper]{article}\begin{document}{x}\end{document}".
Proof.
  exact (valid_iff_well_formed
           (fun _ => Text "\documentclass[a4paper]{article}\begin{document}{x}\end{document}")
           "paper.tex" false false _ _ eq_refl eq_refl).
Defined.

End ValidateExtra.


(** ** More on compilation *)

Module CompileExtra.
Import Compile CompileFacts.

(** Every result that the [try] block builds is either a success with the
    PDF's path and no message, or a failure with a message and no path;
    both carry the log. *)
Lemma run_and_report_shape (w : World) (tex_file output_path pdf_path : Path)
    (timeout : option Z) (r : CompilationResult) :
  run_and_report w tex_file output_path pdf_path timeout = Returned r ->
  log_content r <> None
  /\ ((success r = true /\ Compile.output_path r = Some (str pdf_path)
       /\ error_message r = None)
      \/ (success r = false /\ Compile.output_path r = None
          /\ error_message r <> None)).
Proof.
  unfold run_and_report.
  destruct (run w _ timeout _) as [p | e]; [| discriminate]. cbn [bind].
  destruct ((returncode p =? 0)%Z && exists_after_run w pdf_path);
    intros [= <-]; cbn; (split; [discriminate |]).
  - left. repeat split.
  - right. repeat split. discriminate.
Qed.

Lemma handle_shape (timeout : option Z) (e : exn) :
  success (handle timeout e) = false
  /\ output_path (handle timeout e) = None
  /\ error_message (handle timeout e) <> None
  /\ log_content (handle timeout e) = None.
Proof.
  unfold handle. destruct (exn_cls e); cbn; repeat split; discriminate.
Qed.

(** X15: the fields of a returned result agree with one another.  A
    result reports success exactly when it names an output file, exactly
    when it carries no error message; the file it names is the expected
    PDF; and the log is missing exactly when the compiler process could
    not be run to its end. *)
Theorem result_fields_agree (w : World) (tex_path : string)
    (output_dir : option string) (timeout : option Z) (r : CompilationResult) :
  compile_latex w (Some tex_path) output_dir timeout = Returned r ->
  let tex_file := Path_of tex_path in
  let output_path := resolve_output tex_file output_dir in
  (success r = true <-> Compile.output_path r <> None)
  /\ (success r = true <-> error_message r = None)
  /\ (success r = true ->
      Compile.output_path r = Some (str (expected_pdf tex_file output_dir)))
  /\ (log_content r = None <->
      exists e,
        run w (pdflatex_cmd tex_file output_path) timeout (str output_path)
        = Raised e).
Proof.
  intros Hcall tex_file output_path. unfold compile_latex in Hcall.
  destruct tex_path as [| c t]; [discriminate |].
  fold tex_file in Hcall.
  destruct (exists_at_entry w tex_file); [| discriminate].
  cbn [negb] in Hcall. fold output_path in Hcall.
  destruct (mkdir_parents w output_path); [discriminate |].
  unfold expected_pdf. fold tex_file output_path.
  set (pdf_path := joinpath output_path (stem tex_file ++ ".pdf")) in *.
  destruct (run_and_report w tex_file output_path pdf_path timeout)
    as [r' | e] eqn:Hrr; injection Hcall as <-.
  - destruct (run_and_report_shape _ _ _ _ _ _ Hrr) as (Hlog & Hshape).
    assert (Hran : forall e,
               run w (pdflatex_cmd tex_file output_path) timeout (str output_path)
               <> Raised e).
    { intros e He. unfold run_and_report in Hrr. rewrite He in Hrr.
      discriminate. }
    destruct Hshape as [(Hs & Ho & He) | (Hs & Ho & He)];
      rewrite Hs, Ho; repeat split; try congruence;
      try (intros (e & Hrun); now apply Hran in Hrun).
  - destruct (handle_shape timeout e) as (Hs & Ho & He & Hl).
    rewrite Hs, Ho, Hl. repeat split; try congruence.
    intros _. unfold run_and_report in Hrr.
    destruct (run w (pdflatex_cmd tex_file output_path) timeout (str output_path))
      as [p | e'] eqn:Hrun.
    + cbn [bind] in Hrr.
      destruct ((returncode p =? 0)%Z && exists_after_run w pdf_path);
        discriminate.
    + now exists e'.
Qed.

Lemma result_fields_agree_witness :
  true = true <-> Some "/w/paper.pdf" <> None.
Proof.
  exact (proj1 (result_fields_agree (Examples.compiler_world 0 true)
                  "/w/paper.tex" None None _ eq_refl)).
Defined.

(** X16: what [compile_latex] raises.  An exception leaves the function
    in three cases only: the path is absent or empty, the file does not
    exist when the call starts, or the output directory could not be
    created; whatever goes wrong once the compiler has been started comes
    back as a result.  The message for an absent path is the one for an
    empty path. *)
Theorem raises_only_before_the_run (w : World) (tex_path : option string)
    (output_dir : option string) (timeout : option Z) (e : exn) :
  compile_latex w tex_path output_dir timeout = Raised e ->
  ((tex_path = None \/ tex_path = Some "")
   /\ e = Exn CompilationError "LaTeX file path cannot be empty")
  \/ (exists p,
        tex_path = Some p /\ exists_at_entry w (Path_of p) = false
        /\ e = Exn CompilationError ("LaTeX file not found: " ++ p))
  \/ (exists p,
        tex_path = Some p /\ exists_at_entry w (Path_of p) = true
        /\ mkdir_parents w (resolve_output (Path_of p) output_dir) = Some e).
Proof.
  unfold compile_latex. destruct tex_path as [[| c t] |].
  - intros [= <-]. left. split; [now right | reflexivity].
  - set (p := String c t).
    destruct (exists_at_entry w (Path_of p)) eqn:Hex; cbn [negb].
    + destruct (mkdir_parents w (resolve_output (Path_of p) output_dir))
        as [e' |] eqn:Hmk.
      * intros [= <-]. right. right. exists p. repeat split; assumption.
      * destruct (run_and_report w _ _ _ timeout); discriminate.
    + intros [= <-]. right. left. exists p. repeat split. exact Hex.
  - intros [= <-]. left. split; [now left | reflexivity].
Qed.

Lemma raises_only_before_the_run_witness :
  ((@None string = None \/ @None string = Some "")
   /\ Exn CompilationError "LaTeX file path cannot be empty"
      = Exn CompilationError "LaTeX file path cannot be empty")
  \/ (exists p,
        None = Some p
        /\ exists_at_entry (Examples.compiler_world 0 true) (Path_of p) = false
        /\ Exn CompilationError "LaTeX file path cannot be empty"
           = Exn CompilationError ("LaTeX file not found: " ++ p))
  \/ (exists p,
        None = Some p
        /\ exists_at_entry (Examples.compiler_world 0 true) (Path_of p) = true
        /\ mkdir_parents (Examples.compiler_world 0 true)
             (resolve_output (Path_of p) None)
           = Some (Exn CompilationError "LaTeX file path cannot be empty")).
Proof.
  exact (raises_only_before_the_run (Examples.compiler_world 0 true)
           None None None _ eq_refl).
Defined.

End CompileExtra.


(** ** More on PDF dates *)

Module PdfInfoExtra.
Import PdfInfo Notions PdfInfoFacts.

Lemma append_length (a b : string) :
  String.length (a ++ b) = String.length a + String.length b.
Proof. induction a as [| c a IH]; cbn; [reflexivity | now rewrite IH]. Qed.

Lemma append_assoc (a b c : string) : (a ++ b) ++ c = a ++ b ++ c.
Proof. induction a as [| x a IH]; cbn; [reflexivity | now rewrite IH]. Qed.

Lemma substring_length (s : string) :
  forall n m, String.length (substring n m s) = Nat.min m (String.length s - n).
Proof.
  induction s as [| c s IH]; intros [| n] [| m]; cbn; try reflexivity.
  - now rewrite IH, Nat.sub_0_r.
  - now rewrite IH.
  - now rewrite IH.
Qed.

Lemma slice_length (a b : nat) (s : string) :
  b <= String.length s -> String.length (slice a b s) = b - a.
Proof. intros H. unfold slice. rewrite substring_length. lia. Qed.

Lemma substring_app_l (a : string) :
  forall n m b,
    n + m <= String.length a -> substring n m (a ++ b) = substring n m a.
Proof.
  induction a as [| c a IH]; intros [| n] [| m] b H; cbn in *;
    try reflexivity; try lia.
  - destruct b; reflexivity.
  - f_equal. apply IH. cbn. lia.
  - apply IH. lia.
  - apply IH. lia.
Qed.

Lemma slice_app_l (x y : nat) (a b : string) :
  x <= y -> y <= String.length a -> slice x y (a ++ b) = slice x y a.
Proof. intros Hxy Hy. unfold slice. apply substring_app_l. lia. Qed.

Lemma substring_whole (s : string) : substring 0 (String.length s) s = s.
Proof. induction s as [| c s IH]; cbn; [reflexivity | now rewrite IH]. Qed.

Lemma slice_from_app (a b : string) : slice_from (String.length a) (a ++ b) = b.
Proof.
  unfold slice_from. rewrite append_length.
  replace (String.length a + String.length b - String.length a)
    with (String.length b) by lia.
  induction a as [| c a IH]; cbn [String.length append substring].
  - apply substring_whole.
  - exact IH.
Qed.

Lemma startswith_char (c : ascii) (s : string) :
  startswith (String c "") s = true <-> exists s', s = String c s'.
Proof.
  unfold startswith. destruct s as [| x s]; cbn.
  - split; [discriminate | intros (s' & H); discriminate].
  - destruct (ascii_dec c x) as [-> | Hne].
    + split; [eauto | intros _; now destruct s].
    + split; [discriminate | intros (s' & [= H _]); congruence].
Qed.

(** The time-zone part that the [try] block builds from what follows the
    first fourteen characters. *)
Lemma format_body_full (s : string) :
  14 <= String.length s ->
  exists tz,
    format_body s = Returned (Some (iso_date s ++ "T" ++ iso_time s ++ tz))
    /\ ((signed (slice_from 14 s) = false /\ tz = "Z")
        \/ (exists sign hh mm,
              slice_from 14 s = String sign (slice_from 15 s)
              /\ signed (slice_from 14 s) = true
              /\ String.length hh = 2 /\ String.length mm = 2
              /\ tz = String sign (hh ++ ":" ++ mm))).
Proof.
  intros Hlen. unfold format_body.
  destruct (Nat.leb_spec 14 (String.length s)); [| lia].
  assert (Hout : forall tz,
             slice 0 4 s ++ "-" ++ slice 4 6 s ++ "-" ++ slice 6 8 s ++ "T"
             ++ slice 8 10 s ++ ":" ++ slice 10 12 s ++ ":" ++ slice 12 14 s ++ tz
             = iso_date s ++ "T" ++ iso_time s ++ tz).
  { intros tz. unfold iso_date, iso_time. now rewrite !append_assoc. }
  destruct (Nat.ltb_spec 14 (String.length s)) as [Hlong | Hshort].
  - fold (signed (slice_from 14 s)).
    destruct (signed (slice_from 14 s)) eqn:Hsigned.
    + set (tz := slice_from 14 s) in *.
      assert (Htz : String.length tz = String.length s - 14).
      { unfold tz, slice_from. rewrite substring_length. lia. }
      destruct tz as [| c tz'] eqn:Etz.
      { unfold signed in Hsigned. cbn in Hsigned. discriminate. }
      rewrite getitem_first. cbn [bind].
      set (hh := if (2 <? String.length (String c tz'))%nat
                 then slice 1 3 (String c tz') else "00").
      assert (Hhh : String.length hh = 2).
      { unfold hh. destruct (Nat.ltb_spec 2 (String.length (String c tz')));
          [| reflexivity].
        rewrite slice_length; lia. }
      assert (Htail : exists mm,
                 String.length mm = 2
                 /\ (if contains "'" (String c tz')
                     then i <- str_index "'" (String c tz') ;;
                          if (i + 2 <? String.length (String c tz'))%nat
                          then j <- str_index "'" (String c tz') ;;
                               k <- str_index "'" (String c tz') ;;
                               Returned (slice (j + 1) (k + 3) (String c tz'))
                          else Returned "00"
                     else Returned "00") = Returned mm).
      { unfold contains, str_index.
        destruct (index 0 "'" (String c tz')) as [i |]; cbn [bind].
        - destruct (Nat.ltb_spec (i + 2) (String.length (String c tz'))).
          + cbn [bind]. eexists. split; [| reflexivity].
            rewrite slice_length; lia.
          + exists "00". split; reflexivity.
        - exists "00". split; reflexivity. }
      destruct Htail as (mm & Hmm & ->). cbn [bind].
      exists (String c (hh ++ ":" ++ mm)). split.
      * change ((String c "") ++ hh ++ ":" ++ mm) with (String c (hh ++ ":" ++ mm)).
        now rewrite Hout.
      * right. exists c, hh, mm. repeat split; auto.
        f_equal. unfold slice_from in *.
        assert (H15 : forall t n, substring 14 (S n) t = String c tz' ->
                                  substring 15 n t = tz').
        { clear. intros t. do 14 (destruct t as [| ? t]; [discriminate |]).
          cbn. destruct t; [discriminate |]. intros n [= _ H]. exact H. }
        symmetry. apply H15.
        replace (S (String.length s - 15)) with (String.length s - 14) by lia.
        exact Etz.
    + cbn [bind]. exists "Z". split; [now rewrite Hout | now left].
  - cbn [bind]. exists "Z". split; [now rewrite Hout |]. left. split; [| reflexivity].
    assert (Hempty : slice_from 14 s = "").
    { assert (String.length (slice_from 14 s) = 0).
      { unfold slice_from. rewrite substring_length. lia. }
      destruct (slice_from 14 s); [reflexivity | discriminate]. }
    now rewrite Hempty.
Qed.

Lemma format_body_date_only (s : string) :
  8 <= String.length s < 14 ->
  format_body s = Returned (Some (iso_date s ++ "T00:00:00Z")).
Proof.
  intros Hlen. unfold format_body.
  destruct (Nat.leb_spec 14 (String.length s)); [lia |].
  destruct (Nat.leb_spec 8 (String.length s)); [| lia].
  unfold iso_date. now rewrite !append_assoc.
Qed.

Lemma format_pdf_date_unfold (raw : string) :
  raw <> "" ->
  _format_pdf_date (Some raw)
  = match format_body (stripped raw) with
    | Returned r => r
    | Raised _ => Some (stripped raw)
    end.
Proof. destruct raw; [congruence | reflexivity]. Qed.

Lemma stripped_empty : stripped "" = "".
Proof. reflexivity. Qed.

(** X17: when there is no date.  [_format_pdf_date] gives no date
    exactly when its argument is absent or fewer than eight characters
    are left once a leading [D:] is dropped. *)
Theorem no_date_iff_short (pdf_date : option string) :
  _format_pdf_date pdf_date = None <->
  (pdf_date = None
   \/ exists raw, pdf_date = Some raw /\ String.length (stripped raw) < 8).
Proof.
  destruct pdf_date as [raw |].
  - split.
    + intros H. right. exists raw. split; [reflexivity |].
      destruct raw as [| c raw']; [cbn; lia |].
      rewrite format_pdf_date_unfold in H by discriminate.
      destruct (Nat.lt_ge_cases (String.length (stripped (String c raw'))) 8)
        as [Hlt | Hge]; [exact Hlt | exfalso].
      destruct (Nat.lt_ge_cases (String.length (stripped (String c raw'))) 14)
        as [Hlt14 | Hge14].
      * rewrite format_body_date_only in H by lia. discriminate.
      * destruct (format_body_full _ Hge14) as (tz & Hb & _).
        rewrite Hb in H. discriminate.
    + intros [H | (raw' & [= <-] & Hlen)]; [discriminate |].
      now apply format_pdf_date_short.
  - split; [now left | reflexivity].
Qed.

Lemma iso_date_length (s : string) :
  8 <= String.length s -> String.length (iso_date s) = 10.
Proof.
  intros H. unfold iso_date.
  rewrite !append_length, !slice_length by lia. reflexivity.
Qed.

Lemma iso_time_length (s : string) :
  14 <= String.length s -> String.length (iso_time s) = 8.
Proof.
  intros H. unfold iso_time.
  rewrite !append_length, !slice_length by lia. reflexivity.
Qed.

Lemma get_app_l (a b : string) (n : nat) :
  n < String.length a -> get n (a ++ b) = get n a.
Proof.
  revert n. induction a as [| c a IH]; intros n H; cbn in H; [lia |].
  destruct n; [reflexivity |]. cbn. apply IH. lia.
Qed.

Lemma get_app_r (a b : string) (n : nat) :
  get (String.length a + n) (a ++ b) = get n b.
Proof. induction a as [| c a IH]; [reflexivity | exact IH]. Qed.

Lemma iso_date_dashes (s : string) :
  8 <= String.length s ->
  get 4 (iso_date s) = Some "-"%char /\ get 7 (iso_date s) = Some "-"%char.
Proof.
  intros H. unfold iso_date.
  pose proof (slice_length 0 4 s ltac:(lia)) as HY.
  pose proof (slice_length 4 6 s ltac:(lia)) as HM.
  destruct (slice 0 4 s) as [| y1 [| y2 [| y3 [| y4 [| ? ?]]]]];
    try discriminate HY.
  destruct (slice 4 6 s) as [| m1 [| m2 [| ? ?]]]; try discriminate HM.
  split; reflexivity.
Qed.

(** X18: the shape of a formatted date.  Whatever the input, a date that
    [_format_pdf_date] returns has twenty characters and ends in [Z], or
    has twenty-five and ends in a signed offset [hh:mm]; its fifth and
    eighth characters are dashes and its eleventh is [T]. *)
Theorem formatted_date_shape (pdf_date : option string) (out : string) :
  _format_pdf_date pdf_date = Some out ->
  get 4 out = Some "-"%char /\ get 7 out = Some "-"%char
  /\ get 10 out = Some "T"%char
  /\ ((String.length out = 20 /\ get 19 out = Some "Z"%char)
      \/ (String.length out = 25 /\ get 22 out = Some ":"%char
          /\ (get 19 out = Some "+"%char \/ get 19 out = Some "-"%char))).
Proof.
  destruct pdf_date as [raw |]; [| discriminate].
  destruct raw as [| c raw']; [discriminate |].
  rewrite format_pdf_date_unfold by discriminate.
  set (s := stripped (String c raw')).
  destruct (Nat.lt_ge_cases (String.length s) 8) as [Hlt | Hge].
  { unfold format_body.
    destruct (Nat.leb_spec 14 (String.length s)); [lia |].
    destruct (Nat.leb_spec 8 (String.length s)); [lia | discriminate]. }
  pose proof (iso_date_length s Hge) as Hd.
  destruct (iso_date_dashes s Hge) as [H4 H7].
  assert (Hhead : forall rest,
             get 4 (iso_date s ++ rest) = Some "-"%char
             /\ get 7 (iso_date s ++ rest) = Some "-"%char).
  { intros rest. rewrite !get_app_l by lia. now split. }
  assert (Hat : forall n rest, get (10 + n) (iso_date s ++ rest) = get n rest).
  { intros n rest. rewrite <- Hd. apply get_app_r. }
  destruct (Nat.lt_ge_cases (String.length s) 14) as [Hlt14 | Hge14].
  - rewrite format_body_date_only by lia. intros [= <-].
    destruct (Hhead "T00:00:00Z") as [-> ->].
    rewrite (Hat 0 _ : get 10 _ = _), (Hat 9 _ : get 19 _ = _), append_length, Hd.
    repeat split. left. split; reflexivity.
  - destruct (format_body_full s Hge14) as (tz & -> & Htz). intros [= <-].
    pose proof (iso_time_length s Hge14) as Ht.
    destruct (Hhead (String "T" (iso_time s ++ tz))) as [-> ->].
    rewrite (Hat 0 _ : get 10 _ = _).
    assert (Hat' : forall n,
               get (19 + n) (iso_date s ++ String "T" (iso_time s ++ tz))
               = get n tz).
    { intros n. change (19 + n) with (10 + (1 + (8 + n))). rewrite Hat.
      pose proof (get_app_r (iso_time s) tz n) as G. rewrite Ht in G.
      exact G. }
    rewrite (Hat' 0 : get 19 _ = _), (Hat' 3 : get 22 _ = _), !append_length.
    cbn [String.length].
    rewrite !append_length, Hd, Ht.
    repeat split.
    destruct Htz as [(_ & ->) | (sign & hh & mm & Hs & Hsigned & Hhh & Hmm & ->)].
    + left. split; reflexivity.
    + right. cbn [String.length]. rewrite !append_length, Hhh, Hmm.
      split; [reflexivity |].
      destruct hh as [| h1 [| h2 [| ? ?]]]; try discriminate Hhh.
      split; [reflexivity |]. cbn [get].
      rewrite Hs in Hsigned. unfold signed in Hsigned.
      apply orb_true_iff in Hsigned as [H | H];
        apply startswith_char in H as (s' & [= -> _]); auto.
Qed.

Lemma formatted_date_shape_witness :
  get 4 "2023-12-01T14:30:00+05:30" = Some "-"%char
  /\ get 7 "2023-12-01T14:30:00+05:30" = Some "-"%char
  /\ get 10 "2023-12-01T14:30:00+05:30" = Some "T"%char
  /\ ((String.length "2023-12-01T14:30:00+05:30" = 20
       /\ get 19 "2023-12-01T14:30:00+05:30" = Some "Z"%char)
      \/ (String.length "2023-12-01T14:30:00+05:30" = 25
          /\ get 22 "2023-12-01T14:30:00+05:30" = Some ":"%char
          /\ (get 19 "2023-12-01T14:30:00+05:30" = Some "+"%char
              \/ get 19 "2023-12-01T14:30:00+05:30" = Some "-"%char))).
Proof.
  exact (formatted_date_shape (Some "D:20231201143000+05'30'") _ eq_refl).
Defined.

(** X19: what follows the time of day counts only if it starts with a
    sign.  A date and time followed by anything that does not begin with
    [+] or [-] is read as UTC, and what follows is dropped. *)
Theorem unsigned_remainder_reads_as_utc (raw stamp rest : string) :
  stripped raw = stamp ++ rest ->
  String.length stamp = 14 ->
  signed rest = false ->
  _format_pdf_date (Some raw)
  = Some (iso_date stamp ++ "T" ++ iso_time stamp ++ "Z").
Proof.
  intros Hraw Hstamp Hrest.
  assert (Hne : raw <> "").
  { intros ->. rewrite stripped_empty in Hraw.
    destruct stamp; discriminate. }
  rewrite format_pdf_date_unfold by exact Hne.
  assert (Hlen : 14 <= String.length (stripped raw)).
  { rewrite Hraw, append_length. lia. }
  destruct (format_body_full _ Hlen) as (tz & -> & Htz).
  assert (Htail : slice_from 14 (stripped raw) = rest).
  { rewrite Hraw, <- Hstamp. apply slice_from_app. }
  rewrite Htail in Htz.
  destruct Htz as [(_ & ->) | (sign & hh & mm & _ & Hsigned & _)];
    [| congruence].
  unfold iso_date, iso_time. rewrite Hraw.
  rewrite !slice_app_l by lia. reflexivity.
Qed.

Lemma unsigned_remainder_reads_as_utc_witness :
  _format_pdf_date (Some "D:20231201143000 CET")
  = Some (iso_date "20231201143000" ++ "T" ++ iso_time "20231201143000" ++ "Z").
Proof.
  apply (unsigned_remainder_reads_as_utc
           "D:20231201143000 CET" "20231201143000" " CET");
    reflexivity.
Defined.

End PdfInfoExtra.


(** ** The validator's warnings *)

Module ValidateWarningsFacts.
Import Validate ValidateWarnings Spec Notions WarningNotions ValidateFacts.

Lemma search_with_unfold (here : string -> bool) (s : string) :
  search_with here s
  = here s
    || match s with
       | "" => false
       | String _ s' => search_with here s'
       end.
Proof. destruct s; reflexivity. Qed.

(** [re.search] succeeds exactly when the pattern matches at the start of
    some suffix. *)
Lemma search_with_spec (here : string -> bool) (s : string) :
  search_with here s = true <->
  exists pre post, s = pre ++ post /\ here post = true.
Proof.
  split.
  - induction s as [| x s IH]; rewrite search_with_unfold; intros H;
      apply orb_true_iff in H as [H | H]; try discriminate.
    + exists "", "". now split.
    + exists "", (String x s). now split.
    + destruct (IH H) as (pre & post & -> & Hp).
      exists (String x pre), post. now split.
  - intros (pre & post & -> & Hp).
    induction pre as [| x pre IH]; rewrite search_with_unfold; cbn [append].
    + now rewrite Hp.
    + rewrite IH. apply orb_true_r.
Qed.

Lemma starts_with_spec (lit s : string) :
  starts_with lit s = true <-> exists r, s = lit ++ r.
Proof.
  unfold starts_with. split.
  - destruct (strip_prefix lit s) as [r |] eqn:H; [| discriminate].
    intros _. exists r. now apply strip_prefix_inv.
  - intros (r & ->). now rewrite strip_prefix_app.
Qed.

Lemma search_literal_spec (lit s : string) :
  search_literal lit s = true <-> occurs lit s.
Proof.
  unfold search_literal, occurs. rewrite search_with_spec. split.
  - intros (pre & post & -> & H). apply starts_with_spec in H as (r & ->).
    now exists pre, r.
  - intros (pre & post & ->). exists pre, (lit ++ post). split; [reflexivity |].
    apply starts_with_spec. now exists post.
Qed.

Lemma match_use_spec (command s : string) :
  match_use command s = true <->
  (exists r, s = "\" ++ command ++ r)
  \/ (exists ws r,
        all_chars is_space ws = true
        /\ s = "\begin" ++ ws ++ "{" ++ command ++ r).
Proof.
  unfold match_use. split.
  - destruct (strip_prefix "\" s) as [r |] eqn:Hs; [| discriminate].
    apply strip_prefix_inv in Hs. subst s. intros H.
    apply orb_true_iff in H as [H | H].
    + destruct (strip_prefix "begin" r) as [r1 |] eqn:Hb; [| discriminate].
      apply strip_prefix_inv in Hb. subst r.
      destruct (skip_spaces_split r1) as (ws & Hws & Hr1).
      destruct (strip_prefix "{" (skip_spaces r1)) as [r2 |] eqn:Ho;
        [| discriminate].
      apply strip_prefix_inv in Ho.
      apply starts_with_spec in H as (r3 & ->).
      right. exists ws, r3. split; [exact Hws |].
      rewrite Hr1 at 1. rewrite Ho. reflexivity.
    + apply starts_with_spec in H as (r3 & ->). left. now exists r3.
  - intros [(r & ->) | (ws & r & Hws & ->)].
    + rewrite strip_prefix_app.
      apply orb_true_iff. right. apply starts_with_spec. now exists r.
    + change ("\begin" ++ ws ++ "{" ++ command ++ r)
        with ("\" ++ "begin" ++ ws ++ "{" ++ command ++ r).
      rewrite strip_prefix_app, strip_prefix_app, (skip_spaces_app _ _ Hws).
      change (skip_spaces ("{" ++ command ++ r)) with ("{" ++ command ++ r).
      rewrite strip_prefix_app.
      apply orb_true_iff. left. apply starts_with_spec. now exists r.
Qed.

Lemma search_use_spec (command content : string) :
  search_with (match_use command) content = true <-> uses command content.
Proof.
  rewrite search_with_spec. unfold uses, occurs. split.
  - intros (pre & post & -> & H).
    apply match_use_spec in H as [(r & ->) | (ws & r & Hws & ->)].
    + left. exists pre, r. now rewrite sapp_assoc.
    + right. exists ws. split; [exact Hws |]. exists pre, r.
      now rewrite !sapp_assoc.
  - intros [(pre & post & ->) | (ws & Hws & pre & post & ->)].
    + exists pre, (("\" ++ command) ++ post). split; [reflexivity |].
      apply match_use_spec. left. exists post. now rewrite sapp_assoc.
    + exists pre, (("\begin" ++ ws ++ "{" ++ command) ++ post).
      split; [reflexivity |].
      apply match_use_spec. right. exists ws, post. split; [exact Hws |].
      now rewrite !sapp_assoc.
Qed.

Lemma later_on_line_unfold (lit s : string) :
  later_on_line lit s
  = starts_with lit s
    || match s with
       | "" => false
       | String c s' => if is_newline c then false else later_on_line lit s'
       end.
Proof. destruct s; reflexivity. Qed.

Lemma later_on_line_spec (lit s : string) :
  later_on_line lit s = true <->
  exists mid post, on_one_line mid = true /\ s = mid ++ lit ++ post.
Proof.
  split.
  - induction s as [| x s IH]; rewrite later_on_line_unfold; intros H;
      apply orb_true_iff in H as [H | H]; try discriminate.
    + apply starts_with_spec in H as (r & Hr). exists "", r. now split.
    + apply starts_with_spec in H as (r & Hr). exists "", r. now split.
    + destruct (is_newline x) eqn:Hx; [discriminate |].
      destruct (IH H) as (mid & post & Hmid & ->).
      exists (String x mid), post. split; [| reflexivity].
      unfold on_one_line in *. cbn [all_chars]. now rewrite Hx.
  - intros (mid & post & Hmid & ->).
    induction mid as [| x mid IH]; rewrite later_on_line_unfold; cbn [append].
    + replace (starts_with lit (lit ++ post)) with true; [reflexivity |].
      symmetry. apply starts_with_spec. now exists post.
    + unfold on_one_line in Hmid. cbn [all_chars] in Hmid.
      apply andb_true_iff in Hmid as [Hx Hmid]. apply negb_true_iff in Hx.
      rewrite Hx, (IH Hmid). apply orb_true_r.
Qed.

Lemma search_load_spec (package content : string) :
  search_with (match_load package) content = true <-> loads package content.
Proof.
  rewrite search_with_spec. unfold loads, match_load. split.
  - intros (pre & post & -> & H).
    destruct (strip_prefix "\usepackage" post) as [r |] eqn:Hp; [| discriminate].
    apply strip_prefix_inv in Hp. subst post.
    apply later_on_line_spec in H as (mid & rest & Hmid & ->).
    exists pre, mid, rest. split; [exact Hmid |]. now rewrite !sapp_assoc.
  - intros (pre & mid & post & Hmid & ->).
    exists pre, ("\usepackage" ++ mid ++ "{" ++ package ++ post).
    split; [reflexivity |]. rewrite strip_prefix_app.
    apply later_on_line_spec. exists mid, post. split; [exact Hmid |].
    now rewrite !sapp_assoc.
Qed.

Lemma search_open_spec (kw content : string) :
  search_with (match_open kw) content = true <-> opens kw content.
Proof.
  rewrite search_with_spec. unfold opens, occurs, match_open. split.
  - intros (pre & post & -> & H).
    destruct (strip_prefix kw post) as [r |] eqn:Hp; [| discriminate].
    apply strip_prefix_inv in Hp. subst post.
    destruct (skip_spaces_split r) as (ws & Hws & Hr).
    apply starts_with_spec in H as (r' & Hr').
    exists ws. split; [exact Hws |]. exists pre, r'.
    rewrite Hr at 1. rewrite Hr'. now rewrite !sapp_assoc.
  - intros (ws & Hws & pre & post & ->).
    exists pre, ((kw ++ ws ++ "{") ++ post). split; [reflexivity |].
    rewrite !sapp_assoc, strip_prefix_app, (skip_spaces_app _ _ Hws).
    reflexivity.
Qed.

(** Two entries of the table never give the same message. *)
Lemma package_warning_inj (c p c' p' : string) :
  In (c, p) package_commands -> In (c', p') package_commands ->
  package_warning c p = package_warning c' p' -> (c, p) = (c', p').
Proof.
  unfold package_commands. cbn [In]. intros H H' Heq.
  repeat (destruct H as [[= <- <-] | H]);
    try (destruct H);
    repeat (destruct H' as [[= <- <-] | H']);
    try (destruct H');
    (reflexivity || (exfalso; cbv in Heq; discriminate Heq)).
Qed.

Lemma package_warnings_in (msg content : string) :
  In msg (package_warnings content) <->
  exists command package,
    In (command, package) package_commands
    /\ msg = package_warning command package
    /\ search_with (match_use command) content = true
    /\ search_with (match_load package) content = false.
Proof.
  unfold package_warnings. rewrite in_flat_map. split.
  - intros ([command package] & Hin & Hmsg).
    destruct (search_with (match_use command) content) eqn:Hu;
      [| destruct Hmsg].
    destruct (search_with (match_load package) content) eqn:Hl;
      [destruct Hmsg |].
    destruct Hmsg as [<- | []]. exists command, package. auto.
  - intros (command & package & Hin & -> & Hu & Hl).
    exists (command, package). split; [exact Hin |].
    rewrite Hu, Hl. now left.
Qed.

Lemma strict_warnings_start (msg content : string) :
  In msg (strict_warnings content) ->
  prefix "Command" msg = false.
Proof.
  unfold strict_warnings. intros H.
  repeat (apply in_app_or in H as [H | H]);
    match type of H with
    | In _ (if ?b then _ else _) => destruct b
    end;
    try (destruct H as [<- | []]; reflexivity); destruct H.
Qed.

Lemma package_warnings_start (msg content : string) :
  In msg (package_warnings content) -> prefix "Command" msg = true.
Proof.
  intros H. apply package_warnings_in in H as (c & p & _ & -> & _).
  reflexivity.
Qed.

(** X20: when a package warning is issued.  For every entry of the table,
    the warning that names it is in the list exactly when the call is not
    in quick mode, the text uses the command, a backslash or [\begin{]
    followed by its name, and no [\usepackage] is followed on its line by
    an opening brace and the package name of the entry. *)
Theorem package_warning_iff (quick strict : bool)
    (command package content : string) :
  In (command, package) package_commands ->
  (In (package_warning command package) (collect_warnings quick strict content)
   <-> quick = false /\ uses command content /\ ~ loads package content).
Proof.
  intros Hentry. unfold collect_warnings.
  rewrite <- search_use_spec, <- search_load_spec, in_app_iff. split.
  - intros [H | H].
    + destruct quick; [destruct H |]. cbn [negb] in H.
      apply package_warnings_in in H as (c & p & Hin & Heq & Hu & Hl).
      apply package_warning_inj in Heq; [| exact Hentry | exact Hin].
      injection Heq as -> ->. repeat split; [exact Hu | congruence].
    + exfalso. destruct strict; [| destruct H].
      apply strict_warnings_start in H. discriminate H.
  - intros (-> & Hu & Hl). left. cbn [negb].
    apply package_warnings_in. exists command, package.
    repeat split; [exact Hentry | exact Hu |].
    now destruct (search_with (match_load package) content).
Qed.

Lemma package_warning_iff_witness :
  In (package_warning "align" "amsmath")
     (collect_warnings false false "\begin{align}x\end{align}")
  <-> false = false /\ uses "align" "\begin{align}x\end{align}"
      /\ ~ loads "amsmath" "\begin{align}x\end{align}".
Proof.
  apply (package_warning_iff false false "align" "amsmath").
  unfold package_commands. cbn [In]. do 6 right. left. reflexivity.
Defined.

(** X21: a package is seen only right after an opening brace.  If the
    text uses a command of the table and the package name of the entry
    never follows an opening brace, the warning is issued, whatever
    [\usepackage] lines the text has: a package loaded as a later member
    of a list, and each of [url] and [hyperref] for the entry
    [url or hyperref], goes unseen. *)
Theorem package_after_brace_only (strict : bool)
    (command package content : string) :
  In (command, package) package_commands ->
  uses command content ->
  ~ occurs ("{" ++ package) content ->
  In (package_warning command package) (collect_warnings false strict content).
Proof.
  intros Hentry Huses Hnone.
  unfold collect_warnings. apply in_or_app. left. cbn [negb].
  apply package_warnings_in. exists command, package.
  split; [exact Hentry |]. split; [reflexivity |].
  split; [now apply search_use_spec |].
  destruct (search_with (match_load package) content) eqn:Hload;
    [| reflexivity].
  exfalso. apply search_load_spec in Hload as (pre & mid & post & _ & ->).
  apply Hnone.
  exists (pre ++ "\usepackage" ++ mid), post. now rewrite !sapp_assoc.
Qed.

Lemma package_after_brace_only_witness :
  In (package_warning "align" "amsmath")
     (collect_warnings false false
        "\usepackage{amssymb,amsmath}\begin{align}x\end{align}").
Proof.
  apply (package_after_brace_only false "align" "amsmath").
  - unfold package_commands. cbn [In]. do 6 right. left. reflexivity.
  - apply search_use_spec. reflexivity.
  - intros H. apply search_literal_spec in H. discriminate H.
Defined.

(** X22: the three warnings of strict mode.  Each is in the list exactly
    when the call is in strict mode and its condition holds of the text:
    [\title] and [\author] are each followed by an opening brace and
    [\maketitle] occurs nowhere; three line feeds occur in a row; none of
    [\section], [\chapter] and [\subsection] occurs. *)
Theorem strict_warning_iff (quick strict : bool) (content : string) :
  (In "Title and author defined but \maketitle not called"
      (collect_warnings quick strict content)
   <-> strict = true /\ opens "\title" content /\ opens "\author" content
       /\ ~ occurs "\maketitle" content)
  /\ (In "Multiple consecutive blank lines detected"
         (collect_warnings quick strict content)
      <-> strict = true
          /\ occurs (line_feed ++ line_feed ++ line_feed) content)
  /\ (In "No section structure found in document"
         (collect_warnings quick strict content)
      <-> strict = true /\ ~ occurs "\section" content
          /\ ~ occurs "\chapter" content /\ ~ occurs "\subsection" content).
Proof.
  assert (Hpk : forall msg,
             prefix "Command" msg = false ->
             (In msg (collect_warnings quick strict content)
              <-> strict = true /\ In msg (strict_warnings content))).
  { intros msg Hmsg. unfold collect_warnings. rewrite in_app_iff. split.
    - intros [H | H].
      + destruct quick; [destruct H |].
        apply package_warnings_start in H. congruence.
      + destruct strict; [now split | destruct H].
    - intros (-> & H). now right. }
  rewrite !Hpk by reflexivity.
  rewrite <- !search_open_spec, <- !search_literal_spec.
  unfold strict_warnings.
  destruct (search_with (match_open "\title") content),
    (search_with (match_open "\author") content),
    (search_literal "\maketitle" content),
    (search_literal (line_feed ++ line_feed ++ line_feed) content),
    (search_literal "\section" content),
    (search_literal "\chapter" content),
    (search_literal "\subsection" content); cbn;
    (split; [| split]); split;
    try (intros (-> & H); intuition (discriminate || congruence));
    try (intros H; split; [reflexivity |]);
    intuition (discriminate || congruence).
Qed.

(** X23: quick mode gives no warnings.  The package check is skipped in
    quick mode and the style checks need strict mode, which a quick call
    cannot ask for. *)
Theorem quick_mode_has_no_warnings (disk : string -> source_file)
    (file_path : option string) (strict : bool) (ws : list string) :
  validate_latex_warnings disk file_path true strict = Returned ws -> ws = [].
Proof.
  unfold validate_latex_warnings, validate_latex.
  destruct file_path as [[| c p] |]; try discriminate.
  destruct strict; [discriminate |]. cbn [andb].
  destruct (disk (String c p)); try discriminate.
  cbn [bind]. intros [= <-]. reflexivity.
Qed.

Lemma quick_mode_has_no_warnings_witness :
  @nil string = [].
Proof.
  exact (quick_mode_has_no_warnings
           (fun _ => Text "\begin{align}x\end{align}")
           (Some "paper.tex") false [] eq_refl).
Defined.

End ValidateWarningsFacts.


(** ** Reading a PDF *)

Module PdfInfoReaderFacts.
Import PdfInfoReader.

Section Reader.

Variable num : Type.
Variable letter_width letter_height : num.

(** A loop over the pages adds one item for every page. *)
Lemma for_pages_length {A : Type} (f : Page num -> attempt A) (fallback : A)
    (walk : list (attempt (Page num))) :
  forall acc l,
    for_pages f fallback walk acc = Got l ->
    List.length l = List.length acc + List.length walk.
Proof.
  induction walk as [| [page | e] walk IH]; cbn [for_pages]; intros acc l H.
  - injection H as <-. cbn. lia.
  - apply IH in H. rewrite length_app in H. cbn in *. lia.
  - discriminate.
Qed.

(** A loop over the pages that ends has fetched every page, and its items
    are the pages' values, with the fallback where the page failed. *)
Lemma for_pages_map {A : Type} (f : Page num -> attempt A) (fallback : A)
    (walk : list (attempt (Page num))) :
  forall acc l,
    for_pages f fallback walk acc = Got l ->
    exists ps,
      walk = map Got ps
      /\ l = (acc
              ++ map (fun page =>
                        match f page with
                        | Got a => a
                        | Failed _ => fallback
                        end) ps)%list.
Proof.
  induction walk as [| [page | e] walk IH]; cbn [for_pages]; intros acc l H.
  - injection H as <-. exists []. split; [reflexivity |]. cbn.
    now rewrite app_nil_r.
  - destruct (IH _ _ H) as (ps & -> & ->). exists (page :: ps).
    split; [reflexivity |]. cbn [map]. now rewrite <- app_assoc.
  - discriminate.
Qed.

Lemma for_pages_total {A : Type} (f : Page num -> attempt A) (fallback : A)
    (ps : list (Page num)) :
  forall acc, exists l, for_pages f fallback (map Got ps) acc = Got l.
Proof.
  induction ps as [| page ps IH]; cbn [map for_pages]; intros acc; eauto.
Qed.

(** What [read_document] leaves behind, by the way it ends. *)
Lemma read_document_fields (reader : Reader num) (include_text : bool)
    (r0 r : PDFInfoResult num) (how : ending) :
  read_document letter_width letter_height reader include_text r0 = (r, how) ->
  text_content r0 = None -> is_linearized r0 = None ->
  error_message r = error_message r0
  /\ is_encrypted r = is_encrypted r0
  /\ file_path r = file_path r0
  /\ file_size_bytes r = file_size_bytes r0
  /\ how <> ReturnedEarly
  /\ (how = Completed ->
      success r = true
      /\ is_linearized r = Some false
      /\ List.length (page_dimensions r) = page_count r
      /\ (if include_text
          then exists texts,
                 text_content r = Some texts
                 /\ List.length texts = page_count r
          else text_content r = None))
  /\ (how <> Completed ->
      success r = success r0 /\ text_content r = None
      /\ is_linearized r = None).
Proof.
  unfold read_document. intros H Htext Hlin.
  destruct (pages reader) as [walk | e].
  2:{ injection H as <- <-. repeat split; auto; congruence. }
  destruct (metadata reader) as [md | e].
  2:{ injection H as <- <-. cbn. repeat split; auto; congruence. }
  set (r1 := match md with
             | Some (entry :: more) => set_metadata (entry :: more) _
             | _ => _
             end) in H.
  assert (Hr1 : error_message r1 = error_message r0
                /\ is_encrypted r1 = is_encrypted r0
                /\ file_path r1 = file_path r0
                /\ file_size_bytes r1 = file_size_bytes r0
                /\ success r1 = success r0
                /\ text_content r1 = None
                /\ is_linearized r1 = None
                /\ page_count r1 = List.length walk).
  { unfold r1. destruct md as [[| entry more] |]; cbn; auto 10. }
  destruct Hr1 as (H1 & H2 & H3 & H4 & H5 & H6 & H7 & H8).
  destruct (for_pages (dimensions_of) (letter letter_width letter_height) walk [])
    as [dims | e] eqn:Hdims.
  2:{ injection H as <- <-. repeat split; auto; congruence. }
  apply for_pages_length in Hdims. cbn in Hdims.
  destruct include_text.
  - destruct (for_pages extract_text "" walk []) as [texts | e] eqn:Htexts.
    + injection H as <- <-. apply for_pages_length in Htexts. cbn in Htexts.
      cbn. repeat split; auto; try congruence.
      exists texts. split; [reflexivity | congruence].
    + injection H as <- <-. cbn. repeat split; auto; congruence.
  - injection H as <- <-. cbn. repeat split; auto; congruence.
Qed.

(** The same for the whole [with] block. *)
Lemma read_pdf_fields (reader : Reader num) (include_text : bool)
    (password : option string) (r0 r : PDFInfoResult num) (how : ending) :
  read_pdf letter_width letter_height reader include_text password r0 = (r, how) ->
  text_content r0 = None -> is_linearized r0 = None ->
  error_message r0 = None -> success r0 = false ->
  file_path r = file_path r0
  /\ file_size_bytes r = file_size_bytes r0
  /\ (how = Completed ->
      success r = true /\ error_message r = None
      /\ is_linearized r = Some false
      /\ List.length (page_dimensions r) = page_count r
      /\ (if include_text
          then exists texts,
                 text_content r = Some texts
                 /\ List.length texts = page_count r
          else text_content r = None))
  /\ (how = ReturnedEarly ->
      success r = false /\ error_message r <> None
      /\ text_content r = None /\ is_linearized r = None)
  /\ (forall e, how = Threw e ->
      success r = false /\ error_message r = None
      /\ text_content r = None /\ is_linearized r = None).
Proof.
  unfold read_pdf. intros H Htext Hlin Herr Hsucc.
  assert (Hdoc : forall r1,
             read_document letter_width letter_height reader include_text r1
             = (r, how) ->
             text_content r1 = None -> is_linearized r1 = None ->
             error_message r1 = None -> success r1 = false ->
             file_path r1 = file_path r0 ->
             file_size_bytes r1 = file_size_bytes r0 ->
             file_path r = file_path r0
             /\ file_size_bytes r = file_size_bytes r0
             /\ (how = Completed ->
                 success r = true /\ error_message r = None
                 /\ is_linearized r = Some false
                 /\ List.length (page_dimensions r) = page_count r
                 /\ (if include_text
                     then exists texts,
                            text_content r = Some texts
                            /\ List.length texts = page_count r
                     else text_content r = None))
             /\ (how = ReturnedEarly ->
                 success r = false /\ error_message r <> None
                 /\ text_content r = None /\ is_linearized r = None)
             /\ (forall e, how = Threw e ->
                 success r = false /\ error_message r = None
                 /\ text_content r = None /\ is_linearized r = None)).
  { intros r1 Hrd Ht1 Hl1 He1 Hs1 Hp1 Hz1.
    destruct (read_document_fields _ _ _ _ _ Hrd Ht1 Hl1)
      as (E1 & E2 & E3 & E4 & Hne & Hok & Hbad).
    split; [congruence |]. split; [congruence |]. split; [| split].
    - intros Hc. destruct (Hok Hc) as (S1 & S2 & S3 & S4).
      repeat split; auto; congruence.
    - intros Hc. contradiction.
    - intros e Hc. destruct Hbad as (B1 & B2 & B3); [congruence |].
      repeat split; congruence. }
  destruct (reader_is_encrypted reader) as [[|] | e].
  - destruct password as [[| c p] |].
    + apply Hdoc in H; auto.
    + destruct (decrypt reader (String c p)) as [u | e].
      * apply Hdoc in H; auto.
      * injection H as <- <-. cbn.
        repeat split; auto; try congruence; try discriminate.
    + apply Hdoc in H; auto.
  - apply Hdoc in H; auto.
  - injection H as <- <-.
    repeat split; auto; try congruence; try discriminate.
Qed.

(** X24: when [extract_pdf_info] raises.  The call raises [PDFInfoError]
    exactly when the path is absent or empty or the file's size cannot be
    had, with the message of the case; a file that cannot be opened or is
    no PDF never makes it raise. *)
Theorem pdf_info_raises_iff (files : Files num) (path : option string)
    (include_text : bool) (password : option string) (msg : string) :
  extract_pdf_info letter_width letter_height files path include_text password
  = PDFInfoError msg <->
  (path = None /\ msg = "File path cannot be None")
  \/ (path = Some "" /\ msg = "File path cannot be empty")
  \/ (exists p e,
        path = Some p /\ p <> "" /\ stat_size files p = Raised e
        /\ msg = match exn_cls e with
                 | FileNotFoundError => "File not found: " ++ p
                 | _ => "Cannot access file: " ++ exn_msg e
                 end).
Proof.
  unfold extract_pdf_info. destruct path as [[| c p] |].
  - split.
    + intros [= <-]. right. left. now split.
    + intros [(H & _) | [(_ & ->) | (p & e & [= <-] & Hne & _)]];
        [discriminate | reflexivity | congruence].
  - destruct (stat_size files (String c p)) as [size | e] eqn:Hstat.
    + split.
      * intros H. exfalso.
        destruct (open_reader files (String c p)) as [reader | e'].
        -- destruct (read_pdf _ _ reader include_text password _)
             as [r [| | [m | m]]]; discriminate.
        -- destruct e'; discriminate.
      * intros [(H & _) | [(H & _) | (p' & e & [= <-] & _ & H & _)]];
          try discriminate; congruence.
    + split.
      * intros H. right. right. exists (String c p), e.
        split; [reflexivity |]. split; [discriminate |].
        split; [exact Hstat |].
        destruct (exn_cls e); congruence.
      * intros [(H & _) | [(H & _) | (p' & e' & [= <-] & _ & H & ->)]];
          try discriminate.
        rewrite Hstat in H. injection H as <-. now destruct (exn_cls e).
  - split.
    + intros [= <-]. left. now split.
    + intros [(_ & ->) | [(H & _) | (p & e & H & _)]];
        [reflexivity | discriminate | discriminate].
Qed.

(** X25: the fields of a returned result agree.  A result reports
    success exactly when it carries no error message.  On success there
    is one entry of [page_dimensions] for every page counted,
    [is_linearized] is [False], and [text_content] is a list with one
    entry for every page if the text was asked for and [None] if not.  On
    failure [text_content] and [is_linearized] are [None].  The path and
    the size are those of the file in both cases. *)
Theorem pdf_result_fields_agree (files : Files num) (path : option string)
    (include_text : bool) (password : option string) (r : PDFInfoResult num) :
  extract_pdf_info letter_width letter_height files path include_text password = Result r ->
  (success r = true <-> error_message r = None)
  /\ (success r = true ->
      List.length (page_dimensions r) = page_count r
      /\ is_linearized r = Some false
      /\ (if include_text
          then exists texts,
                 text_content r = Some texts
                 /\ List.length texts = page_count r
          else text_content r = None))
  /\ (success r = false -> text_content r = None /\ is_linearized r = None)
  /\ path = Some (file_path r)
  /\ stat_size files (file_path r) = Returned (file_size_bytes r).
Proof.
  unfold extract_pdf_info. destruct path as [[| c p] |]; try discriminate.
  destruct (stat_size files (String c p)) as [size | e] eqn:Hstat.
  2:{ destruct (exn_cls e); discriminate. }
  destruct (open_reader files (String c p)) as [reader | e].
  - destruct (read_pdf _ _ reader include_text password _) as [r1 how] eqn:Hread.
    apply read_pdf_fields in Hread; try reflexivity.
    destruct Hread as (Hp & Hz & Hok & Hearly & Hthrew).
    cbn [initial_result file_path file_size_bytes] in Hp, Hz.
    destruct how as [| | e].
    + intros [= <-]. destruct (Hok eq_refl) as (S1 & S2 & S3 & S4 & S5).
      rewrite Hp, Hz, S1, S2. repeat split; auto; discriminate.
    + intros [= <-]. destruct (Hearly eq_refl) as (S1 & S2 & S3 & S4).
      rewrite Hp, Hz, S1. repeat split; auto; try discriminate; congruence.
    + destruct (Hthrew e eq_refl) as (S1 & S2 & S3 & S4).
      destruct e as [m | m]; intros [= <-]; cbn; rewrite Hp, Hz, S1;
        repeat split; auto; try discriminate.
  - destruct e as [m | m]; intros [= <-]; cbn;
      repeat split; auto; try discriminate.
Qed.

(** X26: a page that cannot be read does not fail the call.  When the
    call succeeds, every page was fetched; [page_dimensions] lists the
    pages in order, with the letter format [612.0 x 792.0] for a page
    whose media box could not be had, and [text_content], if asked for,
    lists their texts, with the empty string for a page whose text could
    not be extracted. *)
Theorem unreadable_page_gets_defaults (files : Files num)
    (path : option string) (include_text : bool) (password : option string)
    (r : PDFInfoResult num) :
  extract_pdf_info letter_width letter_height files path include_text password = Result r ->
  success r = true ->
  exists reader ps,
    open_reader files (file_path r) = Got reader
    /\ pages reader = Got (map Got ps)
    /\ page_count r = List.length ps
    /\ page_dimensions r
       = map (fun page =>
                match mediabox page with
                | Got (w, h) => mkDimensions w h "pt"
                | Failed _ => (letter letter_width letter_height)
                end) ps
    /\ (include_text = true ->
        text_content r
        = Some (map (fun page =>
                       match extract_text page with
                       | Got text => text
                       | Failed _ => ""
                       end) ps)).
Proof.
  unfold extract_pdf_info. destruct path as [[| c p] |]; try discriminate.
  destruct (stat_size files (String c p)) as [size | e] eqn:Hstat.
  2:{ destruct (exn_cls e); discriminate. }
  set (r0 := @initial_result num (String c p) size).
  assert (Hdoc : forall reader r1 r2 how,
             read_document letter_width letter_height reader include_text r1
             = (r2, how) ->
             success r1 = false ->
             file_path r1 = String c p ->
             (how = Completed \/ success r2 = true) ->
             file_path r2 = String c p
             /\ exists ps,
                  pages reader = Got (map Got ps)
                  /\ page_count r2 = List.length ps
                  /\ page_dimensions r2
                     = map (fun page =>
                              match mediabox page with
                              | Got (w, h) => mkDimensions w h "pt"
                              | Failed _ => (letter letter_width letter_height)
                              end) ps
                  /\ (include_text = true ->
                      text_content r2
                      = Some (map (fun page =>
                                     match extract_text page with
                                     | Got text => text
                                     | Failed _ => ""
                                     end) ps))).
  { intros reader r1 r2 how Hrd Hs1 Hp1 Hdone. unfold read_document in Hrd.
    destruct (pages reader) as [walk | e].
    2:{ injection Hrd as <- <-. destruct Hdone; congruence. }
    destruct (metadata reader) as [md | e].
    2:{ injection Hrd as <- <-. cbn in Hdone. destruct Hdone; congruence. }
    set (r3 := match md with
               | Some (entry :: more) => set_metadata (entry :: more) _
               | _ => _
               end) in Hrd.
    assert (Hr3 : success r3 = false /\ file_path r3 = String c p
                  /\ page_count r3 = List.length walk).
    { unfold r3. destruct md as [[| entry more] |]; cbn; auto. }
    destruct Hr3 as (H1 & H2 & H3).
    destruct (for_pages dimensions_of (letter letter_width letter_height) walk [])
      as [dims | e] eqn:Hdims.
    2:{ injection Hrd as <- <-. destruct Hdone; congruence. }
    apply for_pages_map in Hdims as (ps & -> & ->). cbn [app] in *.
    assert (Hsame : map (fun page =>
                           match dimensions_of page with
                           | Got a => a
                           | Failed _ => (letter letter_width letter_height)
                           end) ps
                    = map (fun page =>
                             match mediabox page with
                             | Got (w, h) => mkDimensions w h "pt"
                             | Failed _ => (letter letter_width letter_height)
                             end) ps).
    { apply map_ext. intros page. unfold dimensions_of.
      destruct (mediabox page) as [[w h] | e]; reflexivity. }
    rewrite length_map in H3.
    destruct include_text.
    - destruct (for_pages extract_text "" (map Got ps) [])
        as [texts | e] eqn:Htexts.
      + apply for_pages_map in Htexts as (ps' & Hps' & ->).
        assert (ps' = ps) as ->.
        { clear -Hps'. revert ps' Hps'.
          induction ps as [| a ps IH]; intros [| b ps'] H; cbn in H;
            try discriminate; [reflexivity |].
          injection H as -> H. f_equal. now apply IH. }
        injection Hrd as <- <-. cbn. split; [exact H2 |].
        exists ps. repeat split; auto.
      + injection Hrd as <- <-. cbn in Hdone. destruct Hdone; congruence.
    - injection Hrd as <- <-. cbn. split; [exact H2 |].
      exists ps. repeat split; auto. discriminate. }
  destruct (open_reader files (String c p)) as [reader | e] eqn:Hopen.
  2:{ destruct e; intros [= <-]; discriminate. }
  destruct (read_pdf _ _ reader include_text password r0) as [r1 how] eqn:Hread.
  intros Hres Hsucc.
  assert (Hr : success r1 = true /\ r = r1).
  { pose proof (read_pdf_fields _ _ _ _ _ _ Hread eq_refl eq_refl eq_refl eq_refl)
      as (_ & _ & _ & _ & Hthrew).
    destruct how as [| | e]; [injection Hres as <-; auto .. |].
    destruct (Hthrew e eq_refl) as (Hf & _).
    destruct e as [m | m]; injection Hres as <-; cbn in Hsucc; congruence. }
  destruct Hr as (Hs & ->). clear Hres Hsucc.
  unfold read_pdf in Hread.
  assert (Hfrom : forall r2,
             read_document letter_width letter_height reader include_text r2
             = (r1, how) ->
             success r2 = false -> file_path r2 = String c p ->
             exists rd ps,
               open_reader files (file_path r1) = Got rd
               /\ pages rd = Got (map Got ps)
               /\ page_count r1 = List.length ps
               /\ page_dimensions r1
                  = map (fun page =>
                           match mediabox page with
                           | Got (w, h) => mkDimensions w h "pt"
                           | Failed _ => (letter letter_width letter_height)
                           end) ps
               /\ (include_text = true ->
                   text_content r1
                   = Some (map (fun page =>
                                  match extract_text page with
                                  | Got text => text
                                  | Failed _ => ""
                                  end) ps))).
  { intros r2 Hrd Hs2 Hp2.
    destruct (Hdoc _ _ _ _ Hrd Hs2 Hp2 (or_intror Hs)) as (Hp & ps & Hrest).
    exists reader, ps. rewrite Hp. split; [exact Hopen | exact Hrest]. }
  destruct (reader_is_encrypted reader) as [[|] | e].
  - destruct password as [[| c' p'] |].
    + now apply Hfrom in Hread.
    + destruct (decrypt reader (String c' p')) as [u | e].
      * now apply Hfrom in Hread.
      * injection Hread as <- <-. discriminate.
    + now apply Hfrom in Hread.
  - now apply Hfrom in Hread.
  - injection Hread as <- <-. discriminate.
Qed.

(** X27: the metadata fields come together.  In every returned result
    the six text fields [title], [author], [subject], [keywords],
    [producer] and [creator] are all [None], and then so are the two
    dates, or all present; a document with metadata but without a title
    reports the empty string, not [None]. *)
Theorem metadata_fields_come_together (files : Files num)
    (path : option string) (include_text : bool) (password : option string)
    (r : PDFInfoResult num) :
  extract_pdf_info letter_width letter_height files path include_text password = Result r ->
  (title r = None /\ author r = None /\ subject r = None
   /\ keywords r = None /\ producer r = None /\ creator r = None
   /\ creation_date r = None /\ modification_date r = None)
  \/ (exists reader entry more,
        open_reader files (file_path r) = Got reader
        /\ metadata reader = Got (Some (entry :: more))
        /\ title r = Some (dict_get_or "/Title" "" (entry :: more))
        /\ author r = Some (dict_get_or "/Author" "" (entry :: more))
        /\ subject r = Some (dict_get_or "/Subject" "" (entry :: more))
        /\ keywords r = Some (dict_get_or "/Keywords" "" (entry :: more))
        /\ producer r = Some (dict_get_or "/Producer" "" (entry :: more))
        /\ creator r = Some (dict_get_or "/Creator" "" (entry :: more))).
Proof.
  unfold extract_pdf_info. destruct path as [[| c p] |]; try discriminate.
  destruct (stat_size files (String c p)) as [size | e] eqn:Hstat.
  2:{ destruct (exn_cls e); discriminate. }
  set (r0 := @initial_result num (String c p) size).
  set (bare := fun x : PDFInfoResult num =>
                 title x = None /\ author x = None /\ subject x = None
                 /\ keywords x = None /\ producer x = None /\ creator x = None
                 /\ creation_date x = None /\ modification_date x = None).
  set (full := fun (reader : Reader num) (x : PDFInfoResult num) =>
                 exists entry more,
                   metadata reader = Got (Some (entry :: more))
                   /\ title x = Some (dict_get_or "/Title" "" (entry :: more))
                   /\ author x = Some (dict_get_or "/Author" "" (entry :: more))
                   /\ subject x = Some (dict_get_or "/Subject" "" (entry :: more))
                   /\ keywords x
                      = Some (dict_get_or "/Keywords" "" (entry :: more))
                   /\ producer x
                      = Some (dict_get_or "/Producer" "" (entry :: more))
                   /\ creator x
                      = Some (dict_get_or "/Creator" "" (entry :: more))).
  assert (Hdoc : forall reader r1 r2 how,
             read_document letter_width letter_height reader include_text r1
             = (r2, how) ->
             bare r1 -> file_path r1 = String c p ->
             file_path r2 = String c p /\ (bare r2 \/ full reader r2)).
  { intros reader r1 r2 how Hrd Hb Hp. unfold read_document in Hrd.
    destruct (pages reader) as [walk | e].
    2:{ injection Hrd as <- <-. auto. }
    destruct (metadata reader) as [md | e] eqn:Hmd.
    2:{ injection Hrd as <- <-. split; [exact Hp | left; exact Hb]. }
    set (r3 := match md with
               | Some (entry :: more) => set_metadata (entry :: more) _
               | _ => _
               end) in Hrd.
    assert (Hr3 : file_path r3 = String c p /\ (bare r3 \/ full reader r3)).
    { unfold r3. destruct md as [[| entry more] |]; cbn.
      - split; [exact Hp | left; exact Hb].
      - split; [exact Hp |]. right. exists entry, more. cbn. auto 10.
      - split; [exact Hp | left; exact Hb]. }
    destruct Hr3 as (Hp3 & Hm3).
    assert (Hkeep : forall x,
               file_path x = file_path r3 -> title x = title r3 ->
               author x = author r3 -> subject x = subject r3 ->
               keywords x = keywords r3 -> producer x = producer r3 ->
               creator x = creator r3 ->
               creation_date x = creation_date r3 ->
               modification_date x = modification_date r3 ->
               file_path x = String c p /\ (bare x \/ full reader x)).
    { intros x E0 E1 E2 E3 E4 E5 E6 E7 E8. split; [congruence |].
      destruct Hm3 as [Hb3 | (entry & more & Hf)].
      - left. unfold bare in *. rewrite E1, E2, E3, E4, E5, E6, E7, E8.
        exact Hb3.
      - right. exists entry, more. rewrite E1, E2, E3, E4, E5, E6.
        exact Hf. }
    destruct (for_pages dimensions_of (letter letter_width letter_height) walk []) as [dims | e].
    2:{ injection Hrd as <- <-. auto. }
    destruct include_text.
    - destruct (for_pages extract_text "" walk []) as [texts | e];
        injection Hrd as <- <-; apply Hkeep; reflexivity.
    - injection Hrd as <- <-. apply Hkeep; reflexivity. }
  assert (Hb0 : bare r0) by (unfold bare; cbn; auto 10).
  assert (Hset : forall m x, bare x -> bare (set_error_message m x)).
  { intros m x Hx. exact Hx. }
  destruct (open_reader files (String c p)) as [reader | e] eqn:Hopen.
  2:{ destruct e; intros [= <-]; left; exact Hb0. }
  destruct (read_pdf _ _ reader include_text password r0) as [r1 how] eqn:Hread.
  assert (Hr1 : file_path r1 = String c p /\ (bare r1 \/ full reader r1)).
  { unfold read_pdf in Hread.
    destruct (reader_is_encrypted reader) as [[|] | e].
    - destruct password as [[| c' p'] |].
      + eapply Hdoc; [exact Hread | exact Hb0 | reflexivity].
      + destruct (decrypt reader (String c' p')) as [u | e].
        * eapply Hdoc; [exact Hread | exact Hb0 | reflexivity].
        * injection Hread as <- <-. split; [reflexivity | left; exact Hb0].
      + eapply Hdoc; [exact Hread | exact Hb0 | reflexivity].
    - eapply Hdoc; [exact Hread | exact Hb0 | reflexivity].
    - injection Hread as <- <-. split; [reflexivity | left; exact Hb0]. }
  destruct Hr1 as (Hp1 & Hm1).
  assert (Hfin : forall x,
             file_path x = file_path r1 -> title x = title r1 ->
             author x = author r1 -> subject x = subject r1 ->
             keywords x = keywords r1 -> producer x = producer r1 ->
             creator x = creator r1 ->
             creation_date x = creation_date r1 ->
             modification_date x = modification_date r1 ->
             bare x
             \/ exists rd entry more,
                  open_reader files (file_path x) = Got rd
                  /\ metadata rd = Got (Some (entry :: more))
                  /\ title x = Some (dict_get_or "/Title" "" (entry :: more))
                  /\ author x = Some (dict_get_or "/Author" "" (entry :: more))
                  /\ subject x
                     = Some (dict_get_or "/Subject" "" (entry :: more))
                  /\ keywords x
                     = Some (dict_get_or "/Keywords" "" (entry :: more))
                  /\ producer x
                     = Some (dict_get_or "/Producer" "" (entry :: more))
                  /\ creator x
                     = Some (dict_get_or "/Creator" "" (entry :: more))).
  { intros x E0 E1 E2 E3 E4 E5 E6 E7 E8.
    destruct Hm1 as [Hb1 | (entry & more & Hf)].
    - left. unfold bare in *. rewrite E1, E2, E3, E4, E5, E6, E7, E8.
      exact Hb1.
    - right. exists reader, entry, more.
      rewrite E0, Hp1, E1, E2, E3, E4, E5, E6. split; [exact Hopen | exact Hf]. }
  destruct how as [| | [m | m]]; intros [= <-]; apply Hfin; reflexivity.
Qed.

End Reader.

Lemma pdf_result_fields_agree_witness :
  exists r,
    extract_pdf_info 612%Z 792%Z PdfExamples.sample_files (Some "a.pdf") true None
    = Result r
    /\ (success r = true <-> error_message r = None).
Proof.
  eexists. split; [reflexivity |].
  apply (pdf_result_fields_agree Z 612%Z 792%Z PdfExamples.sample_files
           (Some "a.pdf") true None _ eq_refl).
Defined.

Lemma unreadable_page_gets_defaults_witness :
  exists r reader ps,
    extract_pdf_info 612%Z 792%Z PdfExamples.sample_files (Some "a.pdf") true None
    = Result r
    /\ open_reader PdfExamples.sample_files (file_path r) = Got reader
    /\ pages reader = Got (map Got ps)
    /\ page_count r = List.length ps.
Proof.
  destruct (unreadable_page_gets_defaults Z 612%Z 792%Z
              PdfExamples.sample_files (Some "a.pdf") true None _
              eq_refl eq_refl)
    as (reader & ps & H1 & H2 & H3 & _).
  eexists. exists reader, ps. split; [reflexivity |]. auto.
Defined.

Lemma metadata_fields_come_together_witness :
  exists r,
    extract_pdf_info 612%Z 792%Z PdfExamples.sample_files (Some "a.pdf") true None
    = Result r
    /\ (title r = None \/ title r <> None).
Proof.
  eexists. split; [reflexivity |].
  destruct (metadata_fields_come_together Z 612%Z 792%Z
              PdfExamples.sample_files (Some "a.pdf") true None _ eq_refl)
    as [(H & _) | (reader & entry & more & _ & _ & H & _)].
  - left. exact H.
  - right. rewrite H. discriminate.
Defined.

End PdfInfoReaderFacts.


(** ** The helpers of [latex_utils.py] *)

Module LatexUtilsFacts.
Import Validate LatexUtils Spec ValidateFacts.

Lemma removelast_shorter {A : Type} (x : A) (l : list A) :
  List.length (removelast (x :: l)) = List.length l.
Proof.
  revert x. induction l as [| y l IH]; intros x; [reflexivity |].
  change (removelast (x :: y :: l)) with (x :: removelast (y :: l)).
  cbn [List.length]. now rewrite IH.
Qed.

(** The second loop ends early exactly when there are more closing than
    opening braces; otherwise it leaves the surplus of opening ones. *)
Lemma pop_each_length (closes : list nat) : forall open_braces,
  match pop_each closes open_braces with
  | None => List.length open_braces < List.length closes
  | Some remaining =>
      List.length remaining + List.length closes = List.length open_braces
  end.
Proof.
  induction closes as [| c closes IH]; intros open_braces; cbn [pop_each].
  - cbn. lia.
  - destruct open_braces as [| o rest]; [cbn; lia |].
    specialize (IH (removelast (o :: rest))).
    rewrite removelast_shorter in IH.
    destruct (pop_each closes (removelast (o :: rest))); cbn [List.length];
      lia.
Qed.

(** Without backslashes, the two lists of positions count the braces. *)
Lemma unescaped_counts (s : string) : forall pos pos',
  all_chars not_backslash s = true ->
  (Z.of_nat (List.length (finditer_unescaped "{" false pos s))
   - Z.of_nat (List.length (finditer_unescaped "}" false pos' s)))%Z
  = net_braces s.
Proof.
  induction s as [| x s IH]; intros pos pos' Hs; [reflexivity |].
  cbn [all_chars] in Hs. apply andb_true_iff in Hs as [Hx Hs].
  cbn [finditer_unescaped net_braces].
  unfold not_backslash in Hx. apply negb_true_iff in Hx. rewrite Hx.
  rewrite !length_app, !Nat2Z.inj_add, <- (IH (S pos) (S pos') Hs).
  unfold brace_delta. cbn [negb]. rewrite !andb_true_r.
  destruct (Ascii.eqb_spec x "{") as [-> | Ho].
  - change (Ascii.eqb "{" "}") with false. cbn [List.length]. lia.
  - destruct (Ascii.eqb x "}"); cbn [List.length]; lia.
Qed.

(** X29: the helper [check_brace_balance] only counts.  It answers
    [True] exactly when as many opening as closing braces stand without a
    backslash before them, in whatever order; on a text without
    backslashes that is when the braces balance in the end, so every text
    that passes the validator's brace check passes this one, and a text
    that closes a brace before opening it can pass this one alone. *)
Theorem utils_brace_check_counts_only (content : string) :
  (check_brace_balance content = true <->
   List.length (finditer_unescaped "{" false 0 content)
   = List.length (finditer_unescaped "}" false 0 content))
  /\ (all_chars not_backslash content = true ->
      (check_brace_balance content = true <-> net_braces content = 0%Z)
      /\ (brace_errors content = [] -> check_brace_balance content = true)).
Proof.
  assert (Hcount : check_brace_balance content = true <->
                   List.length (finditer_unescaped "{" false 0 content)
                   = List.length (finditer_unescaped "}" false 0 content)).
  { unfold check_brace_balance.
    pose proof (pop_each_length (finditer_unescaped "}" false 0 content)
                  (finditer_unescaped "{" false 0 content)) as H.
    destruct (pop_each _ _) as [remaining |].
    - rewrite Nat.eqb_eq. lia.
    - split; [discriminate | lia]. }
  split; [exact Hcount |].
  intros Hplain.
  assert (Hnet : check_brace_balance content = true <-> net_braces content = 0%Z).
  { rewrite Hcount, <- (unescaped_counts content 0 0 Hplain). lia. }
  split; [exact Hnet |].
  intros Hsilent. apply Hnet. now apply brace_errors_nil in Hsilent.
Qed.

Lemma utils_brace_check_counts_only_witness :
  check_brace_balance "}{" = true /\ brace_errors "}{" <> [].
Proof.
  split.
  - apply (proj1 (utils_brace_check_counts_only "}{")). reflexivity.
  - discriminate.
Defined.

Lemma top_of_snoc (l : list string) (x : string) : top_of (l ++ [x]) = Some x.
Proof.
  induction l as [| y l IH]; [reflexivity |].
  cbn [app]. destruct (l ++ [x])%list eqn:E; [now destruct l |].
  exact IH.
Qed.

Lemma stack_cases (l : list string) :
  l = [] \/ exists top s, l = (s ++ [top])%list.
Proof.
  induction l as [| top s _] using rev_ind; [now left |].
  right. now exists top, s.
Qed.

Lemma settle_grows (ends : list string) : forall stack unmatched stack' unmatched',
  settle ends stack unmatched = (stack', unmatched') ->
  exists more, unmatched' = (unmatched ++ more)%list.
Proof.
  induction ends as [| e ends IH]; intros stack um stack' um' H;
    cbn [settle] in H.
  - injection H as _ <-. exists []. now rewrite app_nil_r.
  - destruct (top_of stack) as [top |].
    + destruct (top =? e)%string.
      * exact (IH _ _ _ _ H).
      * destruct (IH _ _ _ _ H) as (more & ->). exists (e :: more).
        now rewrite <- app_assoc.
    + destruct (IH _ _ _ _ H) as (more & ->). exists (e :: more).
      now rewrite <- app_assoc.
Qed.

(** The loop leaves nothing unmatched exactly when the names that are
    ended are the names on the stack, read from its top. *)
Lemma settle_clean (ends : list string) : forall stack unmatched stack' unmatched',
  settle ends stack unmatched = (stack', unmatched') ->
  ((unmatched' ++ stack')%list = [] <-> unmatched = [] /\ ends = rev stack).
Proof.
  induction ends as [| e ends IH]; intros stack um stack' um' H;
    cbn [settle] in H.
  - injection H as <- <-. split.
    + intros Hnil. apply app_eq_nil in Hnil as [-> ->]. now split.
    + intros [-> Hrev]. destruct stack as [| x stack]; [reflexivity |].
      exfalso. cbn in Hrev. now destruct (rev stack).
  - assert (Hgrown : forall st,
               settle ends st (um ++ [e])%list = (stack', um') ->
               (um' ++ stack')%list <> []).
    { intros st Hst Hnil. apply settle_grows in Hst as (more & ->).
      apply app_eq_nil in Hnil as [Hnil _].
      apply app_eq_nil in Hnil as [Hnil _].
      apply app_eq_nil in Hnil as [_ Hnil]. discriminate. }
    destruct (stack_cases stack) as [-> | (top & s & ->)].
    + cbn [top_of] in H. split.
      * intros Hnil. now apply Hgrown in H.
      * intros [_ Hrev]. discriminate.
    + rewrite top_of_snoc in H.
      destruct (String.eqb_spec top e) as [-> | Hne].
      * rewrite removelast_last in H. rewrite (IH _ _ _ _ H).
        rewrite rev_app_distr. cbn [rev app]. split.
        -- intros [-> ->]. now split.
        -- intros [-> [= ->]]. now split.
      * split.
        -- intros Hnil. now apply Hgrown in H.
        -- intros [_ Hrev]. rewrite rev_app_distr in Hrev. cbn in Hrev.
           congruence.
Qed.

(** X30: the helper [find_unmatched_environments] reports nothing
    exactly when the names of the [\end] tags, in the order of the text,
    are the names of the [\begin] tags in reverse order; where the tags
    stand relative to one another plays no part.  Two environments that
    follow one another are reported unless they have the same name. *)
Theorem unmatched_empty_iff_mirrored (content : string) :
  find_unmatched_environments content = [] <->
  finditer_group "\end{" 0 content = rev (finditer_group "\begin{" 0 content).
Proof.
  unfold find_unmatched_environments.
  destruct (settle (finditer_group "\end{" 0 content)
              (finditer_group "\begin{" 0 content) [])
    as [stack' unmatched'] eqn:H.
  rewrite (settle_clean _ _ _ _ _ H). tauto.
Qed.

Lemma unmatched_empty_iff_mirrored_witness :
  find_unmatched_environments "\end{b}\end{a}\begin{a}\begin{b}" = []
  /\ find_unmatched_environments "\begin{a}\end{a}\begin{b}\end{b}" <> [].
Proof.
  split.
  - apply (proj2 (unmatched_empty_iff_mirrored _)). reflexivity.
  - discriminate.
Defined.

End LatexUtilsFacts.
